(** * zenml.model.model: resolution of a [Model] against the Model Control Plane

    A shallow embedding of [src/zenml/model/model.py]: the [Model]
    configuration object, its construction-time validator, the lazy version
    accessor, and the get-or-create resolver with its retry loop.

    Python objects are mutated in place; here the reference ([self]) and the
    store are threaded through a small monad that also collects, in program
    order, every effect the code performs: store calls, log records and
    sleeps. *)

From Stdlib Require Import ZArith QArith Qabs String Ascii List Bool Floats
  DecimalString Lia.
From stdpp Require Import gmap strings.
Import ListNotations.

#[local] Set Warnings "-inexact-float".
#[local] Open Scope string_scope.
#[local] Open Scope list_scope.

(** ** Python built-ins used by the module *)

Module Py.

(** *** Strings

    A Python [str] is a sequence of Unicode code points.  It is kept here
    as its UTF-8 encoding, which is also what a string literal of this file
    denotes; two strings are equal when their encodings are.  A [string]
    that is not the encoding of a sequence of code points stands for no
    Python string.  The tables below are those of Unicode 14.0, the
    version of CPython 3.11. *)

(** The payload of a continuation byte [10xxxxxx]. *)
Definition continuation (c : ascii) : option N :=
  let b := N_of_ascii c in
  if (128 <=? b)%N && (b <? 192)%N then Some (b - 128)%N else None.

(** The code points a string encodes; overlong forms, surrogates and
    values above U+10FFFF are no encodings. *)
Fixpoint code_points (s : string) : option (list N) :=
  match s with
  | EmptyString => Some []
  | String c r =>
      let b := N_of_ascii c in
      if (b <? 128)%N then option_map (cons b) (code_points r)
      else if (b <? 192)%N then None
      else if (b <? 224)%N then
        match r with
        | String c1 r1 =>
            match continuation c1 with
            | Some x1 =>
                let cp := ((b - 192) * 64 + x1)%N in
                if (128 <=? cp)%N then option_map (cons cp) (code_points r1)
                else None
            | None => None
            end
        | _ => None
        end
      else if (b <? 240)%N then
        match r with
        | String c1 (String c2 r2) =>
            match continuation c1, continuation c2 with
            | Some x1, Some x2 =>
                let cp := (((b - 224) * 64 + x1) * 64 + x2)%N in
                if (2048 <=? cp)%N && negb ((55296 <=? cp)%N && (cp <=? 57343)%N)
                then option_map (cons cp) (code_points r2)
                else None
            | _, _ => None
            end
        | _ => None
        end
      else if (b <? 248)%N then
        match r with
        | String c1 (String c2 (String c3 r3)) =>
            match continuation c1, continuation c2, continuation c3 with
            | Some x1, Some x2, Some x3 =>
                let cp := ((((b - 240) * 64 + x1) * 64 + x2) * 64 + x3)%N in
                if (65536 <=? cp)%N && (cp <=? 1114111)%N
                then option_map (cons cp) (code_points r3)
                else None
            | _, _, _ => None
            end
        | _ => None
        end
      else None
  end.

(** The encoding of one code point, and of a sequence. *)
Definition utf8 (cp : N) : string :=
  let byte (n : N) := String (ascii_of_N n) EmptyString in
  let tail (n : N) := byte (128 + n mod 64)%N in
  if (cp <? 128)%N then byte cp
  else if (cp <? 2048)%N then (byte (192 + cp / 64)%N ++ tail cp)%string
  else if (cp <? 65536)%N then
    (byte (224 + cp / 4096)%N ++ tail (cp / 64)%N ++ tail cp)%string
  else
    (byte (240 + cp / 262144)%N ++ tail (cp / 4096)%N ++ tail (cp / 64)%N
       ++ tail cp)%string.

Definition encode (l : list N) : string :=
  fold_right (fun cp s => (utf8 cp ++ s)%string) EmptyString l.

Definition in_ranges (table : list (N * N)) (cp : N) : bool :=
  existsb (fun '(first, last) => (first <=? cp)%N && (cp <=? last)%N) table.

(** The code points whose Numeric_Type is Decimal, Digit or Numeric. *)
Definition numeric_ranges : list (N * N) :=
  [  (0x30, 0x39); (0xB2, 0xB3); (0xB9, 0xB9); (0xBC, 0xBE);
   (0x660, 0x669); (0x6F0, 0x6F9); (0x7C0, 0x7C9); (0x966, 0x96F);
   (0x9E6, 0x9EF); (0x9F4, 0x9F9); (0xA66, 0xA6F); (0xAE6, 0xAEF);
   (0xB66, 0xB6F); (0xB72, 0xB77); (0xBE6, 0xBF2); (0xC66, 0xC6F);
   (0xC78, 0xC7E); (0xCE6, 0xCEF); (0xD58, 0xD5E); (0xD66, 0xD78);
   (0xDE6, 0xDEF); (0xE50, 0xE59); (0xED0, 0xED9); (0xF20, 0xF33);
   (0x1040, 0x1049); (0x1090, 0x1099); (0x1369, 0x137C); (0x16EE, 0x16F0);
   (0x17E0, 0x17E9); (0x17F0, 0x17F9); (0x1810, 0x1819); (0x1946, 0x194F);
   (0x19D0, 0x19DA); (0x1A80, 0x1A89); (0x1A90, 0x1A99); (0x1B50, 0x1B59);
   (0x1BB0, 0x1BB9); (0x1C40, 0x1C49); (0x1C50, 0x1C59); (0x2070, 0x2070);
   (0x2074, 0x2079); (0x2080, 0x2089); (0x2150, 0x2182); (0x2185, 0x2189);
   (0x2460, 0x249B); (0x24EA, 0x24FF); (0x2776, 0x2793); (0x2CFD, 0x2CFD);
   (0x3007, 0x3007); (0x3021, 0x3029); (0x3038, 0x303A); (0x3192, 0x3195);
   (0x3220, 0x3229); (0x3248, 0x324F); (0x3251, 0x325F); (0x3280, 0x3289);
   (0x32B1, 0x32BF); (0x3405, 0x3405); (0x3483, 0x3483); (0x382A, 0x382A);
   (0x3B4D, 0x3B4D); (0x4E00, 0x4E00); (0x4E03, 0x4E03); (0x4E07, 0x4E07);
   (0x4E09, 0x4E09); (0x4E5D, 0x4E5D); (0x4E8C, 0x4E8C); (0x4E94, 0x4E94);
   (0x4E96, 0x4E96); (0x4EBF, 0x4EC0); (0x4EDF, 0x4EDF); (0x4EE8, 0x4EE8);
   (0x4F0D, 0x4F0D); (0x4F70, 0x4F70); (0x5104, 0x5104); (0x5146, 0x5146);
   (0x5169, 0x5169); (0x516B, 0x516B); (0x516D, 0x516D); (0x5341, 0x5341);
   (0x5343, 0x5345); (0x534C, 0x534C); (0x53C1, 0x53C4); (0x56DB, 0x56DB);
   (0x58F1, 0x58F1); (0x58F9, 0x58F9); (0x5E7A, 0x5E7A); (0x5EFE, 0x5EFF);
   (0x5F0C, 0x5F0E); (0x5F10, 0x5F10); (0x62FE, 0x62FE); (0x634C, 0x634C);
   (0x67D2, 0x67D2); (0x6F06, 0x6F06); (0x7396, 0x7396); (0x767E, 0x767E);
   (0x8086, 0x8086); (0x842C, 0x842C); (0x8CAE, 0x8CAE); (0x8CB3, 0x8CB3);
   (0x8D30, 0x8D30); (0x9621, 0x9621); (0x9646, 0x9646); (0x964C, 0x964C);
   (0x9678, 0x9678); (0x96F6, 0x96F6); (0xA620, 0xA629); (0xA6E6, 0xA6EF);
   (0xA830, 0xA835); (0xA8D0, 0xA8D9); (0xA900, 0xA909); (0xA9D0, 0xA9D9);
   (0xA9F0, 0xA9F9); (0xAA50, 0xAA59); (0xABF0, 0xABF9); (0xF96B, 0xF96B);
   (0xF973, 0xF973); (0xF978, 0xF978); (0xF9B2, 0xF9B2); (0xF9D1, 0xF9D1);
   (0xF9D3, 0xF9D3); (0xF9FD, 0xF9FD); (0xFF10, 0xFF19); (0x10107, 0x10133);
   (0x10140, 0x10178); (0x1018A, 0x1018B); (0x102E1, 0x102FB); (0x10320, 0x10323);
   (0x10341, 0x10341); (0x1034A, 0x1034A); (0x103D1, 0x103D5); (0x104A0, 0x104A9);
   (0x10858, 0x1085F); (0x10879, 0x1087F); (0x108A7, 0x108AF); (0x108FB, 0x108FF);
   (0x10916, 0x1091B); (0x109BC, 0x109BD); (0x109C0, 0x109CF); (0x109D2, 0x109FF);
   (0x10A40, 0x10A48); (0x10A7D, 0x10A7E); (0x10A9D, 0x10A9F); (0x10AEB, 0x10AEF);
   (0x10B58, 0x10B5F); (0x10B78, 0x10B7F); (0x10BA9, 0x10BAF); (0x10CFA, 0x10CFF);
   (0x10D30, 0x10D39); (0x10E60, 0x10E7E); (0x10F1D, 0x10F26); (0x10F51, 0x10F54);
   (0x10FC5, 0x10FCB); (0x11052, 0x1106F); (0x110F0, 0x110F9); (0x11136, 0x1113F);
   (0x111D0, 0x111D9); (0x111E1, 0x111F4); (0x112F0, 0x112F9); (0x11450, 0x11459);
   (0x114D0, 0x114D9); (0x11650, 0x11659); (0x116C0, 0x116C9); (0x11730, 0x1173B);
   (0x118E0, 0x118F2); (0x11950, 0x11959); (0x11C50, 0x11C6C); (0x11D50, 0x11D59);
   (0x11DA0, 0x11DA9); (0x11FC0, 0x11FD4); (0x12400, 0x1246E); (0x16A60, 0x16A69);
   (0x16AC0, 0x16AC9); (0x16B50, 0x16B59); (0x16B5B, 0x16B61); (0x16E80, 0x16E96);
   (0x1D2E0, 0x1D2F3); (0x1D360, 0x1D378); (0x1D7CE, 0x1D7FF); (0x1E140, 0x1E149);
   (0x1E2F0, 0x1E2F9); (0x1E8C7, 0x1E8CF); (0x1E950, 0x1E959); (0x1EC71, 0x1ECAB);
   (0x1ECAD, 0x1ECAF); (0x1ECB1, 0x1ECB4); (0x1ED01, 0x1ED2D); (0x1ED2F, 0x1ED3D);
   (0x1F100, 0x1F10C); (0x1FBF0, 0x1FBF9); (0x20001, 0x20001); (0x20064, 0x20064);
   (0x200E2, 0x200E2); (0x20121, 0x20121); (0x2092A, 0x2092A); (0x20983, 0x20983);
   (0x2098C, 0x2098C); (0x2099C, 0x2099C); (0x20AEA, 0x20AEA); (0x20AFD, 0x20AFD);
   (0x20B19, 0x20B19); (0x22390, 0x22390); (0x22998, 0x22998); (0x23B1B, 0x23B1B);
   (0x2626D, 0x2626D); (0x2F890, 0x2F890)]%N.

(** [str.isnumeric]: the string is not empty and all its characters are
    numeric. *)
Definition isnumeric (s : string) : bool :=
  match code_points s with
  | Some (cp :: rest) => forallb (in_ranges numeric_ranges) (cp :: rest)
  | _ => false
  end.



(** The lower-case mapping of a code point: every code point from [first]
    to [last] in steps of [step] maps to the code point at the same
    distance from [target]; U+0130 maps to two code points; a code point
    in no row maps to itself. *)
Definition lower_rows : list (N * N * N * N) :=
  [  (0x41, 0x5A, 1, 0x61); (0xC0, 0xD6, 1, 0xE0); (0xD8, 0xDE, 1, 0xF8);
   (0x100, 0x12E, 2, 0x101); (0x132, 0x136, 2, 0x133); (0x139, 0x147, 2, 0x13A);
   (0x14A, 0x176, 2, 0x14B); (0x178, 0x178, 1, 0xFF); (0x179, 0x17D, 2, 0x17A);
   (0x181, 0x181, 1, 0x253); (0x182, 0x184, 2, 0x183); (0x186, 0x186, 1, 0x254);
   (0x187, 0x187, 1, 0x188); (0x189, 0x18A, 1, 0x256); (0x18B, 0x18B, 1, 0x18C);
   (0x18E, 0x18E, 1, 0x1DD); (0x18F, 0x18F, 1, 0x259); (0x190, 0x190, 1, 0x25B);
   (0x191, 0x191, 1, 0x192); (0x193, 0x193, 1, 0x260); (0x194, 0x194, 1, 0x263);
   (0x196, 0x196, 1, 0x269); (0x197, 0x197, 1, 0x268); (0x198, 0x198, 1, 0x199);
   (0x19C, 0x19C, 1, 0x26F); (0x19D, 0x19D, 1, 0x272); (0x19F, 0x19F, 1, 0x275);
   (0x1A0, 0x1A4, 2, 0x1A1); (0x1A6, 0x1A6, 1, 0x280); (0x1A7, 0x1A7, 1, 0x1A8);
   (0x1A9, 0x1A9, 1, 0x283); (0x1AC, 0x1AC, 1, 0x1AD); (0x1AE, 0x1AE, 1, 0x288);
   (0x1AF, 0x1AF, 1, 0x1B0); (0x1B1, 0x1B2, 1, 0x28A); (0x1B3, 0x1B5, 2, 0x1B4);
   (0x1B7, 0x1B7, 1, 0x292); (0x1B8, 0x1B8, 1, 0x1B9); (0x1BC, 0x1BC, 1, 0x1BD);
   (0x1C4, 0x1C4, 1, 0x1C6); (0x1C5, 0x1C5, 1, 0x1C6); (0x1C7, 0x1C7, 1, 0x1C9);
   (0x1C8, 0x1C8, 1, 0x1C9); (0x1CA, 0x1CA, 1, 0x1CC); (0x1CB, 0x1DB, 2, 0x1CC);
   (0x1DE, 0x1EE, 2, 0x1DF); (0x1F1, 0x1F1, 1, 0x1F3); (0x1F2, 0x1F4, 2, 0x1F3);
   (0x1F6, 0x1F6, 1, 0x195); (0x1F7, 0x1F7, 1, 0x1BF); (0x1F8, 0x21E, 2, 0x1F9);
   (0x220, 0x220, 1, 0x19E); (0x222, 0x232, 2, 0x223); (0x23A, 0x23A, 1, 0x2C65);
   (0x23B, 0x23B, 1, 0x23C); (0x23D, 0x23D, 1, 0x19A); (0x23E, 0x23E, 1, 0x2C66);
   (0x241, 0x241, 1, 0x242); (0x243, 0x243, 1, 0x180); (0x244, 0x244, 1, 0x289);
   (0x245, 0x245, 1, 0x28C); (0x246, 0x24E, 2, 0x247); (0x370, 0x372, 2, 0x371);
   (0x376, 0x376, 1, 0x377); (0x37F, 0x37F, 1, 0x3F3); (0x386, 0x386, 1, 0x3AC);
   (0x388, 0x38A, 1, 0x3AD); (0x38C, 0x38C, 1, 0x3CC); (0x38E, 0x38F, 1, 0x3CD);
   (0x391, 0x3A1, 1, 0x3B1); (0x3A3, 0x3AB, 1, 0x3C3); (0x3CF, 0x3CF, 1, 0x3D7);
   (0x3D8, 0x3EE, 2, 0x3D9); (0x3F4, 0x3F4, 1, 0x3B8); (0x3F7, 0x3F7, 1, 0x3F8);
   (0x3F9, 0x3F9, 1, 0x3F2); (0x3FA, 0x3FA, 1, 0x3FB); (0x3FD, 0x3FF, 1, 0x37B);
   (0x400, 0x40F, 1, 0x450); (0x410, 0x42F, 1, 0x430); (0x460, 0x480, 2, 0x461);
   (0x48A, 0x4BE, 2, 0x48B); (0x4C0, 0x4C0, 1, 0x4CF); (0x4C1, 0x4CD, 2, 0x4C2);
   (0x4D0, 0x52E, 2, 0x4D1); (0x531, 0x556, 1, 0x561); (0x10A0, 0x10C5, 1, 0x2D00);
   (0x10C7, 0x10C7, 1, 0x2D27); (0x10CD, 0x10CD, 1, 0x2D2D); (0x13A0, 0x13EF, 1, 0xAB70);
   (0x13F0, 0x13F5, 1, 0x13F8); (0x1C90, 0x1CBA, 1, 0x10D0); (0x1CBD, 0x1CBF, 1, 0x10FD);
   (0x1E00, 0x1E94, 2, 0x1E01); (0x1E9E, 0x1E9E, 1, 0xDF); (0x1EA0, 0x1EFE, 2, 0x1EA1);
   (0x1F08, 0x1F0F, 1, 0x1F00); (0x1F18, 0x1F1D, 1, 0x1F10); (0x1F28, 0x1F2F, 1, 0x1F20);
   (0x1F38, 0x1F3F, 1, 0x1F30); (0x1F48, 0x1F4D, 1, 0x1F40); (0x1F59, 0x1F5F, 2, 0x1F51);
   (0x1F68, 0x1F6F, 1, 0x1F60); (0x1F88, 0x1F8F, 1, 0x1F80); (0x1F98, 0x1F9F, 1, 0x1F90);
   (0x1FA8, 0x1FAF, 1, 0x1FA0); (0x1FB8, 0x1FB9, 1, 0x1FB0); (0x1FBA, 0x1FBB, 1, 0x1F70);
   (0x1FBC, 0x1FBC, 1, 0x1FB3); (0x1FC8, 0x1FCB, 1, 0x1F72); (0x1FCC, 0x1FCC, 1, 0x1FC3);
   (0x1FD8, 0x1FD9, 1, 0x1FD0); (0x1FDA, 0x1FDB, 1, 0x1F76); (0x1FE8, 0x1FE9, 1, 0x1FE0);
   (0x1FEA, 0x1FEB, 1, 0x1F7A); (0x1FEC, 0x1FEC, 1, 0x1FE5); (0x1FF8, 0x1FF9, 1, 0x1F78);
   (0x1FFA, 0x1FFB, 1, 0x1F7C); (0x1FFC, 0x1FFC, 1, 0x1FF3); (0x2126, 0x2126, 1, 0x3C9);
   (0x212A, 0x212A, 1, 0x6B); (0x212B, 0x212B, 1, 0xE5); (0x2132, 0x2132, 1, 0x214E);
   (0x2160, 0x216F, 1, 0x2170); (0x2183, 0x2183, 1, 0x2184); (0x24B6, 0x24CF, 1, 0x24D0);
   (0x2C00, 0x2C2F, 1, 0x2C30); (0x2C60, 0x2C60, 1, 0x2C61); (0x2C62, 0x2C62, 1, 0x26B);
   (0x2C63, 0x2C63, 1, 0x1D7D); (0x2C64, 0x2C64, 1, 0x27D); (0x2C67, 0x2C6B, 2, 0x2C68);
   (0x2C6D, 0x2C6D, 1, 0x251); (0x2C6E, 0x2C6E, 1, 0x271); (0x2C6F, 0x2C6F, 1, 0x250);
   (0x2C70, 0x2C70, 1, 0x252); (0x2C72, 0x2C72, 1, 0x2C73); (0x2C75, 0x2C75, 1, 0x2C76);
   (0x2C7E, 0x2C7F, 1, 0x23F); (0x2C80, 0x2CE2, 2, 0x2C81); (0x2CEB, 0x2CED, 2, 0x2CEC);
   (0x2CF2, 0x2CF2, 1, 0x2CF3); (0xA640, 0xA66C, 2, 0xA641); (0xA680, 0xA69A, 2, 0xA681);
   (0xA722, 0xA72E, 2, 0xA723); (0xA732, 0xA76E, 2, 0xA733); (0xA779, 0xA77B, 2, 0xA77A);
   (0xA77D, 0xA77D, 1, 0x1D79); (0xA77E, 0xA786, 2, 0xA77F); (0xA78B, 0xA78B, 1, 0xA78C);
   (0xA78D, 0xA78D, 1, 0x265); (0xA790, 0xA792, 2, 0xA791); (0xA796, 0xA7A8, 2, 0xA797);
   (0xA7AA, 0xA7AA, 1, 0x266); (0xA7AB, 0xA7AB, 1, 0x25C); (0xA7AC, 0xA7AC, 1, 0x261);
   (0xA7AD, 0xA7AD, 1, 0x26C); (0xA7AE, 0xA7AE, 1, 0x26A); (0xA7B0, 0xA7B0, 1, 0x29E);
   (0xA7B1, 0xA7B1, 1, 0x287); (0xA7B2, 0xA7B2, 1, 0x29D); (0xA7B3, 0xA7B3, 1, 0xAB53);
   (0xA7B4, 0xA7C2, 2, 0xA7B5); (0xA7C4, 0xA7C4, 1, 0xA794); (0xA7C5, 0xA7C5, 1, 0x282);
   (0xA7C6, 0xA7C6, 1, 0x1D8E); (0xA7C7, 0xA7C9, 2, 0xA7C8); (0xA7D0, 0xA7D0, 1, 0xA7D1);
   (0xA7D6, 0xA7D8, 2, 0xA7D7); (0xA7F5, 0xA7F5, 1, 0xA7F6); (0xFF21, 0xFF3A, 1, 0xFF41);
   (0x10400, 0x10427, 1, 0x10428); (0x104B0, 0x104D3, 1, 0x104D8); (0x10570, 0x10594, 2, 0x10597);
   (0x10571, 0x10579, 2, 0x10598); (0x1057D, 0x10589, 2, 0x105A4); (0x1058D, 0x10591, 2, 0x105B4);
   (0x10595, 0x10595, 1, 0x105BC); (0x10C80, 0x10CB2, 1, 0x10CC0); (0x118A0, 0x118BF, 1, 0x118C0);
   (0x16E40, 0x16E5F, 1, 0x16E60); (0x1E900, 0x1E921, 1, 0x1E922)]%N.

Definition lower_code_point (cp : N) : list N :=
  if (cp =? 0x130)%N then [0x69; 0x307]%N
  else
    match List.find (fun '(first, last, step, _) =>
                       (first <=? cp)%N && (cp <=? last)%N
                       && ((cp - first) mod step =? 0)%N) lower_rows with
    | Some (first, _, _, target) => [(target + (cp - first))%N]
    | None => [cp]
    end.

(** The properties Case_Ignorable and Cased. *)
Definition case_ignorable_ranges : list (N * N) :=
  [  (0x27, 0x27); (0x2E, 0x2E); (0x3A, 0x3A); (0x5E, 0x5E);
   (0x60, 0x60); (0xA8, 0xA8); (0xAD, 0xAD); (0xAF, 0xAF);
   (0xB4, 0xB4); (0xB7, 0xB8); (0x2B0, 0x36F); (0x374, 0x375);
   (0x37A, 0x37A); (0x384, 0x385); (0x387, 0x387); (0x483, 0x489);
   (0x559, 0x559); (0x55F, 0x55F); (0x591, 0x5BD); (0x5BF, 0x5BF);
   (0x5C1, 0x5C2); (0x5C4, 0x5C5); (0x5C7, 0x5C7); (0x5F4, 0x5F4);
   (0x600, 0x605); (0x610, 0x61A); (0x61C, 0x61C); (0x640, 0x640);
   (0x64B, 0x65F); (0x670, 0x670); (0x6D6, 0x6DD); (0x6DF, 0x6E8);
   (0x6EA, 0x6ED); (0x70F, 0x70F); (0x711, 0x711); (0x730, 0x74A);
   (0x7A6, 0x7B0); (0x7EB, 0x7F5); (0x7FA, 0x7FA); (0x7FD, 0x7FD);
   (0x816, 0x82D); (0x859, 0x85B); (0x888, 0x888); (0x890, 0x891);
   (0x898, 0x89F); (0x8C9, 0x902); (0x93A, 0x93A); (0x93C, 0x93C);
   (0x941, 0x948); (0x94D, 0x94D); (0x951, 0x957); (0x962, 0x963);
   (0x971, 0x971); (0x981, 0x981); (0x9BC, 0x9BC); (0x9C1, 0x9C4);
   (0x9CD, 0x9CD); (0x9E2, 0x9E3); (0x9FE, 0x9FE); (0xA01, 0xA02);
   (0xA3C, 0xA3C); (0xA41, 0xA42); (0xA47, 0xA48); (0xA4B, 0xA4D);
   (0xA51, 0xA51); (0xA70, 0xA71); (0xA75, 0xA75); (0xA81, 0xA82);
   (0xABC, 0xABC); (0xAC1, 0xAC5); (0xAC7, 0xAC8); (0xACD, 0xACD);
   (0xAE2, 0xAE3); (0xAFA, 0xAFF); (0xB01, 0xB01); (0xB3C, 0xB3C);
   (0xB3F, 0xB3F); (0xB41, 0xB44); (0xB4D, 0xB4D); (0xB55, 0xB56);
   (0xB62, 0xB63); (0xB82, 0xB82); (0xBC0, 0xBC0); (0xBCD, 0xBCD);
   (0xC00, 0xC00); (0xC04, 0xC04); (0xC3C, 0xC3C); (0xC3E, 0xC40);
   (0xC46, 0xC48); (0xC4A, 0xC4D); (0xC55, 0xC56); (0xC62, 0xC63);
   (0xC81, 0xC81); (0xCBC, 0xCBC); (0xCBF, 0xCBF); (0xCC6, 0xCC6);
   (0xCCC, 0xCCD); (0xCE2, 0xCE3); (0xD00, 0xD01); (0xD3B, 0xD3C);
   (0xD41, 0xD44); (0xD4D, 0xD4D); (0xD62, 0xD63); (0xD81, 0xD81);
   (0xDCA, 0xDCA); (0xDD2, 0xDD4); (0xDD6, 0xDD6); (0xE31, 0xE31);
   (0xE34, 0xE3A); (0xE46, 0xE4E); (0xEB1, 0xEB1); (0xEB4, 0xEBC);
   (0xEC6, 0xEC6); (0xEC8, 0xECD); (0xF18, 0xF19); (0xF35, 0xF35);
   (0xF37, 0xF37); (0xF39, 0xF39); (0xF71, 0xF7E); (0xF80, 0xF84);
   (0xF86, 0xF87); (0xF8D, 0xF97); (0xF99, 0xFBC); (0xFC6, 0xFC6);
   (0x102D, 0x1030); (0x1032, 0x1037); (0x1039, 0x103A); (0x103D, 0x103E);
   (0x1058, 0x1059); (0x105E, 0x1060); (0x1071, 0x1074); (0x1082, 0x1082);
   (0x1085, 0x1086); (0x108D, 0x108D); (0x109D, 0x109D); (0x10FC, 0x10FC);
   (0x135D, 0x135F); (0x1712, 0x1714); (0x1732, 0x1733); (0x1752, 0x1753);
   (0x1772, 0x1773); (0x17B4, 0x17B5); (0x17B7, 0x17BD); (0x17C6, 0x17C6);
   (0x17C9, 0x17D3); (0x17D7, 0x17D7); (0x17DD, 0x17DD); (0x180B, 0x180F);
   (0x1843, 0x1843); (0x1885, 0x1886); (0x18A9, 0x18A9); (0x1920, 0x1922);
   (0x1927, 0x1928); (0x1932, 0x1932); (0x1939, 0x193B); (0x1A17, 0x1A18);
   (0x1A1B, 0x1A1B); (0x1A56, 0x1A56); (0x1A58, 0x1A5E); (0x1A60, 0x1A60);
   (0x1A62, 0x1A62); (0x1A65, 0x1A6C); (0x1A73, 0x1A7C); (0x1A7F, 0x1A7F);
   (0x1AA7, 0x1AA7); (0x1AB0, 0x1ACE); (0x1B00, 0x1B03); (0x1B34, 0x1B34);
   (0x1B36, 0x1B3A); (0x1B3C, 0x1B3C); (0x1B42, 0x1B42); (0x1B6B, 0x1B73);
   (0x1B80, 0x1B81); (0x1BA2, 0x1BA5); (0x1BA8, 0x1BA9); (0x1BAB, 0x1BAD);
   (0x1BE6, 0x1BE6); (0x1BE8, 0x1BE9); (0x1BED, 0x1BED); (0x1BEF, 0x1BF1);
   (0x1C2C, 0x1C33); (0x1C36, 0x1C37); (0x1C78, 0x1C7D); (0x1CD0, 0x1CD2);
   (0x1CD4, 0x1CE0); (0x1CE2, 0x1CE8); (0x1CED, 0x1CED); (0x1CF4, 0x1CF4);
   (0x1CF8, 0x1CF9); (0x1D2C, 0x1D6A); (0x1D78, 0x1D78); (0x1D9B, 0x1DFF);
   (0x1FBD, 0x1FBD); (0x1FBF, 0x1FC1); (0x1FCD, 0x1FCF); (0x1FDD, 0x1FDF);
   (0x1FED, 0x1FEF); (0x1FFD, 0x1FFE); (0x200B, 0x200F); (0x2018, 0x2019);
   (0x2024, 0x2024); (0x2027, 0x2027); (0x202A, 0x202E); (0x2060, 0x2064);
   (0x2066, 0x206F); (0x2071, 0x2071); (0x207F, 0x207F); (0x2090, 0x209C);
   (0x20D0, 0x20F0); (0x2C7C, 0x2C7D); (0x2CEF, 0x2CF1); (0x2D6F, 0x2D6F);
   (0x2D7F, 0x2D7F); (0x2DE0, 0x2DFF); (0x2E2F, 0x2E2F); (0x3005, 0x3005);
   (0x302A, 0x302D); (0x3031, 0x3035); (0x303B, 0x303B); (0x3099, 0x309E);
   (0x30FC, 0x30FE); (0xA015, 0xA015); (0xA4F8, 0xA4FD); (0xA60C, 0xA60C);
   (0xA66F, 0xA672); (0xA674, 0xA67D); (0xA67F, 0xA67F); (0xA69C, 0xA69F);
   (0xA6F0, 0xA6F1); (0xA700, 0xA721); (0xA770, 0xA770); (0xA788, 0xA78A);
   (0xA7F2, 0xA7F4); (0xA7F8, 0xA7F9); (0xA802, 0xA802); (0xA806, 0xA806);
   (0xA80B, 0xA80B); (0xA825, 0xA826); (0xA82C, 0xA82C); (0xA8C4, 0xA8C5);
   (0xA8E0, 0xA8F1); (0xA8FF, 0xA8FF); (0xA926, 0xA92D); (0xA947, 0xA951);
   (0xA980, 0xA982); (0xA9B3, 0xA9B3); (0xA9B6, 0xA9B9); (0xA9BC, 0xA9BD);
   (0xA9CF, 0xA9CF); (0xA9E5, 0xA9E6); (0xAA29, 0xAA2E); (0xAA31, 0xAA32);
   (0xAA35, 0xAA36); (0xAA43, 0xAA43); (0xAA4C, 0xAA4C); (0xAA70, 0xAA70);
   (0xAA7C, 0xAA7C); (0xAAB0, 0xAAB0); (0xAAB2, 0xAAB4); (0xAAB7, 0xAAB8);
   (0xAABE, 0xAABF); (0xAAC1, 0xAAC1); (0xAADD, 0xAADD); (0xAAEC, 0xAAED);
   (0xAAF3, 0xAAF4); (0xAAF6, 0xAAF6); (0xAB5B, 0xAB5F); (0xAB69, 0xAB6B);
   (0xABE5, 0xABE5); (0xABE8, 0xABE8); (0xABED, 0xABED); (0xFB1E, 0xFB1E);
   (0xFBB2, 0xFBC2); (0xFE00, 0xFE0F); (0xFE13, 0xFE13); (0xFE20, 0xFE2F);
   (0xFE52, 0xFE52); (0xFE55, 0xFE55); (0xFEFF, 0xFEFF); (0xFF07, 0xFF07);
   (0xFF0E, 0xFF0E); (0xFF1A, 0xFF1A); (0xFF3E, 0xFF3E); (0xFF40, 0xFF40);
   (0xFF70, 0xFF70); (0xFF9E, 0xFF9F); (0xFFE3, 0xFFE3); (0xFFF9, 0xFFFB);
   (0x101FD, 0x101FD); (0x102E0, 0x102E0); (0x10376, 0x1037A); (0x10780, 0x10785);
   (0x10787, 0x107B0); (0x107B2, 0x107BA); (0x10A01, 0x10A03); (0x10A05, 0x10A06);
   (0x10A0C, 0x10A0F); (0x10A38, 0x10A3A); (0x10A3F, 0x10A3F); (0x10AE5, 0x10AE6);
   (0x10D24, 0x10D27); (0x10EAB, 0x10EAC); (0x10F46, 0x10F50); (0x10F82, 0x10F85);
   (0x11001, 0x11001); (0x11038, 0x11046); (0x11070, 0x11070); (0x11073, 0x11074);
   (0x1107F, 0x11081); (0x110B3, 0x110B6); (0x110B9, 0x110BA); (0x110BD, 0x110BD);
   (0x110C2, 0x110C2); (0x110CD, 0x110CD); (0x11100, 0x11102); (0x11127, 0x1112B);
   (0x1112D, 0x11134); (0x11173, 0x11173); (0x11180, 0x11181); (0x111B6, 0x111BE);
   (0x111C9, 0x111CC); (0x111CF, 0x111CF); (0x1122F, 0x11231); (0x11234, 0x11234);
   (0x11236, 0x11237); (0x1123E, 0x1123E); (0x112DF, 0x112DF); (0x112E3, 0x112EA);
   (0x11300, 0x11301); (0x1133B, 0x1133C); (0x11340, 0x11340); (0x11366, 0x1136C);
   (0x11370, 0x11374); (0x11438, 0x1143F); (0x11442, 0x11444); (0x11446, 0x11446);
   (0x1145E, 0x1145E); (0x114B3, 0x114B8); (0x114BA, 0x114BA); (0x114BF, 0x114C0);
   (0x114C2, 0x114C3); (0x115B2, 0x115B5); (0x115BC, 0x115BD); (0x115BF, 0x115C0);
   (0x115DC, 0x115DD); (0x11633, 0x1163A); (0x1163D, 0x1163D); (0x1163F, 0x11640);
   (0x116AB, 0x116AB); (0x116AD, 0x116AD); (0x116B0, 0x116B5); (0x116B7, 0x116B7);
   (0x1171D, 0x1171F); (0x11722, 0x11725); (0x11727, 0x1172B); (0x1182F, 0x11837);
   (0x11839, 0x1183A); (0x1193B, 0x1193C); (0x1193E, 0x1193E); (0x11943, 0x11943);
   (0x119D4, 0x119D7); (0x119DA, 0x119DB); (0x119E0, 0x119E0); (0x11A01, 0x11A0A);
   (0x11A33, 0x11A38); (0x11A3B, 0x11A3E); (0x11A47, 0x11A47); (0x11A51, 0x11A56);
   (0x11A59, 0x11A5B); (0x11A8A, 0x11A96); (0x11A98, 0x11A99); (0x11C30, 0x11C36);
   (0x11C38, 0x11C3D); (0x11C3F, 0x11C3F); (0x11C92, 0x11CA7); (0x11CAA, 0x11CB0);
   (0x11CB2, 0x11CB3); (0x11CB5, 0x11CB6); (0x11D31, 0x11D36); (0x11D3A, 0x11D3A);
   (0x11D3C, 0x11D3D); (0x11D3F, 0x11D45); (0x11D47, 0x11D47); (0x11D90, 0x11D91);
   (0x11D95, 0x11D95); (0x11D97, 0x11D97); (0x11EF3, 0x11EF4); (0x13430, 0x13438);
   (0x16AF0, 0x16AF4); (0x16B30, 0x16B36); (0x16B40, 0x16B43); (0x16F4F, 0x16F4F);
   (0x16F8F, 0x16F9F); (0x16FE0, 0x16FE1); (0x16FE3, 0x16FE4); (0x1AFF0, 0x1AFF3);
   (0x1AFF5, 0x1AFFB); (0x1AFFD, 0x1AFFE); (0x1BC9D, 0x1BC9E); (0x1BCA0, 0x1BCA3);
   (0x1CF00, 0x1CF2D); (0x1CF30, 0x1CF46); (0x1D167, 0x1D169); (0x1D173, 0x1D182);
   (0x1D185, 0x1D18B); (0x1D1AA, 0x1D1AD); (0x1D242, 0x1D244); (0x1DA00, 0x1DA36);
   (0x1DA3B, 0x1DA6C); (0x1DA75, 0x1DA75); (0x1DA84, 0x1DA84); (0x1DA9B, 0x1DA9F);
   (0x1DAA1, 0x1DAAF); (0x1E000, 0x1E006); (0x1E008, 0x1E018); (0x1E01B, 0x1E021);
   (0x1E023, 0x1E024); (0x1E026, 0x1E02A); (0x1E130, 0x1E13D); (0x1E2AE, 0x1E2AE);
   (0x1E2EC, 0x1E2EF); (0x1E8D0, 0x1E8D6); (0x1E944, 0x1E94B); (0x1F3FB, 0x1F3FF);
   (0xE0001, 0xE0001); (0xE0020, 0xE007F); (0xE0100, 0xE01EF)]%N.

Definition cased_ranges : list (N * N) :=
  [  (0x41, 0x5A); (0x61, 0x7A); (0xAA, 0xAA); (0xB5, 0xB5);
   (0xBA, 0xBA); (0xC0, 0xD6); (0xD8, 0xF6); (0xF8, 0x1BA);
   (0x1BC, 0x1BF); (0x1C4, 0x293); (0x295, 0x2B8); (0x2C0, 0x2C1);
   (0x2E0, 0x2E4); (0x345, 0x345); (0x370, 0x373); (0x376, 0x377);
   (0x37A, 0x37D); (0x37F, 0x37F); (0x386, 0x386); (0x388, 0x38A);
   (0x38C, 0x38C); (0x38E, 0x3A1); (0x3A3, 0x3F5); (0x3F7, 0x481);
   (0x48A, 0x52F); (0x531, 0x556); (0x560, 0x588); (0x10A0, 0x10C5);
   (0x10C7, 0x10C7); (0x10CD, 0x10CD); (0x10D0, 0x10FA); (0x10FD, 0x10FF);
   (0x13A0, 0x13F5); (0x13F8, 0x13FD); (0x1C80, 0x1C88); (0x1C90, 0x1CBA);
   (0x1CBD, 0x1CBF); (0x1D00, 0x1DBF); (0x1E00, 0x1F15); (0x1F18, 0x1F1D);
   (0x1F20, 0x1F45); (0x1F48, 0x1F4D); (0x1F50, 0x1F57); (0x1F59, 0x1F59);
   (0x1F5B, 0x1F5B); (0x1F5D, 0x1F5D); (0x1F5F, 0x1F7D); (0x1F80, 0x1FB4);
   (0x1FB6, 0x1FBC); (0x1FBE, 0x1FBE); (0x1FC2, 0x1FC4); (0x1FC6, 0x1FCC);
   (0x1FD0, 0x1FD3); (0x1FD6, 0x1FDB); (0x1FE0, 0x1FEC); (0x1FF2, 0x1FF4);
   (0x1FF6, 0x1FFC); (0x2071, 0x2071); (0x207F, 0x207F); (0x2090, 0x209C);
   (0x2102, 0x2102); (0x2107, 0x2107); (0x210A, 0x2113); (0x2115, 0x2115);
   (0x2119, 0x211D); (0x2124, 0x2124); (0x2126, 0x2126); (0x2128, 0x2128);
   (0x212A, 0x212D); (0x212F, 0x2134); (0x2139, 0x2139); (0x213C, 0x213F);
   (0x2145, 0x2149); (0x214E, 0x214E); (0x2160, 0x217F); (0x2183, 0x2184);
   (0x24B6, 0x24E9); (0x2C00, 0x2CE4); (0x2CEB, 0x2CEE); (0x2CF2, 0x2CF3);
   (0x2D00, 0x2D25); (0x2D27, 0x2D27); (0x2D2D, 0x2D2D); (0xA640, 0xA66D);
   (0xA680, 0xA69D); (0xA722, 0xA787); (0xA78B, 0xA78E); (0xA790, 0xA7CA);
   (0xA7D0, 0xA7D1); (0xA7D3, 0xA7D3); (0xA7D5, 0xA7D9); (0xA7F5, 0xA7F6);
   (0xA7F8, 0xA7FA); (0xAB30, 0xAB5A); (0xAB5C, 0xAB68); (0xAB70, 0xABBF);
   (0xFB00, 0xFB06); (0xFB13, 0xFB17); (0xFF21, 0xFF3A); (0xFF41, 0xFF5A);
   (0x10400, 0x1044F); (0x104B0, 0x104D3); (0x104D8, 0x104FB); (0x10570, 0x1057A);
   (0x1057C, 0x1058A); (0x1058C, 0x10592); (0x10594, 0x10595); (0x10597, 0x105A1);
   (0x105A3, 0x105B1); (0x105B3, 0x105B9); (0x105BB, 0x105BC); (0x10780, 0x10780);
   (0x10783, 0x10785); (0x10787, 0x107B0); (0x107B2, 0x107BA); (0x10C80, 0x10CB2);
   (0x10CC0, 0x10CF2); (0x118A0, 0x118DF); (0x16E40, 0x16E7F); (0x1D400, 0x1D454);
   (0x1D456, 0x1D49C); (0x1D49E, 0x1D49F); (0x1D4A2, 0x1D4A2); (0x1D4A5, 0x1D4A6);
   (0x1D4A9, 0x1D4AC); (0x1D4AE, 0x1D4B9); (0x1D4BB, 0x1D4BB); (0x1D4BD, 0x1D4C3);
   (0x1D4C5, 0x1D505); (0x1D507, 0x1D50A); (0x1D50D, 0x1D514); (0x1D516, 0x1D51C);
   (0x1D51E, 0x1D539); (0x1D53B, 0x1D53E); (0x1D540, 0x1D544); (0x1D546, 0x1D546);
   (0x1D54A, 0x1D550); (0x1D552, 0x1D6A5); (0x1D6A8, 0x1D6C0); (0x1D6C2, 0x1D6DA);
   (0x1D6DC, 0x1D6FA); (0x1D6FC, 0x1D714); (0x1D716, 0x1D734); (0x1D736, 0x1D74E);
   (0x1D750, 0x1D76E); (0x1D770, 0x1D788); (0x1D78A, 0x1D7A8); (0x1D7AA, 0x1D7C2);
   (0x1D7C4, 0x1D7CB); (0x1DF00, 0x1DF09); (0x1DF0B, 0x1DF1E); (0x1E900, 0x1E943);
   (0x1F130, 0x1F149); (0x1F150, 0x1F169); (0x1F170, 0x1F189)]%N.

(** A capital sigma (U+03A3) is final when a cased letter precedes it and
    none follows it, case-ignorable characters aside. *)
Definition final_sigma (before_reversed after : list N) : bool :=
  let solid := fun cp => negb (in_ranges case_ignorable_ranges cp) in
  match List.find solid before_reversed with
  | Some cp =>
      in_ranges cased_ranges cp
      && match List.find solid after with
         | Some cp' => negb (in_ranges cased_ranges cp')
         | None => true
         end
  | None => false
  end.

Fixpoint lower_code_points (before_reversed l : list N) : list N :=
  match l with
  | [] => []
  | cp :: rest =>
      (if (cp =? 0x3A3)%N
       then [if final_sigma before_reversed rest then 0x3C2 else 0x3C3]%N
       else lower_code_point cp)
      ++ lower_code_points (cp :: before_reversed) rest
  end.

(** [str.lower] *)
Definition lower (s : string) : string :=
  match code_points s with
  | Some l => encode (lower_code_points [] l)
  | None => s
  end.

(** [str(n)] for an [int]. *)
Definition str_int (n : Z) : string := NilZero.string_of_int (Z.to_int n).

(** [x is not None]; also the truth value of an optional object that is
    true whenever it is present (a UUID, a pydantic model). *)
Definition is_not_None {A} (o : option A) : bool :=
  match o with
  | Some _ => true
  | None => false
  end.

(** [x in l] for a list of strings. *)
Definition contains (l : list string) (x : string) : bool :=
  existsb (String.eqb x) l.

(** *** Floats

    A [float] is a binary64 number, and a product of two is rounded to the
    nearest one, as IEEE 754 prescribes.  What [b ** n] returns is left to
    the platform (class [Zenml] below). *)

(** The rational number that a finite float is. *)
Definition rational (x : float) : option Q :=
  match Prim2SF x with
  | S754_zero _ => Some 0%Q
  | S754_finite negative m e =>
      Some ((if negative then -1 else 1) * inject_Z (Zpos m) * 2 ^ e)%Q
  | _ => None
  end.

(** [x * y] is the product itself: nothing is rounded away. *)
Definition exact_product (x y : float) : bool :=
  match rational x, rational y, rational (x * y) with
  | Some a, Some b, Some c => Qeq_bool c (a * b)
  | _, _, _ => false
  end.

(** [b] multiplied [n] times, and whether every product on the way is
    exact; when it is, the result is the power [b^n] itself. *)
Fixpoint fpow (b : float) (n : nat) : float :=
  match n with
  | O => 1%float
  | S k => (b * fpow b k)%float
  end.

Fixpoint exact_power (b : float) (n : nat) : bool :=
  match n with
  | O => true
  | S k => exact_power b k && exact_product b (fpow b k)
  end.

End Py.

(** ** Data model *)

Definition UUID := N.

(** The [version] field: [Optional[Union[ModelStages, int, str]]].  The
    enumeration [ModelStages] is declared in [zenml.enums], outside this
    module, so its members are a parameter (class [Zenml] below). *)
Inductive Version (Stage : Type) : Type :=
| VStage (stage : Stage)
| VInt (n : Z)
| VStr (s : string).
Arguments VStage {Stage} stage.
Arguments VInt {Stage} n.
Arguments VStr {Stage} s.

(** ** Exceptions *)

Inductive RuntimeMessage :=
| CannotCreateStageName (version_ name_ : string)
    (* "Cannot create a model version named ... as it matches one of the
       possible model version stages. ... check if the model version in
       given stage exists. It might be missing ..." *)
| CannotCreateNumericName (version_ name_ : string)
    (* "Cannot create a model version named ... as numeric model version
       names are reserved. ... check if the model version with given number
       exists. It might be missing ..." *)
| FailedToCreateModelVersion (version_ name_ : string) (retries_made : nat)
    (* "Failed to create model version `...` in model `...`. Retried ...
       times. ..." *)
| OtherRuntimeMessage (text : string).

Inductive Exception :=
| KeyError
| EntityExistsError
| RuntimeError (msg : RuntimeMessage)
| ValueError (text : string)
| UnboundLocalError
| OtherException (text : string).

Inductive Result (A : Type) : Type :=
| Ok (a : A)
| Raise (e : Exception).
Arguments Ok {A} a.
Arguments Raise {A} e.

(** What this module takes from outside: the constants and functions it
    imports from the rest of the package, and two operations of the Python
    runtime whose result the language leaves to the platform. *)
Class Zenml := {
  (** [zenml.enums.ModelStages], a string enumeration: a member is a [str]
      equal to its value, and [str(member)] is that value. *)
  ModelStages : Type;
  ModelStages_members : list ModelStages;
  ModelStages_value : ModelStages -> string;
  ModelStages_enumerated : forall s, In s ModelStages_members;
  (** [zenml.constants.MAX_RETRIES_FOR_VERSIONED_ENTITY_CREATION] *)
  MAX_RETRIES_FOR_VERSIONED_ENTITY_CREATION : nat;
  (** [zenml.utils.string_utils.format_name_template], called with the
      template alone. *)
  format_name_template : string -> string;
  (** [b ** n] for a [float] and an [int] that is not negative: the [pow]
      of the platform's C library.  Its error is below one unit in the
      last place, so where the power is a binary64 number it returns that
      number; elsewhere the rounding is the library's own. *)
  float_pow : float -> nat -> float;
  float_pow_exact : forall b n,
    Py.exact_power b n = true -> float_pow b n = Py.fpow b n;
  (** [list({t for t in own}.union(set(theirs)))]: the strings of both
      lists, each once, in the iteration order of the set, which Python
      does not specify. *)
  list_of_union : list string -> list string -> list string;
  list_of_union_NoDup : forall own theirs,
    List.NoDup (list_of_union own theirs);
  list_of_union_In : forall own theirs t,
    In t (list_of_union own theirs) <-> In t own \/ In t theirs;
}.

Section ModelModule.
Context `{Z_ : Zenml}.

(** [ModelStages.values()] and [[stage.value for stage in ModelStages]] *)
Definition ModelStages_values : list string :=
  map ModelStages_value ModelStages_members.

Record Model := mkModel {
  name : string;
  license : option string;
  description : option string;
  audience : option string;
  use_cases : option string;
  limitations : option string;
  trade_offs : option string;
  ethics : option string;
  tags : option (list string);
  version : option (Version ModelStages);
  save_models_to_registry : bool;
  (* technical attributes *)
  model_version_id : option UUID;
  suppress_class_validation_warnings : bool;
  was_created_in_this_run : bool;
  _model_id : option UUID;
  _number : option Z;
  _created_model_version : bool;
}.

Definition set_tags (t : option (list string)) (m : Model) : Model :=
  mkModel (name m) (license m) (description m) (audience m) (use_cases m)
    (limitations m) (trade_offs m) (ethics m) t (version m)
    (save_models_to_registry m) (model_version_id m)
    (suppress_class_validation_warnings m) (was_created_in_this_run m)
    (_model_id m) (_number m) (_created_model_version m).

Definition set_version (v : option (Version ModelStages)) (m : Model) : Model :=
  mkModel (name m) (license m) (description m) (audience m) (use_cases m)
    (limitations m) (trade_offs m) (ethics m) (tags m) v
    (save_models_to_registry m) (model_version_id m)
    (suppress_class_validation_warnings m) (was_created_in_this_run m)
    (_model_id m) (_number m) (_created_model_version m).

Definition set_model_version_id (i : option UUID) (m : Model) : Model :=
  mkModel (name m) (license m) (description m) (audience m) (use_cases m)
    (limitations m) (trade_offs m) (ethics m) (tags m) (version m)
    (save_models_to_registry m) i
    (suppress_class_validation_warnings m) (was_created_in_this_run m)
    (_model_id m) (_number m) (_created_model_version m).

Definition set_was_created_in_this_run (b : bool) (m : Model) : Model :=
  mkModel (name m) (license m) (description m) (audience m) (use_cases m)
    (limitations m) (trade_offs m) (ethics m) (tags m) (version m)
    (save_models_to_registry m) (model_version_id m)
    (suppress_class_validation_warnings m) b
    (_model_id m) (_number m) (_created_model_version m).

Definition set__model_id (i : option UUID) (m : Model) : Model :=
  mkModel (name m) (license m) (description m) (audience m) (use_cases m)
    (limitations m) (trade_offs m) (ethics m) (tags m) (version m)
    (save_models_to_registry m) (model_version_id m)
    (suppress_class_validation_warnings m) (was_created_in_this_run m)
    i (_number m) (_created_model_version m).

Definition set__number (n : option Z) (m : Model) : Model :=
  mkModel (name m) (license m) (description m) (audience m) (use_cases m)
    (limitations m) (trade_offs m) (ethics m) (tags m) (version m)
    (save_models_to_registry m) (model_version_id m)
    (suppress_class_validation_warnings m) (was_created_in_this_run m)
    (_model_id m) n (_created_model_version m).

Definition set__created_model_version (b : bool) (m : Model) : Model :=
  mkModel (name m) (license m) (description m) (audience m) (use_cases m)
    (limitations m) (trade_offs m) (ethics m) (tags m) (version m)
    (save_models_to_registry m) (model_version_id m)
    (suppress_class_validation_warnings m) (was_created_in_this_run m)
    (_model_id m) (_number m) b.

(** [str(self.version)] *)
Definition str_version (v : option (Version ModelStages)) : string :=
  match v with
  | None => "None"
  | Some (VStage st) => ModelStages_value st
  | Some (VInt n) => Py.str_int n
  | Some (VStr s) => s
  end.

(** Truth value of [self.version]: [None], [0] and [""] are false. *)
Definition truthy_version (v : option (Version ModelStages)) : bool :=
  match v with
  | None => false
  | Some (VStage st) => negb (String.eqb (ModelStages_value st) "")
  | Some (VInt n) => negb (n =? 0)%Z
  | Some (VStr s) => negb (String.eqb s "")
  end.

(** [version in [stage.value for stage in ModelStages]]: an [int] equals no
    string. *)
Definition version_in_stage_values (v : option (Version ModelStages)) : bool :=
  match v with
  | None => false
  | Some (VInt _) => false
  | Some (VStage st) => Py.contains ModelStages_values (ModelStages_value st)
  | Some (VStr s) => Py.contains ModelStages_values s
  end.

(** Truth value of an optional string and of an optional list. *)
Definition truthy_str (o : option string) : bool :=
  match o with
  | Some s => negb (String.eqb s "")
  | None => false
  end.

Definition truthy_list {A} (o : option (list A)) : bool :=
  match o with
  | Some (_ :: _) => true
  | _ => false
  end.

(** Requests and responses of the store ([zenml.models]); only the fields
    this module writes or reads. *)
Record ModelRequest := mkModelRequest {
  mreq_name : string;
  mreq_license : option string;
  mreq_description : option string;
  mreq_audience : option string;
  mreq_use_cases : option string;
  mreq_limitations : option string;
  mreq_trade_offs : option string;
  mreq_ethics : option string;
  mreq_user : UUID;
  mreq_workspace : UUID;
  mreq_save_models_to_registry : bool;
}.

Record ModelVersionRequest := mkModelVersionRequest {
  mvreq_user : UUID;
  mvreq_workspace : UUID;
  mvreq_name : option string;
  mvreq_description : option string;
  mvreq_model : UUID;
  mvreq_tags : option (list string);
}.

Record ModelResponse := mkModelResponse {
  model_resp_id : UUID;
  model_resp_name : string;
}.

Record ModelVersionResponse := mkModelVersionResponse {
  mv_id : UUID;
  mv_name : string;
  mv_number : Z;
  mv_model : ModelResponse;
  (** truth value of [mv.metadata] (present on a hydrated response) *)
  mv_metadata : bool;
  mv_description : option string;
  (** [t.name for t in mv.tags] *)
  mv_tags : list string;
}.

(** The execution context of a step: the model of the run's configuration
    and the models of the steps' configurations, in the iteration order of
    [pipeline_run.steps]. *)
Record StepContext := mkStepContext {
  pipeline_run_config_model : option Model;
  pipeline_run_steps : list (string * option Model);
}.

(** ** Log records and effects *)

(** The dictionary [difference] of [_get_model_version]; a key is present
    when its field is [Some].  Each tag list is built from a Python set, in
    no particular order; it is kept here as the set. *)
Record Difference := mkDifference {
  diff_description : option (string * option string);   (* config, db *)
  diff_tags_added : option (gset string);
  diff_tags_removed : option (gset string);
}.

Inductive LogRecord :=
| VersionMatchesStage (v : option (Version ModelStages))        (* info *)
| VersionIsNumeric (v : option (Version ModelStages))           (* info *)
| NewModelCreatedImplicitly (name_ : string)                    (* info *)
| CreatedNewModelVersion (v : option (Version ModelStages)) (name_ : string) (* info *)
| RetryingIn (name_ : string) (delay : float)                   (* debug *)
| ConfigurationMismatch (name_ : string) (v : option (Version ModelStages))
    (d : Difference).                                           (* warning *)

Inductive Event :=
| GetModel (model_name_or_id : string)
| CreateModel (model : ModelRequest)
| GetModelVersionById (id : UUID) (hydrate : option bool)
| GetModelVersion (model_name_or_id : string)
    (version_ : option (Version ModelStages)) (hydrate : bool)
| CreateModelVersion (model_version : ModelVersionRequest)
| Log (r : LogRecord)
| Sleep (seconds : float).

End ModelModule.

(** ** The store and the client

    [zenml_client.zen_store] and [Client.get_model_version] belong to the
    rest of the package.  They are an interface here: every call takes the
    store's state and returns a result or raises, together with the next
    state, so that a store shared with concurrent callers may answer two
    identical calls differently. *)
Class ZenStore `{Z_ : Zenml} (Store : Type) := {
  (** [zenml_client.active_user.id], [zenml_client.active_workspace.id] *)
  active_user_id : UUID;
  active_workspace_id : UUID;
  (** [zen_store.get_model(model_name_or_id=...)] *)
  get_model : string -> Store -> Result ModelResponse * Store;
  (** [zen_store.create_model(model=...)] *)
  create_model : ModelRequest -> Store -> Result ModelResponse * Store;
  (** [Client.get_model_version(model_version_name_or_number_or_id=<id>)];
      [hydrate] is [None] when the caller leaves it to the default. *)
  get_model_version_by_id : UUID -> option bool -> Store -> Result ModelVersionResponse * Store;
  (** [Client.get_model_version(model_name_or_id=...,
      model_version_name_or_number_or_id=<version>, hydrate=...)] *)
  get_model_version :
    string -> option (Version ModelStages) -> bool -> Store -> Result ModelVersionResponse * Store;
  (** [zen_store.create_model_version(model_version=...)] *)
  create_model_version : ModelVersionRequest -> Store -> Result ModelVersionResponse * Store;
}.

Section Resolver.
Context `{Z_ : Zenml} {Store : Type} `{ZS : !ZenStore Store}.

(** *** The monad of a method call on [self] *)

Record Outcome (A : Type) := mkOutcome {
  result : Result A;
  self_after : Model;
  store_after : Store;
  events : list Event;
}.
Arguments mkOutcome {A}.
Arguments result {A}.
Arguments self_after {A}.
Arguments store_after {A}.
Arguments events {A}.

Definition M (A : Type) : Type := Model -> Store -> Outcome A.

Definition ret {A} (a : A) : M A :=
  fun self s => mkOutcome (Ok a) self s [].

Definition raise {A} (e : Exception) : M A :=
  fun self s => mkOutcome (Raise e) self s [].

(** The effects of [o], after the effects [before]. *)
Definition after_events {A} (before : list Event) (o : Outcome A) : Outcome A :=
  match o with
  | mkOutcome r self s evs => mkOutcome r self s (before ++ evs)
  end.

Definition bind {A B} (m : M A) (k : A -> M B) : M B :=
  fun self s =>
    match m self s with
    | mkOutcome (Ok a) self1 s1 evs => after_events evs (k a self1 s1)
    | mkOutcome (Raise e) self1 s1 evs => mkOutcome (Raise e) self1 s1 evs
    end.

(** [try: m  except <e>: handler]: the handler runs in the state the body
    left behind. *)
Definition try_except {A} (m : M A) (caught : Exception -> bool)
    (handler : M A) : M A :=
  fun self s =>
    match m self s with
    | mkOutcome (Ok a) self1 s1 evs => mkOutcome (Ok a) self1 s1 evs
    | mkOutcome (Raise e) self1 s1 evs =>
        if caught e then after_events evs (handler self1 s1)
        else mkOutcome (Raise e) self1 s1 evs
    end.

Definition get_self : M Model :=
  fun self s => mkOutcome (Ok self) self s [].

Definition modify_self (f : Model -> Model) : M unit :=
  fun self s => mkOutcome (Ok tt) (f self) s [].

Definition emit (e : Event) : M unit :=
  fun self s => mkOutcome (Ok tt) self s [e].

(** A call to the store: recorded, then answered by the store. *)
Definition call {A} (e : Event) (op : Store -> Result A * Store) : M A :=
  fun self s => let '(r, s') := op s in mkOutcome r self s' [e].

Definition is_KeyError (e : Exception) : bool :=
  match e with KeyError => true | _ => false end.

Definition is_EntityExistsError (e : Exception) : bool :=
  match e with EntityExistsError => true | _ => false end.

End Resolver.

Arguments mkOutcome {Z_ Store A}.
Arguments result {Z_ Store A}.
Arguments self_after {Z_ Store A}.
Arguments store_after {Z_ Store A}.
Arguments events {Z_ Store A}.

Declare Scope py_scope.
Delimit Scope py_scope with py.
Notation "'let*' x ':=' m 'in' k" := (bind m (fun x => k))
  (at level 10, x name, m at level 100, k at level 200) : py_scope.
Notation "'do' m 'then' k" := (bind m (fun _ => k))
  (at level 10, m at level 100, k at level 200) : py_scope.

(** ** The methods of [Model] *)

Section Methods.
Context `{Z_ : Zenml} {Store : Type} `{ZS : !ZenStore Store}.
#[local] Open Scope py_scope.

(** *** [_root_validator] (a "before" validator: it sees the raw keyword
    arguments).  The three keys it reads; every other key is returned as it
    came. *)
Record ValidatorData := mkValidatorData {
  data_suppress_class_validation_warnings : option bool;
  data_model_version_id : option UUID;
  data_version : option (Version ModelStages);
}.

Definition _root_validator (data : ValidatorData)
    : Result ValidatorData * list LogRecord :=
  let suppress_class_validation_warnings :=
    match data_suppress_class_validation_warnings data with
    | Some b => b
    | None => false
    end in
  if negb suppress_class_validation_warnings
     && Py.is_not_None (data_model_version_id data)
  then (Raise (ValueError "`model_version_id` field is for internal use only"), [])
  else
    let version := data_version data in
    let stage_notice :=
      if version_in_stage_values version
         && negb suppress_class_validation_warnings
      then [VersionMatchesStage version] else [] in
    let numeric_notice :=
      if Py.isnumeric (str_version version)
         && negb suppress_class_validation_warnings
      then [VersionIsNumeric version] else [] in
    (Ok (mkValidatorData (Some true) (data_model_version_id data) version),
     (stage_notice ++ numeric_notice)%list).

(** *** [_lazy_version] (a property: a method of [self] without
    arguments) *)
Definition _lazy_version : @M _ Store (option string) :=
  let* self := get_self in
  match _number self with
  | Some n => ret (Some (Py.str_int n))
  | None =>
      match version self with
      | Some (VStage st) => ret (Some (ModelStages_value st))
      | Some v => ret (Some (str_version (Some v)))
      | None => ret None
      end
  end.

(** *** [_get_or_create_model] *)
Definition model_request_of (self : Model) : ModelRequest :=
  mkModelRequest (name self) (license self) (description self)
    (audience self) (use_cases self) (limitations self) (trade_offs self)
    (ethics self) active_user_id active_workspace_id
    (save_models_to_registry self).

Definition _get_or_create_model : M ModelResponse :=
  let* self := get_self in
  let* model :=
    match model_version_id self with
    | Some id =>
        let* mv := call (GetModelVersionById id None)
                        (get_model_version_by_id id None) in
        ret (mv_model mv)
    | None =>
        try_except
          (call (GetModel (name self)) (get_model (name self)))
          is_KeyError
          (let model_request := model_request_of self in
           try_except
             (let* model := call (CreateModel model_request)
                                 (create_model model_request) in
              do emit (Log (NewModelCreatedImplicitly (name self))) then
              ret model)
             is_EntityExistsError
             (call (GetModel (name self)) (get_model (name self))))
    end in
  do modify_self (set__model_id (Some (model_resp_id model))) then
  ret model.

(** *** [_get_model_version] *)
Definition difference_of (self : Model) (mv : ModelVersionResponse) : Difference :=
  let description_entry :=
    if mv_metadata mv
       && truthy_str (description self)
       && bool_decide (mv_description mv <> description self)
    then match description self with
         | Some d => Some (d, mv_description mv)
         | None => None
         end
    else None in
  let tag_entries :=
    match tags self with
    | Some (t :: ts) =>
        let configured_tags : gset string := list_to_set (t :: ts) in
        let db_tags : gset string := list_to_set (mv_tags mv) in
        if bool_decide (db_tags <> configured_tags)
        then (Some (configured_tags ∖ db_tags), Some (db_tags ∖ configured_tags))
        else (None, None)
    | _ => (None, None)
    end in
  mkDifference description_entry (fst tag_entries) (snd tag_entries).

(** Truth value of the dictionary: some key is present. *)
Definition truthy_difference (d : Difference) : bool :=
  Py.is_not_None (diff_description d)
  || Py.is_not_None (diff_tags_added d)
  || Py.is_not_None (diff_tags_removed d).

Definition _get_model_version (hydrate : bool) : M ModelVersionResponse :=
  let* self := get_self in
  let* mv :=
    match model_version_id self with
    | Some id =>
        call (GetModelVersionById id (Some hydrate))
             (get_model_version_by_id id (Some hydrate))
    | None =>
        let* mv := call (GetModelVersion (name self) (version self) hydrate)
                        (get_model_version (name self) (version self) hydrate) in
        do modify_self (set_model_version_id (Some (mv_id mv))) then
        ret mv
    end in
  let* self := get_self in
  let difference := difference_of self mv in
  do (if truthy_difference difference
      then emit (Log (ConfigurationMismatch (name self) (version self) difference))
      else ret tt) then
  ret mv.

(** *** [_get_or_create_model_version] *)

(** The search through the run's configurations (inside a step context,
    when [self.version] is false). *)
Definition created_in_this_run_for (target : string) (o : option Model) : bool :=
  match o with
  | Some mv =>
      was_created_in_this_run mv
      && String.eqb (name mv) target
      && Py.is_not_None (version mv)
  | None => false
  end.

Fixpoint first_step_model (target : string) (steps : list (string * option Model))
    : option Model :=
  match steps with
  | [] => None
  | (_, step_mv) :: rest =>
      if created_in_this_run_for target step_mv then step_mv
      else first_step_model target rest
  end.

Definition model_of_this_run (context : StepContext) (target : string)
    : option Model :=
  if created_in_this_run_for target (pipeline_run_config_model context)
  then pipeline_run_config_model context
  else first_step_model target (pipeline_run_steps context).

(** [0.2 * 1.5**i] *)
Definition backoff (i : nat) : float := (0.2 * float_pow 1.5 i)%float.

(** The loop [for i in range(MAX_RETRIES_FOR_VERSIONED_ENTITY_CREATION)],
    over the indices still to come.  A loop that ends without [break] has
    bound no [model_version], and the statement after it raises. *)
Fixpoint create_with_retries (mv_request : ModelVersionRequest)
    (indices : list nat) (retries_made : nat) : M ModelVersionResponse :=
  match indices with
  | [] => raise UnboundLocalError
  | i :: rest =>
      try_except
        (call (CreateModelVersion mv_request) (create_model_version mv_request))
        is_EntityExistsError
        (let* self := get_self in
         if (i =? MAX_RETRIES_FOR_VERSIONED_ENTITY_CREATION - 1)%nat
         then raise (RuntimeError (FailedToCreateModelVersion
                       (if truthy_version (version self)
                        then str_version (version self) else "new")
                       (name self) retries_made))
         else
           let sleep := backoff i in
           do emit (Log (RetryingIn (name self) sleep)) then
           do emit (Sleep sleep) then
           create_with_retries mv_request rest (retries_made + 1))
  end.

(** The [try] block. *)
Definition fetch_configured_version (step_context : option StepContext)
    : M ModelVersionResponse :=
  let* self := get_self in
  do (if negb (truthy_version (version self)) then
        match step_context with
        | None => ret tt            (* [get_step_context] raised RuntimeError *)
        | Some context =>
            match model_of_this_run context (name self) with
            | Some found =>
                do modify_self (set_version (version found)) then
                modify_self (set_model_version_id (model_version_id found))
            | None => ret tt
            end
        end
      else ret tt) then
  let* self := get_self in
  if truthy_version (version self)
     || Py.is_not_None (model_version_id self)
  then _get_model_version true
  else raise KeyError.

(** The [except KeyError] block. *)
Definition create_configured_version (mv_request : ModelVersionRequest)
    : M ModelVersionResponse :=
  let* self := get_self in
  if truthy_version (version self)
     && Py.contains ModelStages_values (Py.lower (str_version (version self)))
  then raise (RuntimeError (CannotCreateStageName
                (str_version (version self)) (name self)))
  else if Py.isnumeric (str_version (version self))
  then raise (RuntimeError (CannotCreateNumericName
                (str_version (version self)) (name self)))
  else
    let* model_version :=
      create_with_retries mv_request
        (seq 0 MAX_RETRIES_FOR_VERSIONED_ENTITY_CREATION) 0 in
    do modify_self (set_version (Some (VStr (mv_name model_version)))) then
    do modify_self (set_was_created_in_this_run true) then
    do modify_self (set__created_model_version true) then
    let* self := get_self in
    do emit (Log (CreatedNewModelVersion (version self) (name self))) then
    ret model_version.

(** [isinstance(self.version, str)]: a member of the string enumeration is
    a [str] too, and formatting returns a plain [str]. *)
Definition format_version (v : option (Version ModelStages))
    : option (Version ModelStages) :=
  match v with
  | Some (VStr s) => Some (VStr (format_name_template s))
  | Some (VStage st) => Some (VStr (format_name_template (ModelStages_value st)))
  | other => other
  end.

(** [self] after [self.version = format_name_template(self.version)] *)
Definition formatted (self : Model) : Model :=
  set_version (format_version (version self)) self.

Definition model_version_request_of (self : Model) (model : ModelResponse)
    : ModelVersionRequest :=
  mkModelVersionRequest active_user_id active_workspace_id
    (if truthy_version (version self)
     then Some (str_version (version self)) else None)
    (description self) (model_resp_id model) (tags self).

Definition _get_or_create_model_version (hydrate : bool)
    (step_context : option StepContext) : M ModelVersionResponse :=
  let* model := _get_or_create_model in
  do modify_self formatted then
  let* self := get_self in
  let mv_request := model_version_request_of self model in
  let* model_version :=
    try_except (fetch_configured_version step_context)
      is_KeyError
      (create_configured_version mv_request) in
  do modify_self (set_model_version_id (Some (mv_id model_version))) then
  do modify_self (set__model_id (Some (model_resp_id (mv_model model_version)))) then
  do modify_self (set__number (Some (mv_number model_version))) then
  ret model_version.

(** *** What a call asks of the store, and what it answers

    Names for the statements below: the one call by which [self] fetches
    its version, the warning the fetch logs, and the names under which no
    version is created. *)

Definition fetch_event (hydrate : bool) (self : Model) : Event :=
  match model_version_id self with
  | Some id => GetModelVersionById id (Some hydrate)
  | None => GetModelVersion (name self) (version self) hydrate
  end.

Definition fetch_answer (hydrate : bool) (self : Model) (s : Store)
    : Result ModelVersionResponse * Store :=
  match model_version_id self with
  | Some id => get_model_version_by_id id (Some hydrate) s
  | None => get_model_version (name self) (version self) hydrate s
  end.

Definition mismatch_warning (self : Model) (mv : ModelVersionResponse)
    : list Event :=
  if truthy_difference (difference_of self mv)
  then [Log (ConfigurationMismatch (name self) (version self)
               (difference_of self mv))]
  else [].

(** [m] with the three fields that every successful resolution caches. *)
Definition cached (mv : ModelVersionResponse) (m : Model) : Model :=
  set__number (Some (mv_number mv))
    (set__model_id (Some (model_resp_id (mv_model mv)))
       (set_model_version_id (Some (mv_id mv)) m)).

Definition is_stage_name (v : option (Version ModelStages)) : bool :=
  truthy_version v
  && Py.contains ModelStages_values (Py.lower (str_version v)).

Definition reserved_name (v : option (Version ModelStages)) : bool :=
  is_stage_name v || Py.isnumeric (str_version v).

Definition reserved_name_error (v : option (Version ModelStages))
    (name_ : string) : Exception :=
  if is_stage_name v
  then RuntimeError (CannotCreateStageName (str_version v) name_)
  else RuntimeError (CannotCreateNumericName (str_version v) name_).

(** The reference of this run that a step context holds for a name. *)
Definition reusable (step_context : option StepContext) (target : string)
    : option Model :=
  match step_context with
  | Some context => model_of_this_run context target
  | None => None
  end.

(** The references a step context holds: the model of the run's
    configuration and the models of the steps' configurations.  Outside a
    step there is none. *)
Definition holds (step_context : option StepContext) (m : Model) : Prop :=
  match step_context with
  | Some context =>
      pipeline_run_config_model context = Some m
      \/ exists key, In (key, Some m) (pipeline_run_steps context)
  | None => False
  end.

(** A reference to a version that this run created under the name
    [target]. *)
Definition created_here (target : string) (m : Model) : Prop :=
  was_created_in_this_run m = true /\ name m = target /\ version m <> None.

Definition nothing_to_reuse (step_context : option StepContext)
    (target : string) : Prop :=
  forall m, holds step_context m -> ~ created_here target m.

(** The version [self] asks for is not there, and the store is left in
    [s2]: with a selector, the fetch in the store [s1] raises [KeyError];
    without one, [self] has no version id, the run holds nothing to reuse,
    and the store is not asked. *)
Definition not_found (step_context : option StepContext) (self : Model)
    (s1 s2 : Store) : Prop :=
  if truthy_version (format_version (version self))
  then fetch_answer true (formatted self) s1 = (Raise KeyError, s2)
  else model_version_id self = None
       /\ nothing_to_reuse step_context (name self)
       /\ s2 = s1.

(** The store after [k] creations in a row have collided with another
    caller's, when they do. *)
Fixpoint after_conflicts (mv_request : ModelVersionRequest) (k : nat)
    (s : Store) : option Store :=
  match k with
  | O => Some s
  | S k' =>
      match create_model_version mv_request s with
      | (Raise EntityExistsError, s') => after_conflicts mv_request k' s'
      | _ => None
      end
  end.

(** What the loop does at the indices [start], ..., [start + k - 1] when
    the creation collides at each and none is the last index. *)
Definition conflict_turns (mv_request : ModelVersionRequest)
    (name_ : string) (start k : nat) : list Event :=
  flat_map (fun i => [CreateModelVersion mv_request;
                      Log (RetryingIn name_ (backoff i));
                      Sleep (backoff i)])
    (seq start k).

End Methods.

(** ** Reading the effects of a call *)

Section Effects.
Context `{Z_ : Zenml}.

(** What resolving the parent model may do. *)
Definition model_resolution_event (e : Event) : bool :=
  match e with
  | GetModel _ | CreateModel _ | GetModelVersionById _ None
  | Log (NewModelCreatedImplicitly _) => true
  | _ => false
  end.

(** What fetching the version may do. *)
Definition version_fetch_event (e : Event) : bool :=
  match e with
  | GetModelVersionById _ (Some _) | GetModelVersion _ _ _
  | Log (ConfigurationMismatch _ _ _) => true
  | _ => false
  end.

(** What the retry loop may do. *)
Definition retry_loop_event (e : Event) : bool :=
  match e with
  | CreateModelVersion _ | Log (RetryingIn _ _) | Sleep _ => true
  | _ => false
  end.

Definition is_CreateModelVersion (e : Event) : bool :=
  match e with CreateModelVersion _ => true | _ => false end.

Definition is_store_call (e : Event) : bool :=
  match e with
  | GetModel _ | CreateModel _ | GetModelVersionById _ _
  | GetModelVersion _ _ _ | CreateModelVersion _ => true
  | _ => false
  end.

Definition is_version_fetch_call (e : Event) : bool :=
  match e with
  | GetModelVersionById _ (Some _) | GetModelVersion _ _ _ => true
  | _ => false
  end.

Definition is_mismatch_warning (e : Event) : bool :=
  match e with Log (ConfigurationMismatch _ _ _) => true | _ => false end.

Definition is_created_record (e : Event) : bool :=
  match e with Log (CreatedNewModelVersion _ _) => true | _ => false end.

(** The delays slept, in order. *)
Fixpoint sleeps (l : list Event) : list float :=
  match l with
  | [] => []
  | Sleep d :: rest => d :: sleeps rest
  | _ :: rest => sleeps rest
  end.

Definition count (p : Event -> bool) (l : list Event) : nat :=
  length (List.filter p l).

End Effects.

(** ** The methods that call the resolver *)

(** The properties [id], [model_id] and [number] of [Model]. *)
Module Attr.
Section Attr.
Context `{Z_ : Zenml} {Store : Type} `{ZS : !ZenStore Store}.
#[local] Open Scope py_scope.

Definition is_RuntimeError (e : Exception) : bool :=
  match e with RuntimeError _ => true | _ => false end.

(** The message of [id] and [number]; it shows [self.version] and
    [self.name] as they are when the resolution has failed. *)
Definition does_not_exist (self : Model) : string :=
  "Version `" ++ str_version (version self) ++ "` of `" ++ name self
  ++ "` model doesn't exist and cannot be fetched from the Model Control Plane.".

Definition id (step_context : option StepContext) : @M _ Store (option UUID) :=
  let* self := get_self in
  do (if Py.is_not_None (model_version_id self) then ret tt
      else
        try_except
          (let* mv := _get_or_create_model_version false step_context in
           modify_self (set_model_version_id (Some (mv_id mv))))
          is_RuntimeError
          (let* self := get_self in
           raise (RuntimeError (OtherRuntimeMessage (does_not_exist self))))) then
  let* self := get_self in
  ret (model_version_id self).

Definition model_id : @M _ Store (option UUID) :=
  let* self := get_self in
  do (if Py.is_not_None (_model_id self) then ret tt
      else do _get_or_create_model then ret tt) then
  let* self := get_self in
  ret (_model_id self).

(** [number] raises [KeyError] where [id] raises [RuntimeError]; the
    message is the same text, which [KeyError] does not carry here. *)
Definition number (step_context : option StepContext) : @M _ Store (option Z) :=
  let* self := get_self in
  do (if Py.is_not_None (_number self) then ret tt
      else
        try_except
          (let* mv := _get_or_create_model_version false step_context in
           modify_self (set__number (Some (mv_number mv))))
          is_RuntimeError
          (raise KeyError)) then
  let* self := get_self in
  ret (_number self).

End Attr.
End Attr.

Section Callers.
Context `{Z_ : Zenml} {Store : Type} `{ZS : !ZenStore Store}.
#[local] Open Scope py_scope.

(** *** [_validate_config_in_runtime] *)
Definition _validate_config_in_runtime (step_context : option StepContext)
    : @M _ Store ModelVersionResponse :=
  _get_or_create_model_version false step_context.

(** *** [__eq__]

    [self.version == other.version]: a member of the string enumeration
    equals the string that is its value, an [int] equals no string. *)
Definition version_eq (a b : option (Version ModelStages)) : bool :=
  match a, b with
  | None, None => true
  | Some (VInt n), Some (VInt m) => (n =? m)%Z
  | Some (VInt _), Some _ => false
  | Some _, Some (VInt _) => false
  | Some x, Some y => String.eqb (str_version (Some x)) (str_version (Some y))
  | _, _ => false
  end.

(** A comparison runs on two references; it returns both as it leaves
    them. *)
Record Comparison := mkComparison {
  answer : Result bool;
  left_after : Model;
  right_after : Model;
  compared_store : Store;
  compared_events : list Event;
}.

(** [other] is a [Model] (for any other object the method returns
    [NotImplemented]).  When the two are one object the names and the
    versions are equal, so the resolutions are reached with two objects
    only. *)
Definition __eq__ (step_context : option StepContext) (self other : Model)
    (s : Store) : Comparison :=
  if negb (String.eqb (name self) (name other)) then
    mkComparison (Ok false) self other s []
  else if String.eqb (name self) (name other)
          && version_eq (version self) (version other) then
    mkComparison (Ok true) self other s []
  else
    match _get_or_create_model_version false step_context self s with
    | mkOutcome (Raise e) self1 s1 evs1 =>
        mkComparison (Raise e) self1 other s1 evs1
    | mkOutcome (Ok self_mv) self1 s1 evs1 =>
        match _get_or_create_model_version false step_context other s1 with
        | mkOutcome (Raise e) other1 s2 evs2 =>
            mkComparison (Raise e) self1 other1 s2 (evs1 ++ evs2)
        | mkOutcome (Ok other_mv) other1 s2 evs2 =>
            mkComparison (Ok (mv_id self_mv =? mv_id other_mv)%N)
              self1 other1 s2 (evs1 ++ evs2)
        end
    end.

(** *** [__hash__]: the built-in [hash] of
    ["::".join((str(self.name), str(self.version)))].  The built-in is a
    parameter. *)
Definition hash_key (self : Model) : string :=
  name self ++ "::" ++ str_version (version self).

Definition __hash__ (hash : string -> Z) (self : Model) : Z :=
  hash (hash_key self).

(** *** [_merge] *)

(** [a or b] on optional strings. *)
Definition or_else (a b : option string) : option string :=
  if truthy_str a then a else b.

(** [list({t for t in self.tags or []}.union(set(model.tags)))] *)
Definition merged_tags (own : option (list string)) (theirs : list string)
    : list string :=
  list_of_union (if truthy_list own
                 then match own with Some l => l | None => [] end
                 else [])
    theirs.

Definition _merge (model : Model) : @M _ Store unit :=
  modify_self (fun self =>
    mkModel (name self)
      (or_else (license self) (license model))
      (or_else (description self) (description model))
      (or_else (audience self) (audience model))
      (or_else (use_cases self) (use_cases model))
      (or_else (limitations self) (limitations model))
      (or_else (trade_offs self) (trade_offs model))
      (or_else (ethics self) (ethics model))
      (match tags model with
       | Some theirs => Some (merged_tags (tags self) theirs)
       | None => tags self
       end)
      (version self) (save_models_to_registry self) (model_version_id self)
      (suppress_class_validation_warnings self) (was_created_in_this_run self)
      (_model_id self) (_number self) (_created_model_version self)).

(** *** [_lazy_artifact_get] and the getters of linked artifacts

    [pipeline_context] tells whether [get_pipeline_context()] returns (a
    pipeline is being defined) or raises [RuntimeError]. *)
Record LazyArtifactVersionResponse := mkLazyArtifactVersionResponse {
  lazy_load_name : string;
  lazy_load_version : option string;
  lazy_load_model_name : string;
  lazy_load_model_version : option string;
}.

Definition _lazy_artifact_get (pipeline_context : bool) (name_ : string)
    (version_ : option string) : @M _ Store (option LazyArtifactVersionResponse) :=
  if pipeline_context then
    let* self := get_self in
    let* lazy_version := _lazy_version in
    ret (Some (mkLazyArtifactVersionResponse name_ version_ (name self)
                 lazy_version))
  else ret None.

(** What a getter returns: the placeholder, or what the method of the
    resolved version returns. *)
Inductive Linked (A : Type) : Type :=
| Placeholder (lazy : LazyArtifactVersionResponse)
| Fetched (artifact : option A).

(** [get_artifact], [get_model_artifact], [get_data_artifact] and
    [get_deployment_artifact] are this method, each with the method of the
    same name of [ModelVersionResponse], which belongs to the rest of the
    package, as [response_method]. *)
Definition get_linked_artifact {A : Type}
    (response_method :
       ModelVersionResponse -> string -> option string -> @M _ Store (option A))
    (pipeline_context : bool) (step_context : option StepContext)
    (name_ : string) (version_ : option string) : @M _ Store (Linked A) :=
  let* lazy := _lazy_artifact_get pipeline_context name_ version_ in
  match lazy with
  | Some placeholder => ret (Placeholder A placeholder)
  | None =>
      let* mv := _get_or_create_model_version false step_context in
      let* artifact := response_method mv name_ version_ in
      ret (Fetched A artifact)
  end.

(** *** [run_metadata]: [response_run_metadata] reads the field
    [run_metadata] of the response. *)
Inductive RunMetadataAnswer (R : Type) : Type :=
| LazyGetter (model_name : string) (model_version : option string)
| Loaded (run_metadata : R).

Definition run_metadata {R : Type}
    (response_run_metadata : ModelVersionResponse -> option R)
    (pipeline_context : bool) (step_context : option StepContext)
    : @M _ Store (RunMetadataAnswer R) :=
  if pipeline_context then
    let* self := get_self in
    let* lazy_version := _lazy_version in
    ret (LazyGetter R (name self) lazy_version)
  else
    let* response := _get_or_create_model_version true step_context in
    match response_run_metadata response with
    | None =>
        raise (RuntimeError (OtherRuntimeMessage
                 "Failed to fetch metadata of this model version."))
    | Some metadata => ret (Loaded R metadata)
    end.

End Callers.

Arguments mkComparison {Z_ Store}.
Arguments answer {Z_ Store}.
Arguments left_after {Z_ Store}.
Arguments right_after {Z_ Store}.
Arguments compared_store {Z_ Store}.
Arguments compared_events {Z_ Store}.
Arguments Placeholder {A}.
Arguments Fetched {A}.
Arguments LazyGetter {R}.
Arguments Loaded {R}.

(** ** [_prepare_model_version_before_step_launch]

    What the method takes from the rest of the package and from the
    standard library: times and [strftime], [format_name_template] called
    with a date and a time, and [try_get_model_version_url]. *)
Class Launcher := {
  Time : Type;
  strftime : Time -> string -> string;
  (** [format_name_template(template, date=..., time=...)] *)
  format_name_template_at : string -> string -> string -> string;
  (** [zenml.utils.cloud_utils.try_get_model_version_url] *)
  try_get_model_version_url : ModelVersionResponse -> option string;
}.

Section Launch.
Context `{Z_ : Zenml} `{L_ : Launcher}.

(** The fields of the run and of the step run that the method reads. *)
Record PipelineRunResponse := mkPipelineRunResponse {
  run_id : UUID;
  run_model_version : option ModelVersionResponse;
  run_start_time : option Time;
}.

Record StepRunResponse := mkStepRunResponse {
  step_run_id : UUID;
}.

(** The resolver's effects, and the two updates of the method. *)
Inductive LaunchEvent :=
| Resolving (e : Event)
| UpdateRunStep (step_run_id_ : UUID) (model_version_id_ : UUID)
| UpdateRun (run_id_ : UUID) (model_version_id_ : UUID).

End Launch.

(** [zen_store.update_run_step(step_run_id=..., step_run_update=
    StepRunUpdate(model_version_id=...))] and [zen_store.update_run(run_id=
    ..., run_update=PipelineRunUpdate(model_version_id=...))] *)
Class RunStore `{Z_ : Zenml} `{L_ : Launcher} (Store : Type) := {
  update_run_step : UUID -> UUID -> Store -> Result StepRunResponse * Store;
  update_run : UUID -> UUID -> Store -> Result PipelineRunResponse * Store;
}.

Section Prepare.
Context `{Z_ : Zenml} `{L_ : Launcher} {Store : Type}
  `{ZS : !ZenStore Store} `{RS : !RunStore Store}.

Record Launched := mkLaunched {
  launched : Result (string * PipelineRunResponse * option StepRunResponse);
  launched_self : Model;
  launched_store : Store;
  launched_events : list LaunchEvent;
}.

(** [self_copy], as it is when the method asks whether the exact version
    is known: the copy of [self] with the version of the run, or else with
    its templated name filled in.  [now] is
    [datetime.datetime.now(datetime.timezone.utc)]. *)
Definition filled_in (now : Time) (pipeline_run : PipelineRunResponse)
    (template : string) : string :=
  let start_time :=
    match run_start_time pipeline_run with
    | Some t => t
    | None => now
    end in
  format_name_template_at template
    (strftime start_time "%Y_%m_%d") (strftime start_time "%H_%M_%S_%f").

Definition self_copy_for (now : Time) (self : Model)
    (pipeline_run : PipelineRunResponse) (step_run : option StepRunResponse)
    : Model :=
  match step_run, run_model_version pipeline_run with
  | None, Some mv =>
      set_model_version_id (Some (mv_id mv))
        (set_version (Some (VStr (mv_name mv))) self)
  | _, _ =>
      match version self with
      | Some (VStr t) =>
          set_version (Some (VStr (filled_in now pipeline_run t))) self
      | Some (VStage st) =>
          set_version
            (Some (VStr (filled_in now pipeline_run (ModelStages_value st))))
            self
      | _ => self
      end
  end.

Definition logs_for (return_logs : bool) (mv : ModelVersionResponse) : string :=
  if return_logs then
    match try_get_model_version_url mv with
    | Some (String c rest) => String c rest
    | _ =>
        "Models can be viewed in the dashboard using ZenML Pro. Sign up "
        ++ "for a free trial at https://www.zenml.io/pro/"
    end
  else "".

Definition _prepare_model_version_before_step_launch
    (step_context : option StepContext) (now : Time) (self : Model)
    (pipeline_run : PipelineRunResponse) (step_run : option StepRunResponse)
    (return_logs : bool) (s : Store) : Launched :=
  let self_copy := self_copy_for now self pipeline_run step_run in
  match model_version_id self_copy with
  | Some _ =>
      mkLaunched (Ok ("", pipeline_run, step_run))
        (set_model_version_id (model_version_id self_copy) self) s []
  | None =>
      match _get_or_create_model_version false step_context self_copy s with
      | mkOutcome (Raise e) _ s1 evs =>
          mkLaunched (Raise e) self s1 (map Resolving evs)
      | mkOutcome (Ok model_version_response) self_copy1 s1 evs =>
          match step_run with
          | Some step =>
              match update_run_step (step_run_id step)
                      (mv_id model_version_response) s1 with
              | (Raise e, s2) =>
                  mkLaunched (Raise e) self s2
                    (map Resolving evs
                     ++ [UpdateRunStep (step_run_id step)
                           (mv_id model_version_response)])
              | (Ok step', s2) =>
                  mkLaunched
                    (Ok (logs_for return_logs model_version_response,
                         pipeline_run, Some step'))
                    (set_model_version_id (model_version_id self_copy1) self)
                    s2
                    (map Resolving evs
                     ++ [UpdateRunStep (step_run_id step)
                           (mv_id model_version_response)])
              end
          | None =>
              match update_run (run_id pipeline_run)
                      (mv_id model_version_response) s1 with
              | (Raise e, s2) =>
                  mkLaunched (Raise e) self s2
                    (map Resolving evs
                     ++ [UpdateRun (run_id pipeline_run)
                           (mv_id model_version_response)])
              | (Ok pipeline_run', s2) =>
                  mkLaunched
                    (Ok (logs_for return_logs model_version_response,
                         pipeline_run', None))
                    (set_model_version_id (model_version_id self_copy1) self)
                    s2
                    (map Resolving evs
                     ++ [UpdateRun (run_id pipeline_run)
                           (mv_id model_version_response)])
              end
          end
      end
  end.

Definition is_update (e : LaunchEvent) : bool :=
  match e with
  | UpdateRunStep _ _ | UpdateRun _ _ => true
  | Resolving _ => false
  end.

End Prepare.

Arguments mkLaunched {Z_ L_ Store}.
Arguments launched {Z_ L_ Store}.
Arguments launched_self {Z_ L_ Store}.
Arguments launched_store {Z_ L_ Store}.
Arguments launched_events {Z_ L_ Store}.

(** ** A concrete package and concrete stores, to run the methods on *)

Module Example.

(** Modelled from the spec: the enumeration [ModelStages] of [zenml.enums]
    is not part of this module.  The spec names the stage values
    ["staging"] and ["production"]; only these two members are given
    here.  It also gives the maximum number of creation attempts as 10.
    [format_name_template] is taken on names without placeholders, which
    it returns as they are.  The platform is one whose power is the
    repeated product, and whose sets list their members in the order of
    the two lists they were built from, each member at its last place. *)
Inductive Stage := STAGING | PRODUCTION.

Definition Stage_value (s : Stage) : string :=
  match s with
  | STAGING => "staging"
  | PRODUCTION => "production"
  end.

#[export] Instance package : Zenml := {|
  ModelStages := Stage;
  ModelStages_members := [STAGING; PRODUCTION];
  ModelStages_value := Stage_value;
  ModelStages_enumerated := fun s =>
    match s with
    | STAGING => or_introl eq_refl
    | PRODUCTION => or_intror (or_introl eq_refl)
    end;
  MAX_RETRIES_FOR_VERSIONED_ENTITY_CREATION := 10;
  format_name_template := fun s => s;
  float_pow := Py.fpow;
  float_pow_exact := fun _ _ _ => eq_refl;
  list_of_union := fun own theirs =>
    List.nodup String.string_dec (own ++ theirs);
  list_of_union_NoDup := fun own theirs =>
    List.NoDup_nodup String.string_dec (own ++ theirs);
  list_of_union_In := fun own theirs t =>
    iff_trans (List.nodup_In String.string_dec (own ++ theirs) t)
      (List.in_app_iff own theirs t);
|}.

(** A store that answers from a script: each kind of call consumes the
    next scripted answer of its kind.  This covers a store that other
    callers write to between two calls of this one. *)
Record Script := mkScript {
  on_get_model : list (Result ModelResponse);
  on_create_model : list (Result ModelResponse);
  on_get_model_version_by_id : list (Result ModelVersionResponse);
  on_get_model_version : list (Result ModelVersionResponse);
  on_create_model_version : list (Result ModelVersionResponse);
}.

Definition next {A} (l : list (Result A)) : Result A * list (Result A) :=
  match l with
  | [] => (Raise (OtherException "no scripted answer"), [])
  | r :: rest => (r, rest)
  end.

#[export] Instance scripted : ZenStore Script := {|
  active_user_id := 1%N;
  active_workspace_id := 2%N;
  get_model := fun _ s =>
    let '(r, l) := next (on_get_model s) in
    (r, mkScript l (on_create_model s) (on_get_model_version_by_id s)
          (on_get_model_version s) (on_create_model_version s));
  create_model := fun _ s =>
    let '(r, l) := next (on_create_model s) in
    (r, mkScript (on_get_model s) l (on_get_model_version_by_id s)
          (on_get_model_version s) (on_create_model_version s));
  get_model_version_by_id := fun _ _ s =>
    let '(r, l) := next (on_get_model_version_by_id s) in
    (r, mkScript (on_get_model s) (on_create_model s) l
          (on_get_model_version s) (on_create_model_version s));
  get_model_version := fun _ _ _ s =>
    let '(r, l) := next (on_get_model_version s) in
    (r, mkScript (on_get_model s) (on_create_model s)
          (on_get_model_version_by_id s) l (on_create_model_version s));
  create_model_version := fun _ s =>
    let '(r, l) := next (on_create_model_version s) in
    (r, mkScript (on_get_model s) (on_create_model s)
          (on_get_model_version_by_id s) (on_get_model_version s) l);
|}.

(** The model ["churn"], already in the store. *)
Definition churn_model : ModelResponse := mkModelResponse 10%N "churn".

(** A version of it, as the store returns it: number 1, tags a and b. *)
Definition churn_v1 : ModelVersionResponse :=
  mkModelVersionResponse 100%N "1" 1 churn_model true (Some "first")
    ["a"; "b"].

(** A store under contention, with no state of its own: the model
    exists, no version can be fetched, and every attempt to create a
    version collides with another caller's.  [other] is what a failing
    creation of a model raises. *)
#[export] Instance contended : ZenStore unit := {|
  active_user_id := 1%N;
  active_workspace_id := 2%N;
  get_model := fun _ s => (Ok churn_model, s);
  create_model := fun _ s => (Raise EntityExistsError, s);
  get_model_version_by_id := fun _ _ s => (Raise KeyError, s);
  get_model_version := fun _ _ _ s => (Raise KeyError, s);
  create_model_version := fun _ s => (Raise EntityExistsError, s);
|}.

(** A reference as a caller writes it: a name, maybe a version. *)
Definition reference (name_ : string) (v : option (Version Stage)) : Model :=
  mkModel name_ None None None None None None None None v true
    None true false None None false.

(** The version a creation under [name_] returns. *)
Definition churn_named (name_ : string) : ModelVersionResponse :=
  mkModelVersionResponse 101%N name_ 2 churn_model true None [].

(** A store that has the model and none of its versions, and accepts the
    creation of one. *)
Definition no_such_version : Script :=
  mkScript [Ok churn_model] [] [] [Raise KeyError] [Ok (churn_named "v1")].

(** A store that has the model, creates version 1 on request and returns
    it when asked for it by id. *)
Definition creating_store : Script :=
  mkScript [Ok churn_model; Ok churn_model] [] [Ok churn_v1] []
    [Ok churn_v1].

(** Version 1 as a fetch without hydration returns it. *)
Definition churn_v1_unhydrated : ModelVersionResponse :=
  mkModelVersionResponse 100%N "1" 1 churn_model false (Some "first")
    ["a"; "b"].

(** A store that answers every fetch of a version with [mv]. *)
Definition store_with (mv : ModelVersionResponse) : Script :=
  mkScript [Ok churn_model] [] [Ok mv] [Ok mv] [].

(** A reference that also declares a description and tags. *)
Definition declaring (name_ : string) (v : option (Version Stage))
    (description_ : option string) (tags_ : option (list string)) : Model :=
  mkModel name_ None description_ None None None None None tags_ v true
    None true false None None false.



(** A store that has the model and no version ["v1"]; two creations
    collide and the third fails because the store is down. *)
Definition failing_store : Script :=
  mkScript [Ok churn_model] [] [] [Raise KeyError]
    [Raise EntityExistsError; Raise EntityExistsError;
     Raise (OtherException "the store is down")].

(** A store in which the model is missing at first and another caller
    creates it before this one does. *)
Definition raced_model_store : Script :=
  mkScript [Raise KeyError; Ok churn_model] [Raise EntityExistsError] [] [] [].

(** A launcher whose templates have no placeholders and which knows no
    dashboard URL, and the scripted store as a store of runs: an update
    returns the run or step run of the id it was given. *)
#[export] Instance launcher : Launcher := {|
  Time := nat;
  strftime := fun _ _ => "";
  format_name_template_at := fun template _ _ => template;
  try_get_model_version_url := fun _ => None;
|}.

#[export] Instance scripted_runs : RunStore Script := {|
  update_run_step := fun step_run_id_ _ s =>
    (Ok (mkStepRunResponse step_run_id_), s);
  update_run := fun run_id_ _ s =>
    (Ok (mkPipelineRunResponse run_id_ None None), s);
|}.

(** A run without a version yet, and a step run. *)
Definition run_7 : PipelineRunResponse := mkPipelineRunResponse 7%N None None.
Definition step_run_8 : StepRunResponse := mkStepRunResponse 8%N.

End Example.

(** * Properties *)

(** ** Python strings *)









Section Properties.
Context `{Z_ : Zenml} {Store : Type} `{ZS : !ZenStore Store}.

Ltac unfold_monad :=
  unfold bind, try_except, call, get_self, modify_self, emit, ret, raise in *.

Ltac destruct_store :=
  match goal with
  | |- context [get_model ?n ?s] =>
      destruct (get_model n s) as [[?|[]] ?] eqn:?
  | |- context [create_model ?r ?s] =>
      destruct (create_model r s) as [[?|[]] ?] eqn:?
  | |- context [get_model_version_by_id ?i ?h ?s] =>
      destruct (get_model_version_by_id i h s) as [[?|[]] ?] eqn:?
  | |- context [get_model_version ?n ?v ?h ?s] =>
      destruct (get_model_version n v h s) as [[?|[]] ?] eqn:?
  | |- context [create_model_version ?r ?s] =>
      destruct (create_model_version r s) as [[?|[]] ?] eqn:?
  end.

Lemma get_or_create_model_frame (self : Model) (s : Store) :
  let o := _get_or_create_model self s in
  forallb model_resolution_event (events o) = true
  /\ self_after o =
       match result o with
       | Ok model => set__model_id (Some (model_resp_id model)) self
       | Raise _ => self
       end.
Proof.
  unfold _get_or_create_model. unfold_monad. cbn.
  destruct (model_version_id self); cbn;
    repeat (destruct_store; cbn); auto.
Qed.

(** [_get_model_version]: one call to the store, then at most a warning. *)
Lemma get_model_version_fetched (hydrate : bool) (self : Model) (s s' : Store)
    (mv : ModelVersionResponse) :
  fetch_answer hydrate self s = (Ok mv, s') ->
  _get_model_version hydrate self s =
    mkOutcome (Ok mv)
      (match model_version_id self with
       | Some _ => self
       | None => set_model_version_id (Some (mv_id mv)) self
       end)
      s' (fetch_event hydrate self :: mismatch_warning self mv).
Proof.
  unfold fetch_answer, fetch_event, mismatch_warning, _get_model_version.
  unfold_monad. intros H.
  destruct (model_version_id self) eqn:E; cbn; rewrite H; cbn.
  - destruct (truthy_difference (difference_of self mv)); reflexivity.
  - change (difference_of (set_model_version_id (Some (mv_id mv)) self) mv)
      with (difference_of self mv).
    destruct (truthy_difference (difference_of self mv)); reflexivity.
Qed.

Lemma get_model_version_raised (hydrate : bool) (self : Model) (s s' : Store)
    (e : Exception) :
  fetch_answer hydrate self s = (Raise e, s') ->
  _get_model_version hydrate self s =
    mkOutcome (Raise e) self s' [fetch_event hydrate self].
Proof.
  unfold fetch_answer, fetch_event, _get_model_version.
  unfold_monad. intros H.
  destruct (model_version_id self) eqn:E; cbn; rewrite H; reflexivity.
Qed.

(** ** The retry loop *)

Lemma create_with_retries_created mv_request i rest retries_made self s mv s' :
  create_model_version mv_request s = (Ok mv, s') ->
  create_with_retries mv_request (i :: rest) retries_made self s =
    mkOutcome (Ok mv) self s' [CreateModelVersion mv_request].
Proof. intros H. cbn. unfold_monad. rewrite H. reflexivity. Qed.

Lemma create_with_retries_failed mv_request i rest retries_made self s e s' :
  create_model_version mv_request s = (Raise e, s') ->
  is_EntityExistsError e = false ->
  create_with_retries mv_request (i :: rest) retries_made self s =
    mkOutcome (Raise e) self s' [CreateModelVersion mv_request].
Proof. intros H He. cbn. unfold_monad. rewrite H, He. reflexivity. Qed.

Lemma create_with_retries_exhausted mv_request i rest retries_made self s e s' :
  create_model_version mv_request s = (Raise e, s') ->
  is_EntityExistsError e = true ->
  i = MAX_RETRIES_FOR_VERSIONED_ENTITY_CREATION - 1 ->
  create_with_retries mv_request (i :: rest) retries_made self s =
    mkOutcome
      (Raise (RuntimeError (FailedToCreateModelVersion
                (if truthy_version (version self)
                 then str_version (version self) else "new")
                (name self) retries_made)))
      self s' [CreateModelVersion mv_request].
Proof.
  intros H He Hi. cbn. unfold_monad. rewrite H, He. cbn.
  apply Nat.eqb_eq in Hi. rewrite Hi. reflexivity.
Qed.

Lemma create_with_retries_retried mv_request i rest retries_made self s e s' :
  create_model_version mv_request s = (Raise e, s') ->
  is_EntityExistsError e = true ->
  i <> MAX_RETRIES_FOR_VERSIONED_ENTITY_CREATION - 1 ->
  create_with_retries mv_request (i :: rest) retries_made self s =
    after_events
      [CreateModelVersion mv_request; Log (RetryingIn (name self) (backoff i));
       Sleep (backoff i)]
      (create_with_retries mv_request rest (retries_made + 1) self s').
Proof.
  intros H He Hi. cbn. unfold_monad. rewrite H, He. cbn.
  apply Nat.eqb_neq in Hi. rewrite Hi.
  destruct (create_with_retries mv_request rest (retries_made + 1) self s');
    reflexivity.
Qed.

(** The four ways one turn of the loop can go. *)
Ltac loop_turn mv_request i s :=
  let r := fresh "r" in let e := fresh "e" in let s' := fresh "s'" in
  let Hc := fresh "Hc" in let He := fresh "He" in let Hi := fresh "Hi" in
  destruct (create_model_version mv_request s) as [[r|e] s'] eqn:Hc;
  [ erewrite create_with_retries_created by exact Hc
  | destruct (is_EntityExistsError e) eqn:He;
    [ destruct (Nat.eq_dec i (MAX_RETRIES_FOR_VERSIONED_ENTITY_CREATION - 1))
        as [Hi|Hi];
      [ erewrite create_with_retries_exhausted by eassumption
      | erewrite create_with_retries_retried by eassumption ]
    | erewrite create_with_retries_failed by eassumption ] ].

Lemma create_with_retries_frame mv_request indices retries_made self s :
  let o := create_with_retries mv_request indices retries_made self s in
  self_after o = self
  /\ forallb retry_loop_event (events o) = true
  /\ (forall mv, result o = Ok mv ->
        existsb is_CreateModelVersion (events o) = true).
Proof.
  revert retries_made s.
  induction indices as [|i rest IH]; intros retries_made s.
  - cbn. repeat split; auto. discriminate.
  - loop_turn mv_request i s; cbn; repeat split; auto; try discriminate.
    all: specialize (IH (retries_made + 1) s');
      destruct (create_with_retries mv_request rest (retries_made + 1) self s');
      cbn in *; tauto.
Qed.

(** The delays slept by the loop over [k, k+1, ...]: [backoff k],
    [backoff (k+1)], ..., none of them after the last index. *)
Lemma create_with_retries_sleeps mv_request n k retries_made self s :
  exists j,
    j <= n
    /\ sleeps (events (create_with_retries mv_request (seq k n) retries_made self s))
       = map backoff (seq k j)
    /\ Forall (fun i => i <> MAX_RETRIES_FOR_VERSIONED_ENTITY_CREATION - 1) (seq k j).
Proof.
  revert k retries_made s.
  induction n as [|n IH]; intros k retries_made s.
  - exists 0. cbn. repeat split; auto.
  - cbn [seq]. loop_turn mv_request k s.
    1-2,4: exists 0; cbn; repeat split; auto; lia.
    destruct (IH (S k) (retries_made + 1) s') as (j & Hj & Hs & Hf).
    exists (S j). split; [lia|].
    destruct (create_with_retries mv_request (seq (S k) n) (retries_made + 1) self s').
    cbn in *. rewrite Hs. split; auto.
Qed.

(** ** The [try] block and the [except KeyError] block *)

Lemma after_events_nil {A} (o : @Outcome _ Store A) : after_events [] o = o.
Proof. destruct o; reflexivity. Qed.

Lemma bind_ret {A B} (a : A) (k : A -> M B) (self : Model) (s : Store) :
  bind (ret a) k self s = k a self s.
Proof. unfold bind, ret. apply after_events_nil. Qed.

Lemma bind_get_self {B} (k : Model -> M B) (self : Model) (s : Store) :
  bind get_self k self s = k self self s.
Proof. unfold bind, get_self. apply after_events_nil. Qed.

Lemma bind_modify_self {B} f (k : unit -> M B) (self : Model) (s : Store) :
  bind (modify_self f) k self s = k tt (f self) s.
Proof. unfold bind, modify_self. apply after_events_nil. Qed.

Lemma bind_raise {A B} e (k : A -> M B) (self : Model) (s : Store) :
  bind (raise e) k self s = raise e self s.
Proof. reflexivity. Qed.

Lemma bind_assoc {A B C} (m : M A) (f : A -> M B) (k : B -> M C)
    (self : Model) (s : Store) :
  bind (bind m f) k self s = bind m (fun a => bind (f a) k) self s.
Proof.
  unfold bind. destruct (m self s) as [[a|e] self1 s1 evs1]; cbn; [|reflexivity].
  destruct (f a self1 s1) as [[b|e] self2 s2 evs2]; cbn; [|reflexivity].
  destruct (k b self2 s2) as [r self3 s3 evs3]; cbn.
  now rewrite app_assoc.
Qed.

Lemma bind_ok {A B} (m : M A) (k : A -> M B) self (s : Store) a self1 s1 evs :
  m self s = mkOutcome (Ok a) self1 s1 evs ->
  bind m k self s = after_events evs (k a self1 s1).
Proof. intros H. unfold bind. now rewrite H. Qed.

Lemma bind_raised {A B} (m : M A) (k : A -> M B) self (s : Store) e self1 s1 evs :
  m self s = mkOutcome (Raise e) self1 s1 evs ->
  bind m k self s = mkOutcome (Raise e) self1 s1 evs.
Proof. intros H. unfold bind. now rewrite H. Qed.

Ltac monad_laws :=
  repeat first
    [ rewrite bind_assoc | rewrite bind_get_self | rewrite bind_modify_self
    | rewrite bind_ret | rewrite bind_raise ].

(** With a selector, or without a step context to search, the [try] block
    looks at [self] alone. *)
Lemma fetch_configured_version_alone step_context self s :
  truthy_version (version self) = true
  \/ reusable step_context (name self) = None ->
  fetch_configured_version step_context self s =
    if truthy_version (version self) || Py.is_not_None (model_version_id self)
    then _get_model_version true self s
    else mkOutcome (Raise KeyError) self s [].
Proof.
  unfold fetch_configured_version, reusable.
  intros [H|H]; monad_laws.
  - rewrite H. cbn [negb orb]. monad_laws. rewrite H. reflexivity.
  - destruct (truthy_version (version self)) eqn:E; cbn [negb orb].
    + monad_laws. rewrite E. reflexivity.
    + destruct step_context as [context|]; [rewrite H|]; monad_laws; rewrite E;
        cbn [orb]; destruct (Py.is_not_None (model_version_id self)); reflexivity.
Qed.

(** Without a selector, a reference of this run with the same name is
    adopted: its version and its version id. *)
Lemma fetch_configured_version_reused step_context self s found :
  truthy_version (version self) = false ->
  reusable step_context (name self) = Some found ->
  let adopted :=
    set_model_version_id (model_version_id found)
      (set_version (version found) self) in
  fetch_configured_version step_context self s =
    if truthy_version (version found) || Py.is_not_None (model_version_id found)
    then _get_model_version true adopted s
    else mkOutcome (Raise KeyError) adopted s [].
Proof.
  unfold fetch_configured_version, reusable.
  intros Hv Hr. monad_laws. rewrite Hv. cbn [negb].
  destruct step_context as [context|]; [|discriminate].
  rewrite Hr. monad_laws. cbn [version model_version_id set_version set_model_version_id].
  destruct (truthy_version (version found) || Py.is_not_None (model_version_id found));
    reflexivity.
Qed.

Lemma create_configured_version_reserved mv_request self s :
  reserved_name (version self) = true ->
  create_configured_version mv_request self s =
    mkOutcome (Raise (reserved_name_error (version self) (name self))) self s [].
Proof.
  unfold reserved_name, reserved_name_error, is_stage_name,
    create_configured_version.
  unfold_monad. cbn. intros H.
  destruct (truthy_version (version self)
            && Py.contains ModelStages_values (Py.lower (str_version (version self))));
    cbn in *; [reflexivity|].
  rewrite H. reflexivity.
Qed.

Lemma create_configured_version_free mv_request self s r self1 s1 evs :
  reserved_name (version self) = false ->
  create_with_retries mv_request
    (seq 0 MAX_RETRIES_FOR_VERSIONED_ENTITY_CREATION) 0 self s
    = mkOutcome r self1 s1 evs ->
  create_configured_version mv_request self s =
    match r with
    | Ok mv =>
        mkOutcome (Ok mv)
          (set__created_model_version true
             (set_was_created_in_this_run true
                (set_version (Some (VStr (mv_name mv))) self1)))
          s1
          (evs ++ [Log (CreatedNewModelVersion (Some (VStr (mv_name mv)))
                         (name self1))])
    | Raise e => mkOutcome (Raise e) self1 s1 evs
    end.
Proof.
  unfold reserved_name, is_stage_name, create_configured_version.
  unfold_monad. cbn. intros H Hl.
  apply orb_false_elim in H as [H1 H2]. rewrite H1, H2, Hl.
  destruct r; reflexivity.
Qed.

(** ** [_get_or_create_model_version], step by step *)

Lemma get_or_create_model_version_no_model hydrate step_context self s e self1 s1 evs1 :
  _get_or_create_model self s = mkOutcome (Raise e) self1 s1 evs1 ->
  _get_or_create_model_version hydrate step_context self s =
    mkOutcome (Raise e) self1 s1 evs1.
Proof.
  intros H. unfold _get_or_create_model_version.
  now apply bind_raised.
Qed.

Lemma get_or_create_model_version_steps hydrate step_context self s
    model self1 s1 evs1 r self3 s3 evs2 :
  _get_or_create_model self s = mkOutcome (Ok model) self1 s1 evs1 ->
  try_except (fetch_configured_version step_context) is_KeyError
    (create_configured_version (model_version_request_of (formatted self1) model))
    (formatted self1) s1 = mkOutcome r self3 s3 evs2 ->
  _get_or_create_model_version hydrate step_context self s =
    mkOutcome r
      (match r with
       | Ok mv =>
           set__number (Some (mv_number mv))
             (set__model_id (Some (model_resp_id (mv_model mv)))
                (set_model_version_id (Some (mv_id mv)) self3))
       | Raise _ => self3
       end)
      s3 (evs1 ++ evs2).
Proof.
  intros H1 H2.
  unfold _get_or_create_model_version.
  erewrite bind_ok by exact H1. monad_laws.
  destruct r as [mv|e].
  - erewrite bind_ok by exact H2. monad_laws. cbn. now rewrite app_nil_r.
  - erewrite bind_raised by exact H2. reflexivity.
Qed.

(** ** The parent model *)

(** C8: when the model is absent and its creation collides with another
    caller's, the resolver fetches the model by name once more, exactly
    once, and succeeds with the model found, outside any backoff; any other
    failure of the creation is raised at once. *)
Theorem model_conflict_refetched_once self (s s1 s2 : Store) :
  model_version_id self = None ->
  get_model (name self) s = (Raise KeyError, s1) ->
  (forall model s3,
     create_model (model_request_of self) s1 = (Raise EntityExistsError, s2) ->
     get_model (name self) s2 = (Ok model, s3) ->
     _get_or_create_model self s =
       mkOutcome (Ok model) (set__model_id (Some (model_resp_id model)) self) s3
         [GetModel (name self); CreateModel (model_request_of self);
          GetModel (name self)])
  /\ (forall e,
        create_model (model_request_of self) s1 = (Raise e, s2) ->
        is_EntityExistsError e = false ->
        _get_or_create_model self s =
          mkOutcome (Raise e) self s2
            [GetModel (name self); CreateModel (model_request_of self)]).
Proof.
  intros Hid Hget. split.
  - intros model s3 Hcreate Hget'.
    unfold _get_or_create_model. monad_laws. rewrite Hid.
    unfold bind, try_except, call.
    rewrite Hget. cbn. rewrite Hcreate. cbn. rewrite Hget'. reflexivity.
  - intros e Hcreate He.
    unfold _get_or_create_model. monad_laws. rewrite Hid.
    unfold bind, try_except, call.
    rewrite Hget. cbn. rewrite Hcreate. cbn. rewrite He. reflexivity.
Qed.

(** ** The lazy version *)

(** C10: [_lazy_version] calls nothing and changes nothing; it answers the
    number as a string when the number is set, else the version as a string
    (for a stage, its value), else [None]. *)
Theorem lazy_version_reads_fields self (s : Store) :
  exists answer,
    _lazy_version self s = mkOutcome (Ok answer) self s []
    /\ (forall n, _number self = Some n -> answer = Some (Py.str_int n))
    /\ (forall st, _number self = None -> version self = Some (VStage st) ->
          answer = Some (ModelStages_value st))
    /\ (forall v, _number self = None -> version self = Some v ->
          answer = Some (str_version (Some v)))
    /\ (_number self = None -> version self = None -> answer = None).
Proof.
  unfold _lazy_version. monad_laws.
  destruct (_number self) as [n|].
  - eexists. split; [reflexivity|].
    repeat split; intros; congruence.
  - destruct (version self) as [[st|n|t]|];
      (eexists; split; [reflexivity|]; repeat split; intros;
       simplify_eq; reflexivity).
Qed.

(** ** The outcomes of [_get_or_create_model_version]

    After the model is resolved, the call ends in one of five ways. *)

Section Outcomes.
Variables (hydrate : bool) (step_context : option StepContext).
Variables (self : Model) (s : Store).
Variables (model : ModelResponse) (self1 : Model) (s1 : Store) (evs1 : list Event).
Hypothesis Hmodel :
  _get_or_create_model self s = mkOutcome (Ok model) self1 s1 evs1.

Lemma outcome_fetched mv self2 s2 evs2 :
  fetch_configured_version step_context (formatted self1) s1
    = mkOutcome (Ok mv) self2 s2 evs2 ->
  _get_or_create_model_version hydrate step_context self s =
    mkOutcome (Ok mv) (cached mv self2) s2 (evs1 ++ evs2).
Proof using Hmodel.
  intros H.
  erewrite get_or_create_model_version_steps with (r := Ok mv); eauto.
  unfold try_except. now rewrite H.
Qed.

Lemma outcome_fetch_failed e self2 s2 evs2 :
  fetch_configured_version step_context (formatted self1) s1
    = mkOutcome (Raise e) self2 s2 evs2 ->
  is_KeyError e = false ->
  _get_or_create_model_version hydrate step_context self s =
    mkOutcome (Raise e) self2 s2 (evs1 ++ evs2).
Proof using Hmodel.
  intros H He.
  erewrite get_or_create_model_version_steps with (r := Raise e); eauto.
  unfold try_except. now rewrite H, He.
Qed.

Lemma outcome_reserved e self2 s2 evs2 :
  fetch_configured_version step_context (formatted self1) s1
    = mkOutcome (Raise e) self2 s2 evs2 ->
  is_KeyError e = true ->
  reserved_name (version self2) = true ->
  _get_or_create_model_version hydrate step_context self s =
    mkOutcome (Raise (reserved_name_error (version self2) (name self2)))
      self2 s2 (evs1 ++ evs2).
Proof using Hmodel.
  intros H He Hr.
  erewrite get_or_create_model_version_steps
    with (r := Raise (reserved_name_error (version self2) (name self2))); eauto.
  unfold try_except. rewrite H, He.
  rewrite create_configured_version_reserved by exact Hr.
  cbn. now rewrite app_nil_r.
Qed.

Lemma outcome_created e self2 s2 evs2 mv self3 s3 evs3 :
  fetch_configured_version step_context (formatted self1) s1
    = mkOutcome (Raise e) self2 s2 evs2 ->
  is_KeyError e = true ->
  reserved_name (version self2) = false ->
  create_with_retries (model_version_request_of (formatted self1) model)
    (seq 0 MAX_RETRIES_FOR_VERSIONED_ENTITY_CREATION) 0 self2 s2
    = mkOutcome (Ok mv) self3 s3 evs3 ->
  _get_or_create_model_version hydrate step_context self s =
    mkOutcome (Ok mv)
      (cached mv
         (set__created_model_version true
            (set_was_created_in_this_run true
               (set_version (Some (VStr (mv_name mv))) self3))))
      s3
      (evs1 ++ evs2 ++ evs3
         ++ [Log (CreatedNewModelVersion (Some (VStr (mv_name mv))) (name self3))]).
Proof using Hmodel.
  intros H He Hr Hl.
  erewrite get_or_create_model_version_steps with (r := Ok mv); eauto.
  unfold try_except. rewrite H, He.
  erewrite create_configured_version_free by eassumption.
  reflexivity.
Qed.

Lemma outcome_not_created e self2 s2 evs2 e' self3 s3 evs3 :
  fetch_configured_version step_context (formatted self1) s1
    = mkOutcome (Raise e) self2 s2 evs2 ->
  is_KeyError e = true ->
  reserved_name (version self2) = false ->
  create_with_retries (model_version_request_of (formatted self1) model)
    (seq 0 MAX_RETRIES_FOR_VERSIONED_ENTITY_CREATION) 0 self2 s2
    = mkOutcome (Raise e') self3 s3 evs3 ->
  _get_or_create_model_version hydrate step_context self s =
    mkOutcome (Raise e') self3 s3 (evs1 ++ evs2 ++ evs3).
Proof using Hmodel.
  intros H He Hr Hl.
  erewrite get_or_create_model_version_steps with (r := Raise e'); eauto.
  unfold try_except. rewrite H, He.
  erewrite create_configured_version_free by eassumption.
  reflexivity.
Qed.

End Outcomes.

(** ** What each part of the call may do *)

Lemma forallb_existsb_disjoint (p q : Event -> bool) (l : list Event) :
  (forall e, p e = true -> q e = false) ->
  forallb p l = true -> existsb q l = false.
Proof.
  intros Hpq. induction l as [|e l IH]; cbn; [reflexivity|].
  intros [He Hl]%andb_prop. now rewrite (Hpq e He), IH.
Qed.

Lemma forallb_sleeps_nil (p : Event -> bool) (l : list Event) :
  (forall d, p (Sleep d) = false) ->
  forallb p l = true -> sleeps l = [].
Proof.
  intros Hp. induction l as [|e l IH]; cbn; [reflexivity|].
  intros [He Hl]%andb_prop. destruct e; auto. now rewrite Hp in He.
Qed.

Lemma sleeps_app (l1 l2 : list Event) : sleeps (l1 ++ l2) = sleeps l1 ++ sleeps l2.
Proof.
  induction l1 as [|e l1 IH]; cbn; [reflexivity|].
  destruct e; cbn; now rewrite ?IH.
Qed.

Lemma model_resolution_creates_no_version (l : list Event) :
  forallb model_resolution_event l = true ->
  existsb is_CreateModelVersion l = false.
Proof.
  apply forallb_existsb_disjoint.
  intros [ | | ? [?|] | | | [] | ]; cbn; congruence.
Qed.

Lemma model_resolution_warns_nothing (l : list Event) :
  forallb model_resolution_event l = true ->
  existsb is_mismatch_warning l = false.
Proof.
  apply forallb_existsb_disjoint.
  intros [ | | ? [?|] | | | [] | ]; cbn; congruence.
Qed.

Lemma version_fetch_creates_no_version (l : list Event) :
  forallb version_fetch_event l = true ->
  existsb is_CreateModelVersion l = false.
Proof.
  apply forallb_existsb_disjoint.
  intros [ | | ? [?|] | | | [] | ]; cbn; congruence.
Qed.

Lemma retry_loop_warns_nothing (l : list Event) :
  forallb retry_loop_event l = true ->
  existsb is_mismatch_warning l = false.
Proof.
  apply forallb_existsb_disjoint.
  intros [ | | ? [?|] | | | [] | ]; cbn; congruence.
Qed.

Lemma fetch_event_is_fetch hydrate self :
  version_fetch_event (fetch_event hydrate self) = true.
Proof. unfold fetch_event. now destruct (model_version_id self). Qed.

Lemma mismatch_warning_is_fetch self mv :
  forallb version_fetch_event (mismatch_warning self mv) = true.
Proof.
  unfold mismatch_warning.
  now destruct (truthy_difference (difference_of self mv)).
Qed.

Lemma get_model_version_frame hydrate self (s : Store) :
  let o := _get_model_version hydrate self s in
  (self_after o = self \/ exists i, self_after o = set_model_version_id i self)
  /\ forallb version_fetch_event (events o) = true
  /\ (forall e, result o = Raise e -> events o = [fetch_event hydrate self]).
Proof.
  destruct (fetch_answer hydrate self s) as [[mv|e] s'] eqn:H.
  - rewrite (get_model_version_fetched _ _ _ _ _ H). cbn.
    rewrite fetch_event_is_fetch, mismatch_warning_is_fetch.
    repeat split; [|discriminate].
    destruct (model_version_id self); eauto.
  - rewrite (get_model_version_raised _ _ _ _ _ H). cbn.
    rewrite fetch_event_is_fetch. auto.
Qed.

Lemma fetch_configured_version_frame step_context self (s : Store) :
  let o := fetch_configured_version step_context self s in
  name (self_after o) = name self
  /\ description (self_after o) = description self
  /\ tags (self_after o) = tags self
  /\ was_created_in_this_run (self_after o) = was_created_in_this_run self
  /\ (truthy_version (version self) = true ->
      version (self_after o) = version self)
  /\ forallb version_fetch_event (events o) = true
  /\ (forall e, result o = Raise e ->
      existsb is_mismatch_warning (events o) = false).
Proof.
  assert (Hget : forall m : Model,
    let o := _get_model_version true m s in
    name (self_after o) = name m
    /\ description (self_after o) = description m
    /\ tags (self_after o) = tags m
    /\ was_created_in_this_run (self_after o) = was_created_in_this_run m
    /\ version (self_after o) = version m
    /\ forallb version_fetch_event (events o) = true
    /\ (forall e, result o = Raise e ->
        existsb is_mismatch_warning (events o) = false)).
  { intros m. destruct (get_model_version_frame true m s) as (Hs & Hev & Hr).
    cbv zeta in *. repeat split; auto.
    1-5: destruct Hs as [->|[i ->]]; reflexivity.
    intros e He. rewrite (Hr e He). cbn. unfold fetch_event.
    now destruct (model_version_id m). }
  destruct (truthy_version (version self)) eqn:Hv.
  - rewrite fetch_configured_version_alone by auto. rewrite Hv. cbn [orb].
    specialize (Hget self). cbn in Hget. tauto.
  - destruct (reusable step_context (name self)) as [found|] eqn:Hr.
    + rewrite (fetch_configured_version_reused _ _ _ _ Hv Hr).
      destruct (truthy_version (version found) || Py.is_not_None (model_version_id found)).
      * match goal with |- context [_get_model_version true ?m s] =>
          specialize (Hget m) end.
        cbn in Hget. cbn. repeat split; try tauto. discriminate.
      * cbn. repeat split; auto. discriminate.
    + rewrite fetch_configured_version_alone by auto. rewrite Hv. cbn [orb].
      destruct (Py.is_not_None (model_version_id self)).
      * specialize (Hget self). cbn in Hget. tauto.
      * cbn. repeat split; auto.
Qed.

(** The ways a call can end, with the outcome of each. *)
Ltac anatomy hydrate step_context self s :=
  let model := fresh "model" in let e := fresh "e" in
  let self1 := fresh "self1" in let s1 := fresh "s1" in
  let evs1 := fresh "evs1" in let Hmodel := fresh "Hmodel" in
  let mv := fresh "mv" in let self2 := fresh "self2" in
  let s2 := fresh "s2" in let evs2 := fresh "evs2" in
  let Hfetch := fresh "Hfetch" in let Hkey := fresh "Hkey" in
  let Hreserved := fresh "Hreserved" in
  let e' := fresh "e'" in let self3 := fresh "self3" in
  let s3 := fresh "s3" in let evs3 := fresh "evs3" in
  let Hloop := fresh "Hloop" in
  destruct (_get_or_create_model self s)
    as [[model|e] self1 s1 evs1] eqn:Hmodel;
  [ destruct (fetch_configured_version step_context (formatted self1) s1)
      as [[mv|e] self2 s2 evs2] eqn:Hfetch;
    [ rewrite (outcome_fetched hydrate step_context _ _ _ _ _ _ Hmodel
                 _ _ _ _ Hfetch) in *
    | destruct (is_KeyError e) eqn:Hkey;
      [ destruct (reserved_name (version self2)) eqn:Hreserved;
        [ rewrite (outcome_reserved hydrate step_context _ _ _ _ _ _ Hmodel
                     _ _ _ _ Hfetch Hkey Hreserved) in *
        | destruct (create_with_retries
                      (model_version_request_of (formatted self1) model)
                      (seq 0 MAX_RETRIES_FOR_VERSIONED_ENTITY_CREATION) 0
                      self2 s2)
            as [[mv|e'] self3 s3 evs3] eqn:Hloop;
          [ rewrite (outcome_created hydrate step_context _ _ _ _ _ _ Hmodel
                       _ _ _ _ _ _ _ _ Hfetch Hkey Hreserved Hloop) in *
          | rewrite (outcome_not_created hydrate step_context _ _ _ _ _ _ Hmodel
                       _ _ _ _ _ _ _ _ Hfetch Hkey Hreserved Hloop) in * ] ]
      | rewrite (outcome_fetch_failed hydrate step_context _ _ _ _ _ _ Hmodel
                   _ _ _ _ Hfetch Hkey) in * ] ]
  | rewrite (get_or_create_model_version_no_model hydrate step_context
               _ _ _ _ _ _ Hmodel) in * ].

(** ** Caching the resolution *)

(** C9: a successful resolution stores the version id, the number and the
    model id on the reference, and [was_created_in_this_run] becomes true
    exactly when this call issued a version creation: it keeps its value
    when the version was fetched, reused or not. *)
Theorem resolution_is_cached hydrate step_context self (s : Store) mv :
  result (_get_or_create_model_version hydrate step_context self s) = Ok mv ->
  let o := _get_or_create_model_version hydrate step_context self s in
  model_version_id (self_after o) = Some (mv_id mv)
  /\ _number (self_after o) = Some (mv_number mv)
  /\ _model_id (self_after o) = Some (model_resp_id (mv_model mv))
  /\ was_created_in_this_run (self_after o)
     = was_created_in_this_run self
       || existsb is_CreateModelVersion (events o).
Proof.
  intros Hok o. subst o.
  anatomy hydrate step_context self s; cbn in Hok; try discriminate;
    injection Hok as ->.
  - cbn. repeat split.
    destruct (get_or_create_model_frame self s) as [Hev1 Hs1].
    rewrite Hmodel in Hev1, Hs1. cbn in Hev1, Hs1.
    destruct (fetch_configured_version_frame step_context (formatted self1) s1)
      as (_ & _ & _ & Hflag & _ & Hev2 & _).
    rewrite Hfetch in Hflag, Hev2. cbn in Hflag, Hev2.
    rewrite Hflag, Hs1. cbn.
    rewrite existsb_app, (model_resolution_creates_no_version _ Hev1),
      (version_fetch_creates_no_version _ Hev2).
    now rewrite orb_false_r.
  - cbn. repeat split.
    destruct (create_with_retries_frame
                (model_version_request_of (formatted self1) model)
                (seq 0 MAX_RETRIES_FOR_VERSIONED_ENTITY_CREATION) 0 self2 s2)
      as (_ & _ & Hc).
    rewrite Hloop in Hc. cbn in Hc.
    rewrite !existsb_app, (Hc mv eq_refl). cbn.
    now rewrite !orb_true_r.
Qed.

(** ** Selectors under which no version is created *)

Lemma get_or_create_model_calls_store self (s : Store) :
  existsb is_store_call (events (_get_or_create_model self s)) = true.
Proof.
  unfold _get_or_create_model. unfold_monad. cbn.
  destruct (model_version_id self); cbn;
    repeat (destruct_store; cbn); auto.
Qed.

Lemma get_or_create_model_keeps self (s : Store) model self1 s1 evs1 :
  _get_or_create_model self s = mkOutcome (Ok model) self1 s1 evs1 ->
  self1 = set__model_id (Some (model_resp_id model)) self
  /\ forallb model_resolution_event evs1 = true
  /\ existsb is_store_call evs1 = true.
Proof.
  intros H.
  destruct (get_or_create_model_frame self s) as [Hev Hs].
  pose proof (get_or_create_model_calls_store self s) as Hc.
  rewrite H in Hev, Hs, Hc. cbn in *. auto.
Qed.

Lemma fetch_event_is_call hydrate self :
  is_version_fetch_call (fetch_event hydrate self) = true.
Proof. unfold fetch_event. now destruct (model_version_id self). Qed.

(** A selector that is set is not replaced before the fetch; when the fetch
    misses, this is what the [try] block leaves. *)
Lemma fetch_configured_version_missed step_context self (s s' : Store) :
  truthy_version (version self) = true ->
  fetch_answer true self s = (Raise KeyError, s') ->
  fetch_configured_version step_context self s =
    mkOutcome (Raise KeyError) self s' [fetch_event true self].
Proof.
  intros Hv Hf.
  rewrite fetch_configured_version_alone by auto. rewrite Hv. cbn [orb].
  now apply get_model_version_raised.
Qed.

(** C2 (as amended): under a selector that is a stage name, whatever its
    case, or is numeric, no call ever asks the store to create a version.
    The refusal itself comes after the store was asked: when the model is
    resolved and the fetch of the version misses, the call raises the
    reserved-name error, and the model lookup and the version fetch are
    already on record. *)
Theorem reserved_selector_never_created hydrate step_context self (s : Store) :
  truthy_version (format_version (version self)) = true ->
  reserved_name (format_version (version self)) = true ->
  let o := _get_or_create_model_version hydrate step_context self s in
  existsb is_CreateModelVersion (events o) = false
  /\ existsb is_store_call (events o) = true
  /\ (forall model self1 s1 evs1 s2,
        _get_or_create_model self s = mkOutcome (Ok model) self1 s1 evs1 ->
        fetch_answer true (formatted self) s1 = (Raise KeyError, s2) ->
        o = mkOutcome
              (Raise (reserved_name_error (format_version (version self))
                        (name self)))
              (formatted self1) s2
              (evs1 ++ [fetch_event true (formatted self)])
        /\ existsb is_store_call evs1 = true
        /\ is_version_fetch_call (fetch_event true (formatted self)) = true).
Proof.
  intros Hv Hr o. subst o. split; [|split].
  - anatomy hydrate step_context self s; cbn.
    all: try (destruct (get_or_create_model_keeps _ _ _ _ _ _ Hmodel)
                as (Hs1 & Hev1 & _)).
    all: try (destruct (fetch_configured_version_frame step_context
                          (formatted self1) s1)
                as (_ & _ & _ & _ & Hver & Hev2 & _);
              rewrite Hfetch in Hver, Hev2; cbn in Hver, Hev2;
              rewrite Hs1 in Hver; cbn in Hver; specialize (Hver Hv)).
    1,2,5: rewrite existsb_app, (model_resolution_creates_no_version _ Hev1),
             (version_fetch_creates_no_version _ Hev2); reflexivity.
    1,2: rewrite Hver in Hreserved; congruence.
    destruct (get_or_create_model_frame self s) as [Hev _].
    rewrite Hmodel in Hev. cbn in Hev.
    now apply model_resolution_creates_no_version.
  - pose proof (get_or_create_model_calls_store self s) as Hc.
    anatomy hydrate step_context self s; cbn in *;
      rewrite ?existsb_app, Hc; reflexivity.
  - intros model self1 s1 evs1 s2 Hmodel Hmiss.
    destruct (get_or_create_model_keeps _ _ _ _ _ _ Hmodel) as (-> & _ & Hc).
    split; [|split; [exact Hc|apply fetch_event_is_call]].
    rewrite (outcome_reserved hydrate step_context _ _ _ _ _ _ Hmodel KeyError
               (formatted (set__model_id (Some (model_resp_id model)) self)) s2
               [fetch_event true (formatted self)]).
    + reflexivity.
    + apply (fetch_configured_version_missed step_context
               (formatted (set__model_id (Some (model_resp_id model)) self)));
        [exact Hv|exact Hmiss].
    + reflexivity.
    + exact Hr.
Qed.

(** ** A version that is not found *)

Lemma create_with_retries_first mv_request i rest retries_made self (s : Store) :
  exists tail,
    events (create_with_retries mv_request (i :: rest) retries_made self s)
    = CreateModelVersion mv_request :: tail.
Proof.
  loop_turn mv_request i s; cbn; eauto.
  destruct (create_with_retries mv_request rest (retries_made + 1) self s');
    cbn; eauto.
Qed.

Lemma fetch_event_creates_nothing hydrate self :
  is_CreateModelVersion (fetch_event hydrate self) = false.
Proof. unfold fetch_event. now destruct (model_version_id self). Qed.

(** C1 (as amended): the selector is set and the fetch of the version
    misses.  Under a stage name or a numeric name the call raises the
    reserved-name error, which tells the caller to check that the version
    exists, and no creation is issued.  Under any other name the miss turns
    into a creation under that name, as it does without a selector. *)
Theorem selector_miss hydrate step_context self (s : Store)
    model self1 s1 evs1 s2 :
  _get_or_create_model self s = mkOutcome (Ok model) self1 s1 evs1 ->
  truthy_version (format_version (version self)) = true ->
  fetch_answer true (formatted self) s1 = (Raise KeyError, s2) ->
  let v := format_version (version self) in
  let o := _get_or_create_model_version hydrate step_context self s in
  (reserved_name v = true ->
     result o = Raise (reserved_name_error v (name self))
     /\ existsb is_CreateModelVersion (events o) = false)
  /\ (reserved_name v = false ->
      MAX_RETRIES_FOR_VERSIONED_ENTITY_CREATION <> 0 ->
      exists rest,
        events o =
          evs1 ++ [fetch_event true (formatted self);
                   CreateModelVersion
                     (mkModelVersionRequest active_user_id active_workspace_id
                        (Some (str_version v)) (description self)
                        (model_resp_id model) (tags self))] ++ rest).
Proof.
  intros Hmodel Hv Hmiss v o.
  destruct (get_or_create_model_keeps _ _ _ _ _ _ Hmodel) as (-> & Hev1 & _).
  pose proof (fetch_configured_version_missed step_context
                (formatted (set__model_id (Some (model_resp_id model)) self))
                s1 s2 Hv Hmiss) as Hfetch.
  split.
  - intros Hr. subst o.
    rewrite (outcome_reserved hydrate step_context _ _ _ _ _ _ Hmodel KeyError
               _ _ _ Hfetch eq_refl Hr).
    cbn. split; [reflexivity|].
    rewrite existsb_app, (model_resolution_creates_no_version _ Hev1).
    cbn [existsb]. now rewrite fetch_event_creates_nothing.
  - intros Hr Hmax. subst o.
    destruct (create_with_retries
                (model_version_request_of
                   (formatted (set__model_id (Some (model_resp_id model)) self))
                   model)
                (seq 0 MAX_RETRIES_FOR_VERSIONED_ENTITY_CREATION) 0
                (formatted (set__model_id (Some (model_resp_id model)) self)) s2)
      as [[mv|e] self3 s3 evs3] eqn:Hloop.
    all: assert (Hfirst : exists tail,
           evs3 = CreateModelVersion
                    (mkModelVersionRequest active_user_id active_workspace_id
                       (Some (str_version v)) (description self)
                       (model_resp_id model) (tags self)) :: tail)
      by (destruct MAX_RETRIES_FOR_VERSIONED_ENTITY_CREATION as [|n];
          [congruence|];
          destruct (create_with_retries_first
                      (model_version_request_of
                         (formatted (set__model_id (Some (model_resp_id model)) self))
                         model)
                      0 (seq 1 n) 0
                      (formatted (set__model_id (Some (model_resp_id model)) self))
                      s2) as [tail Ht];
          change (seq 0 (S n)) with (0 :: seq 1 n) in Hloop;
          rewrite Hloop in Ht; cbn in Ht; exists tail; rewrite Ht;
          unfold model_version_request_of; cbn;
          fold v; unfold v; rewrite Hv; reflexivity).
    all: destruct Hfirst as [tail ->].
    + rewrite (outcome_created hydrate step_context _ _ _ _ _ _ Hmodel KeyError
                 _ _ _ _ _ _ _ Hfetch eq_refl Hr Hloop).
      cbn. eexists. reflexivity.
    + rewrite (outcome_not_created hydrate step_context _ _ _ _ _ _ Hmodel KeyError
                 _ _ _ _ _ _ _ Hfetch eq_refl Hr Hloop).
      cbn. eexists. reflexivity.
Qed.

(** ** What a run holds *)

Lemma created_in_this_run_for_spec target (m : Model) :
  created_in_this_run_for target (Some m) = true
  <-> was_created_in_this_run m = true /\ name m = target /\ version m <> None.
Proof.
  unfold created_in_this_run_for.
  rewrite !andb_true_iff, String.eqb_eq.
  destruct (version m); cbn; split.
  - intros [[H1 H2] _]. repeat split; [exact H1|exact H2|discriminate].
  - intros (H1 & H2 & _). repeat split; [exact H1|exact H2].
  - intros [_ H]. discriminate.
  - intros (_ & _ & H). now destruct H.
Qed.

Lemma first_step_model_spec target (steps : list (string * option Model)) :
  match first_step_model target steps with
  | Some m =>
      exists before key after,
        steps = before ++ (key, Some m) :: after
        /\ created_in_this_run_for target (Some m) = true
        /\ Forall (fun step => created_in_this_run_for target (snd step) = false)
             before
  | None =>
      Forall (fun step => created_in_this_run_for target (snd step) = false) steps
  end.
Proof.
  induction steps as [|[key step_mv] rest IH]; cbn; [constructor|].
  destruct (created_in_this_run_for target step_mv) eqn:Hc.
  - destruct step_mv as [m|]; [|discriminate].
    exists [], key, rest. repeat split; [exact Hc|constructor].
  - destruct (first_step_model target rest) as [m|].
    + destruct IH as (before & key' & after & -> & Hm & Hbefore).
      exists ((key, step_mv) :: before), key', after.
      repeat split; [exact Hm|]. constructor; [exact Hc|exact Hbefore].
    + constructor; [exact Hc|exact IH].
Qed.

(** What the search returns is held by the run and was created in it. *)
Lemma reusable_held step_context target m :
  reusable step_context target = Some m ->
  holds step_context m /\ created_here target m.
Proof.
  unfold reusable, holds, created_here.
  destruct step_context as [context|]; [|discriminate].
  unfold model_of_this_run.
  destruct (created_in_this_run_for target (pipeline_run_config_model context))
    eqn:Hp.
  - intros Hm. rewrite Hm in Hp.
    apply created_in_this_run_for_spec in Hp. auto.
  - intros Hm.
    pose proof (first_step_model_spec target (pipeline_run_steps context)) as Hs.
    rewrite Hm in Hs. destruct Hs as (before & key & after & Hsteps & Hfit & _).
    apply created_in_this_run_for_spec in Hfit. split; [|exact Hfit].
    right. exists key. rewrite Hsteps. apply in_or_app. right. now left.
Qed.


Lemma nothing_to_reuse_none step_context target :
  nothing_to_reuse step_context target -> reusable step_context target = None.
Proof.
  intros Hnothing.
  destruct (reusable step_context target) as [m|] eqn:Hr; [|reflexivity].
  destruct (reusable_held _ _ _ Hr) as [Hheld Hfit].
  now destruct (Hnothing m Hheld).
Qed.


(** ** Retries *)

Lemma model_resolution_sleeps_nothing (l : list Event) :
  forallb model_resolution_event l = true -> sleeps l = [].
Proof. now apply forallb_sleeps_nil. Qed.

Lemma version_fetch_sleeps_nothing (l : list Event) :
  forallb version_fetch_event l = true -> sleeps l = [].
Proof. now apply forallb_sleeps_nil. Qed.

Lemma count_app p (l1 l2 : list Event) : count p (l1 ++ l2) = count p l1 + count p l2.
Proof. unfold count. now rewrite List.filter_app, List.length_app. Qed.

Lemma count_none p (l : list Event) : existsb p l = false -> count p l = 0.
Proof.
  unfold count. induction l as [|e l IH]; cbn; [reflexivity|].
  intros [He Hl]%orb_false_elim. rewrite He. auto.
Qed.

Lemma after_events_app {A} (l1 l2 : list Event) (o : @Outcome _ Store A) :
  after_events l1 (after_events l2 o) = after_events (l1 ++ l2) o.
Proof. destruct o. cbn. now rewrite app_assoc. Qed.

Lemma after_conflicts_S mv_request k (s s' : Store) :
  create_model_version mv_request s = (Raise EntityExistsError, s') ->
  after_conflicts mv_request (S k) s = after_conflicts mv_request k s'.
Proof. intros H. cbn. now rewrite H. Qed.

Lemma after_conflicts_first mv_request k (s s3 : Store) :
  after_conflicts mv_request (S k) s = Some s3 ->
  exists s',
    create_model_version mv_request s = (Raise EntityExistsError, s')
    /\ after_conflicts mv_request k s' = Some s3.
Proof.
  cbn. destruct (create_model_version mv_request s) as [[mv|[]] s'];
    try discriminate.
  intros H. now exists s'.
Qed.

Lemma after_conflicts_last mv_request k (s s3 : Store) :
  after_conflicts mv_request (S k) s = Some s3 ->
  exists s',
    after_conflicts mv_request k s = Some s'
    /\ create_model_version mv_request s' = (Raise EntityExistsError, s3).
Proof.
  revert s. induction k as [|k IH]; intros s H.
  - apply after_conflicts_first in H as (s' & Hc & [= ->]).
    exists s. split; [reflexivity|exact Hc].
  - apply after_conflicts_first in H as (s1 & Hc & Hrest).
    destruct (IH s1 Hrest) as (s' & Hk & Hlast).
    exists s'. split; [|exact Hlast].
    now rewrite (after_conflicts_S _ _ _ _ Hc).
Qed.

Lemma conflict_turns_S mv_request name_ start k :
  conflict_turns mv_request name_ start (S k)
  = [CreateModelVersion mv_request; Log (RetryingIn name_ (backoff start));
     Sleep (backoff start)]
    ++ conflict_turns mv_request name_ (S start) k.
Proof. reflexivity. Qed.

Lemma count_conflict_turns mv_request name_ start k :
  count is_CreateModelVersion (conflict_turns mv_request name_ start k) = k.
Proof.
  revert start. induction k as [|k IH]; intros start; [reflexivity|].
  rewrite conflict_turns_S, count_app, IH. reflexivity.
Qed.

Lemma sleeps_conflict_turns mv_request name_ start k :
  sleeps (conflict_turns mv_request name_ start k) = map backoff (seq start k).
Proof.
  revert start. induction k as [|k IH]; intros start; [reflexivity|].
  rewrite conflict_turns_S, sleeps_app, IH. reflexivity.
Qed.

(** While the creations collide, and the last index is not reached, the
    loop sleeps and goes on. *)
Lemma create_with_retries_conflicts mv_request k :
  forall start retries_made self (s s' : Store) rest,
    after_conflicts mv_request k s = Some s' ->
    start + k < MAX_RETRIES_FOR_VERSIONED_ENTITY_CREATION ->
    create_with_retries mv_request (seq start k ++ rest) retries_made self s
    = after_events (conflict_turns mv_request (name self) start k)
        (create_with_retries mv_request rest (retries_made + k) self s').
Proof.
  induction k as [|k IH]; intros start retries_made self s s' rest Hk Hlt.
  - injection Hk as ->. cbn [seq app conflict_turns flat_map].
    now rewrite after_events_nil, Nat.add_0_r.
  - apply after_conflicts_first in Hk as (s1 & Hc & Hrest).
    cbn [seq app].
    rewrite (create_with_retries_retried _ _ _ _ _ _ _ _ Hc eq_refl)
      by lia.
    rewrite (IH (S start) (retries_made + 1) self s1 s' rest Hrest) by lia.
    rewrite after_events_app, conflict_turns_S.
    now replace (retries_made + 1 + k) with (retries_made + S k) by lia.
Qed.

(** The [try] block when the version is not found. *)
Lemma not_found_fetch step_context self (s1 s2 : Store) i :
  not_found step_context self s1 s2 ->
  exists evs2,
    fetch_configured_version step_context (formatted (set__model_id i self)) s1
    = mkOutcome (Raise KeyError) (formatted (set__model_id i self)) s2 evs2
    /\ forallb version_fetch_event evs2 = true.
Proof.
  unfold not_found.
  destruct (truthy_version (format_version (version self))) eqn:Hv.
  - intros Hmiss. eexists. split.
    + apply (fetch_configured_version_missed step_context
               (formatted (set__model_id i self)) s1 s2 Hv Hmiss).
    + cbn. now rewrite fetch_event_is_fetch.
  - intros (Hid & Hnothing & ->). exists []. split; [|reflexivity].
    rewrite fetch_configured_version_alone
      by (right; apply nothing_to_reuse_none; exact Hnothing).
    unfold formatted. cbn. now rewrite Hv, Hid.
Qed.

(** C5: the version is not found and its name is free.  If the creation
    collides at every attempt, the call makes exactly the maximum number of
    attempts, sleeping between two of them, and after the last one raises
    the error that names the version (['new'] without a selector), the
    model and the number of retries.  If, after any number of collisions,
    a creation fails in another way, that failure is raised at once: the
    failed attempt is the last event, and no sleep follows it. *)
Theorem creation_conflicts_exhaust_retries hydrate step_context self (s : Store)
    model self1 s1 evs1 s2 :
  MAX_RETRIES_FOR_VERSIONED_ENTITY_CREATION <> 0 ->
  _get_or_create_model self s = mkOutcome (Ok model) self1 s1 evs1 ->
  let v := format_version (version self) in
  reserved_name v = false ->
  not_found step_context self s1 s2 ->
  let mv_request :=
    mkModelVersionRequest active_user_id active_workspace_id
      (if truthy_version v then Some (str_version v) else None)
      (description self) (model_resp_id model) (tags self) in
  let label := if truthy_version v then str_version v else "new" in
  let o := _get_or_create_model_version hydrate step_context self s in
  (forall s3,
     after_conflicts mv_request MAX_RETRIES_FOR_VERSIONED_ENTITY_CREATION s2
       = Some s3 ->
     result o = Raise (RuntimeError (FailedToCreateModelVersion label (name self)
                  (MAX_RETRIES_FOR_VERSIONED_ENTITY_CREATION - 1)))
     /\ count is_CreateModelVersion (events o)
        = MAX_RETRIES_FOR_VERSIONED_ENTITY_CREATION
     /\ sleeps (events o)
        = map backoff (seq 0 (MAX_RETRIES_FOR_VERSIONED_ENTITY_CREATION - 1))
     /\ (exists before, events o = before ++ [CreateModelVersion mv_request])
     /\ store_after o = s3)
  /\ (forall k s3 e s4,
        k < MAX_RETRIES_FOR_VERSIONED_ENTITY_CREATION ->
        after_conflicts mv_request k s2 = Some s3 ->
        create_model_version mv_request s3 = (Raise e, s4) ->
        is_EntityExistsError e = false ->
        result o = Raise e
        /\ count is_CreateModelVersion (events o) = k + 1
        /\ sleeps (events o) = map backoff (seq 0 k)
        /\ (exists before, events o = before ++ [CreateModelVersion mv_request])
        /\ store_after o = s4).
Proof.
  intros Hmax Hmodel v Hfree Hmiss mv_request label o.
  destruct (get_or_create_model_keeps _ _ _ _ _ _ Hmodel) as (-> & Hev1 & _).
  set (self2 := formatted (set__model_id (Some (model_resp_id model)) self)).
  destruct (not_found_fetch step_context self s1 s2 (Some (model_resp_id model))
              Hmiss) as (evs2 & Hfetch & Hev2).
  fold self2 in Hfetch.
  assert (Hquiet : forall tail,
    count is_CreateModelVersion (evs1 ++ evs2 ++ tail)
      = count is_CreateModelVersion tail
    /\ sleeps (evs1 ++ evs2 ++ tail) = sleeps tail).
  { intros tail. rewrite !count_app, !sleeps_app.
    rewrite (count_none _ _ (model_resolution_creates_no_version _ Hev1)),
      (count_none _ _ (version_fetch_creates_no_version _ Hev2)),
      (model_resolution_sleeps_nothing _ Hev1),
      (version_fetch_sleeps_nothing _ Hev2).
    split; reflexivity. }
  split.
  - intros s3 Hall.
    destruct MAX_RETRIES_FOR_VERSIONED_ENTITY_CREATION as [|n] eqn:Hn;
      [congruence|].
    apply after_conflicts_last in Hall as (s' & Hfirst & Hlast).
    assert (Hloop :
      create_with_retries (model_version_request_of self2 model)
        (seq 0 MAX_RETRIES_FOR_VERSIONED_ENTITY_CREATION) 0 self2 s2
      = mkOutcome
          (Raise (RuntimeError (FailedToCreateModelVersion label (name self) n)))
          self2 s3
          (conflict_turns mv_request (name self) 0 n
             ++ [CreateModelVersion mv_request])).
    { rewrite Hn, List.seq_S.
      change (model_version_request_of self2 model) with mv_request.
      rewrite (create_with_retries_conflicts mv_request n 0 0 self2 s2 s' [0 + n]
                 Hfirst) by lia.
      rewrite (create_with_retries_exhausted _ _ _ _ _ _ _ _ Hlast eq_refl)
        by lia.
      reflexivity. }
    subst o. rewrite <- Hn.
    rewrite (outcome_not_created hydrate step_context _ _ _ _ _ _ Hmodel KeyError
               _ _ _ _ _ _ _ Hfetch eq_refl Hfree Hloop).
    cbn [result store_after events].
    destruct (Hquiet (conflict_turns mv_request (name self) 0 n
                        ++ [CreateModelVersion mv_request])) as [-> ->].
    rewrite count_app, sleeps_app, count_conflict_turns, sleeps_conflict_turns.
    rewrite Hn. cbn [Nat.sub]. rewrite Nat.sub_0_r.
    repeat split.
    + cbn. lia.
    + cbn [sleeps]. now rewrite app_nil_r.
    + eexists. rewrite !app_assoc. reflexivity.
  - intros k s3 e s4 Hk Hfirst Hc He.
    assert (Hloop :
      create_with_retries (model_version_request_of self2 model)
        (seq 0 MAX_RETRIES_FOR_VERSIONED_ENTITY_CREATION) 0 self2 s2
      = mkOutcome (Raise e) self2 s4
          (conflict_turns mv_request (name self) 0 k
             ++ [CreateModelVersion mv_request])).
    { replace MAX_RETRIES_FOR_VERSIONED_ENTITY_CREATION
        with (k + S (MAX_RETRIES_FOR_VERSIONED_ENTITY_CREATION - S k)) by lia.
      rewrite List.seq_app. cbn [seq].
      change (model_version_request_of self2 model) with mv_request.
      rewrite (create_with_retries_conflicts mv_request k 0 0 self2 s2 s3 _
                 Hfirst) by lia.
      rewrite (create_with_retries_failed _ _ _ _ _ _ _ _ Hc He).
      reflexivity. }
    subst o.
    rewrite (outcome_not_created hydrate step_context _ _ _ _ _ _ Hmodel KeyError
               _ _ _ _ _ _ _ Hfetch eq_refl Hfree Hloop).
    cbn [result store_after events].
    destruct (Hquiet (conflict_turns mv_request (name self) 0 k
                        ++ [CreateModelVersion mv_request])) as [-> ->].
    rewrite count_app, sleeps_app, count_conflict_turns, sleeps_conflict_turns.
    repeat split.
    + cbn [sleeps]. now rewrite app_nil_r.
    + eexists. rewrite !app_assoc. reflexivity.
Qed.

(** ** The backoff schedule *)

(** Whatever the store answers, the delays slept during one call are
    [backoff 0], [backoff 1], ... up to some index below the last one. *)
Lemma sleeps_of_a_call hydrate step_context self (s : Store) :
  exists j,
    j <= MAX_RETRIES_FOR_VERSIONED_ENTITY_CREATION - 1
    /\ sleeps (events (_get_or_create_model_version hydrate step_context self s))
       = map backoff (seq 0 j).
Proof.
  assert (Hloop_sleeps : forall mv_request self2 (s2 : Store), exists j,
    j <= MAX_RETRIES_FOR_VERSIONED_ENTITY_CREATION - 1
    /\ sleeps (events (create_with_retries mv_request
                 (seq 0 MAX_RETRIES_FOR_VERSIONED_ENTITY_CREATION) 0 self2 s2))
       = map backoff (seq 0 j)).
  { intros mv_request self2 s2.
    destruct (create_with_retries_sleeps mv_request
                MAX_RETRIES_FOR_VERSIONED_ENTITY_CREATION 0 0 self2 s2)
      as (j & Hj & Hs & Hf).
    exists j. split; [|exact Hs].
    destruct (le_lt_dec j (MAX_RETRIES_FOR_VERSIONED_ENTITY_CREATION - 1))
      as [Hle|Hlt]; [exact Hle|].
    rewrite List.Forall_forall in Hf.
    exfalso. apply (Hf (MAX_RETRIES_FOR_VERSIONED_ENTITY_CREATION - 1));
      [|reflexivity].
    apply List.in_seq. lia. }
  anatomy hydrate step_context self s; cbn [events].
  all: try (destruct (get_or_create_model_keeps _ _ _ _ _ _ Hmodel)
              as (_ & Hev1 & _)).
  all: try (destruct (fetch_configured_version_frame step_context
                        (formatted self1) s1) as (_ & _ & _ & _ & _ & Hev2 & _);
            rewrite Hfetch in Hev2; cbn in Hev2).
  all: rewrite ?sleeps_app, ?(model_resolution_sleeps_nothing _ Hev1),
         ?(version_fetch_sleeps_nothing _ Hev2); cbn [app sleeps].
  1,2,5: exists 0; split; [lia|reflexivity].
  - destruct (Hloop_sleeps (model_version_request_of (formatted self1) model)
                self2 s2) as (j & Hj & Hs).
    rewrite Hloop in Hs. cbn in Hs. exists j. rewrite app_nil_r. auto.
  - destruct (Hloop_sleeps (model_version_request_of (formatted self1) model)
                self2 s2) as (j & Hj & Hs).
    rewrite Hloop in Hs. cbn in Hs. exists j. auto.
  - destruct (get_or_create_model_frame self s) as [Hev _].
    rewrite Hmodel in Hev. cbn in Hev.
    rewrite (model_resolution_sleeps_nothing _ Hev).
    exists 0; split; [lia|reflexivity].
Qed.

(** The powers of 1.5 are binary64 numbers up to the 33rd, and there the
    platform's power is the repeated product. *)
Lemma powers_of_1_5_exact (i : nat) : i <= 33 -> Py.exact_power 1.5 i = true.
Proof.
  intros H.
  do 34 (destruct i as [|i]; [vm_compute; reflexivity|]).
  lia.
Qed.

Lemma backoff_exact (i : nat) :
  i <= 33 -> backoff i = (0.2 * Py.fpow 1.5 i)%float.
Proof.
  intros H. unfold backoff.
  now rewrite (float_pow_exact _ _ (powers_of_1_5_exact i H)).
Qed.

(** The product with 0.2 rounds twice (0.2 is no binary64 number): the
    delay is the real number within a relative error of [2^-52]. *)
Lemma backoff_rounding (i : nat) :
  i <= 33 ->
  exists q,
    Py.rational (0.2 * Py.fpow 1.5 i) = Some q
    /\ (Qabs (q - (1 # 5) * (3 # 2) ^ Z.of_nat i)
        <= (1 # 5) * (3 # 2) ^ Z.of_nat i * (1 # 2 ^ 52))%Q.
Proof.
  intros H.
  do 34 (destruct i as [|i];
         [ destruct (Py.rational _) as [q|] eqn:E;
             [|vm_compute in E; discriminate E];
           exists q; split; [reflexivity|];
           vm_compute in E; injection E as <-;
           apply Qle_bool_iff; vm_compute; reflexivity
         |]).
  lia.
Qed.

Lemma firstn_prefix {A} (l1 l2 : list A) :
  firstn (length l1) (l1 ++ l2) = l1.
Proof.
  induction l1 as [|a l1 IH]; cbn; [now destruct l2|now rewrite IH].
Qed.

(** C4: the [i]-th delay slept by a call (counting attempts from 0) is
    [0.2 * 1.5**i], and it is slept only when another attempt follows.  Up
    to the 33rd the power is exact, so the delay is the real number
    0.2 * 1.5^i rounded to binary64.  When the version is not found and
    the first [k] creations collide, with an attempt left, the first [k]
    delays are slept.  The first five delays are 0.2, 0.3, 0.45, 0.675 and
    1.0125 up to rounding, each within 0.01 of the rounded values 0.2,
    0.3, 0.45, 0.68, 1.02. *)
Theorem backoff_schedule hydrate step_context self (s : Store) :
  let o := _get_or_create_model_version hydrate step_context self s in
  (forall i d,
     nth_error (sleeps (events o)) i = Some d ->
     i < MAX_RETRIES_FOR_VERSIONED_ENTITY_CREATION - 1
     /\ d = (0.2 * float_pow 1.5 i)%float
     /\ (i <= 33 ->
         d = (0.2 * Py.fpow 1.5 i)%float
         /\ exists q,
              Py.rational d = Some q
              /\ (Qabs (q - (1 # 5) * (3 # 2) ^ Z.of_nat i)
                  <= (1 # 5) * (3 # 2) ^ Z.of_nat i * (1 # 2 ^ 52))%Q))
  /\ (forall model self1 s1 evs1 s2 k s3,
        _get_or_create_model self s = mkOutcome (Ok model) self1 s1 evs1 ->
        let v := format_version (version self) in
        reserved_name v = false ->
        not_found step_context self s1 s2 ->
        k < MAX_RETRIES_FOR_VERSIONED_ENTITY_CREATION ->
        after_conflicts
          (mkModelVersionRequest active_user_id active_workspace_id
             (if truthy_version v then Some (str_version v) else None)
             (description self) (model_resp_id model) (tags self))
          k s2 = Some s3 ->
        firstn k (sleeps (events o)) = map backoff (seq 0 k))
  /\ forallb (fun '(x, y) => (abs (x - y) <=? 1e-15)%float)
       (combine (map backoff (seq 0 5)) [0.2; 0.3; 0.45; 0.675; 1.0125]%float)
     = true
  /\ forallb (fun '(x, y) => (abs (x - y) <=? 0.01)%float)
       (combine (map backoff (seq 0 5)) [0.2; 0.3; 0.45; 0.68; 1.02]%float)
     = true.
Proof.
  intros o. split; [|split].
  - intros i d Hnth. subst o.
    destruct (sleeps_of_a_call hydrate step_context self s) as (j & Hj & Hs).
    rewrite Hs in Hnth.
    assert (Hi : i < j).
    { assert (Hlen : i < length (map backoff (seq 0 j)))
        by (apply List.nth_error_Some; congruence).
      now rewrite List.length_map, List.length_seq in Hlen. }
    rewrite List.nth_error_map in Hnth.
    rewrite (List.nth_error_nth' _ 0) in Hnth by (rewrite List.length_seq; exact Hi).
    rewrite List.seq_nth in Hnth by exact Hi. cbn in Hnth.
    injection Hnth as <-.
    split; [lia|]. split; [reflexivity|].
    intros H33. rewrite (float_pow_exact _ _ (powers_of_1_5_exact i H33)).
    split; [reflexivity|].
    apply backoff_rounding, H33.
  - intros model self1 s1 evs1 s2 k s3 Hmodel v Hfree Hmiss Hk Hfirst.
    destruct (get_or_create_model_keeps _ _ _ _ _ _ Hmodel) as (-> & Hev1 & _).
    set (self2 := formatted (set__model_id (Some (model_resp_id model)) self)).
    destruct (not_found_fetch step_context self s1 s2
                (Some (model_resp_id model)) Hmiss) as (evs2 & Hfetch & Hev2).
    fold self2 in Hfetch.
    set (mv_request := model_version_request_of self2 model).
    destruct (create_with_retries mv_request
                (seq k (MAX_RETRIES_FOR_VERSIONED_ENTITY_CREATION - k)) k
                self2 s3) as [r self3 s4 evs3] eqn:Hrest.
    assert (Hloop :
      create_with_retries mv_request
        (seq 0 MAX_RETRIES_FOR_VERSIONED_ENTITY_CREATION) 0 self2 s2
      = mkOutcome r self3 s4
          (conflict_turns mv_request (name self) 0 k ++ evs3)).
    { replace MAX_RETRIES_FOR_VERSIONED_ENTITY_CREATION
        with (k + (MAX_RETRIES_FOR_VERSIONED_ENTITY_CREATION - k)) at 1 by lia.
      rewrite List.seq_app.
      rewrite (create_with_retries_conflicts mv_request k 0 0 self2 s2 s3 _
                 Hfirst) by lia.
      cbn [Nat.add]. rewrite Hrest. reflexivity. }
    assert (Hk' : k = length (map backoff (seq 0 k)))
      by now rewrite List.length_map, List.length_seq.
    subst o. destruct r as [mv|e].
    + rewrite (outcome_created hydrate step_context _ _ _ _ _ _ Hmodel KeyError
                 _ _ _ _ _ _ _ Hfetch eq_refl Hfree Hloop).
      cbn [events]. rewrite !sleeps_app, sleeps_conflict_turns.
      rewrite (model_resolution_sleeps_nothing _ Hev1),
        (version_fetch_sleeps_nothing _ Hev2). cbn [app].
      rewrite <- app_assoc. rewrite Hk' at 1. apply firstn_prefix.
    + rewrite (outcome_not_created hydrate step_context _ _ _ _ _ _ Hmodel KeyError
                 _ _ _ _ _ _ _ Hfetch eq_refl Hfree Hloop).
      cbn [events]. rewrite !sleeps_app, sleeps_conflict_turns.
      rewrite (model_resolution_sleeps_nothing _ Hev1),
        (version_fetch_sleeps_nothing _ Hev2). cbn [app].
      rewrite Hk' at 1. apply firstn_prefix.
  - cbn [seq map]. rewrite !backoff_exact by lia.
    split; vm_compute; reflexivity.
Qed.

(** ** The validator *)



(** ** Reconciling the declared description and tags *)

Lemma mismatch_warning_warns_only self mv :
  existsb is_CreateModelVersion (mismatch_warning self mv) = false
  /\ existsb is_store_call (mismatch_warning self mv) = false.
Proof.
  unfold mismatch_warning.
  now destruct (truthy_difference (difference_of self mv)).
Qed.

(** A call that logged a mismatch created no version. *)
Lemma warning_excludes_creation hydrate step_context self (s : Store) :
  let o := _get_or_create_model_version hydrate step_context self s in
  existsb is_mismatch_warning (events o) = true ->
  existsb is_CreateModelVersion (events o) = false.
Proof.
  intros o. subst o.
  anatomy hydrate step_context self s; cbn [events]; intros Hw.
  all: try (destruct (get_or_create_model_keeps _ _ _ _ _ _ Hmodel)
              as (_ & Hev1 & _)).
  all: try (destruct (fetch_configured_version_frame step_context
                        (formatted self1) s1) as (_ & _ & _ & _ & _ & Hev2 & Hq);
            rewrite Hfetch in Hev2, Hq; cbn in Hev2, Hq).
  1,2,5: rewrite existsb_app, (model_resolution_creates_no_version _ Hev1),
           (version_fetch_creates_no_version _ Hev2); reflexivity.
  1,2: exfalso;
    destruct (create_with_retries_frame
                (model_version_request_of (formatted self1) model)
                (seq 0 MAX_RETRIES_FOR_VERSIONED_ENTITY_CREATION) 0 self2 s2)
      as (_ & Hev3 & _);
    rewrite Hloop in Hev3; cbn in Hev3;
    rewrite !existsb_app, (model_resolution_warns_nothing _ Hev1),
      (Hq _ eq_refl), (retry_loop_warns_nothing _ Hev3) in Hw;
    cbn in Hw; discriminate.
  destruct (get_or_create_model_frame self s) as [Hev _].
  rewrite Hmodel in Hev. cbn in Hev.
  now apply model_resolution_creates_no_version.
Qed.

(** C7 (as amended): a fetch that succeeds returns the version as the
    store gave it and leaves the declaration on [self] as it was; its only
    call to the store is the fetch, followed by at most a warning.  The
    warning reports the tags declared but not stored as added and the tags
    stored but not declared as removed, and it reports the description only
    when the fetched version carries its metadata.  A call that logged such
    a warning created no version. *)
Theorem fetch_reconciles_without_writing hydrate self (s s' : Store) mv :
  fetch_answer hydrate self s = (Ok mv, s') ->
  let o := _get_model_version hydrate self s in
  let d := difference_of self mv in
  result o = Ok mv
  /\ store_after o = s'
  /\ name (self_after o) = name self
  /\ version (self_after o) = version self
  /\ description (self_after o) = description self
  /\ tags (self_after o) = tags self
  /\ events o = fetch_event hydrate self :: mismatch_warning self mv
  /\ count is_store_call (events o) = 1
  /\ existsb is_CreateModelVersion (events o) = false
  /\ (forall t ts, tags self = Some (t :: ts) ->
      let configured_tags : gset string := list_to_set (t :: ts) in
      let db_tags : gset string := list_to_set (mv_tags mv) in
      db_tags <> configured_tags ->
      diff_tags_added d = Some (configured_tags ∖ db_tags)
      /\ diff_tags_removed d = Some (db_tags ∖ configured_tags)
      /\ mismatch_warning self mv
         = [Log (ConfigurationMismatch (name self) (version self) d)])
  /\ (forall text, description self = Some text -> text <> "" ->
      mv_metadata mv = true -> mv_description mv <> Some text ->
      diff_description d = Some (text, mv_description mv)
      /\ mismatch_warning self mv
         = [Log (ConfigurationMismatch (name self) (version self) d)])
  /\ (mv_metadata mv = false -> diff_description d = None)
  /\ (forall step_context self0 (s0 : Store),
      let o0 := _get_or_create_model_version hydrate step_context self0 s0 in
      existsb is_mismatch_warning (events o0) = true ->
      existsb is_CreateModelVersion (events o0) = false).
Proof.
  intros Hfetch o d. subst o.
  rewrite (get_model_version_fetched _ _ _ _ _ Hfetch).
  cbn [result store_after self_after events].
  destruct (mismatch_warning_warns_only self mv) as [Hnc Hns].
  repeat match goal with |- _ /\ _ => split end;
    try (destruct (model_version_id self); reflexivity).
  - change (count is_store_call ([fetch_event hydrate self] ++ mismatch_warning self mv) = 1).
    rewrite count_app, (count_none _ _ Hns).
    unfold fetch_event. now destruct (model_version_id self).
  - cbn [existsb]. now rewrite fetch_event_creates_nothing, Hnc.
  - intros t ts Ht Hne.
    assert (Htags :
      diff_tags_added d
        = Some (list_to_set (t :: ts) ∖ list_to_set (mv_tags mv))
      /\ diff_tags_removed d
         = Some (list_to_set (mv_tags mv) ∖ list_to_set (t :: ts))).
    { subst d. unfold difference_of. rewrite Ht.
      rewrite (bool_decide_eq_true_2 _ Hne). now split. }
    destruct Htags as [Ha Hr]. repeat split; auto.
    unfold mismatch_warning, truthy_difference. fold d.
    rewrite Ha. cbn. now rewrite orb_true_r.
  - intros text Ht Hne Hmeta Hdiff.
    assert (Hd : diff_description d = Some (text, mv_description mv)).
    { subst d. unfold difference_of. cbn [diff_description].
      rewrite Hmeta, Ht. cbn.
      assert (Htruthy : negb (String.eqb text "") = true)
        by (apply negb_true_iff, String.eqb_neq; exact Hne).
      rewrite Htruthy. cbn.
      now rewrite (bool_decide_eq_true_2 _ Hdiff). }
    split; [exact Hd|].
    unfold mismatch_warning, truthy_difference. fold d.
    now rewrite Hd.
  - intros Hmeta. subst d. unfold difference_of. cbn [diff_description].
    now rewrite Hmeta.
  - intros step_context self0 s0. apply warning_excludes_creation.
Qed.

(** ** Reuse within a run *)


Lemma version_fetch_records_no_creation (l : list Event) :
  forallb version_fetch_event l = true ->
  existsb is_created_record l = false.
Proof.
  apply forallb_existsb_disjoint.
  intros [ | | ? [?|] | | | [] | ]; cbn; congruence.
Qed.





(** ** The properties [id], [number] and [model_id] *)

Lemma try_except_ok {A} (m handler : M A) caught self (s : Store) a self1 s1 evs :
  m self s = mkOutcome (Ok a) self1 s1 evs ->
  try_except m caught handler self s = mkOutcome (Ok a) self1 s1 evs.
Proof. intros H. unfold try_except. now rewrite H. Qed.

Lemma try_except_raised {A} (m handler : M A) caught self (s : Store) e self1 s1 evs :
  m self s = mkOutcome (Raise e) self1 s1 evs ->
  try_except m caught handler self s =
    if caught e then after_events evs (handler self1 s1)
    else mkOutcome (Raise e) self1 s1 evs.
Proof. intros H. unfold try_except. now rewrite H. Qed.

(** A call that succeeds leaves the three cached fields on the reference. *)
Lemma resolved_reference hydrate step_context self (s : Store) mv self' s' evs :
  _get_or_create_model_version hydrate step_context self s
    = mkOutcome (Ok mv) self' s' evs ->
  exists m, self' = cached mv m.
Proof.
  intros H.
  destruct (_get_or_create_model self s) as [[model|e] self1 s1 evs1] eqn:Hmodel.
  - destruct (try_except (fetch_configured_version step_context) is_KeyError
                (create_configured_version
                   (model_version_request_of (formatted self1) model))
                (formatted self1) s1) as [r self3 s3 evs2] eqn:Htry.
    rewrite (get_or_create_model_version_steps hydrate step_context _ _ _ _ _ _
               _ _ _ _ Hmodel Htry) in H.
    destruct r as [mv'|e]; [|discriminate].
    injection H as -> <- _ _. now exists self3.
  - rewrite (get_or_create_model_version_no_model _ _ _ _ _ _ _ _ Hmodel) in H.
    discriminate.
Qed.

Lemma id_resolves step_context self (s : Store) mv self1 s1 evs :
  model_version_id self = None ->
  _get_or_create_model_version false step_context self s
    = mkOutcome (Ok mv) self1 s1 evs ->
  Attr.id step_context self s
    = mkOutcome (Ok (Some (mv_id mv)))
        (set_model_version_id (Some (mv_id mv)) self1) s1 evs.
Proof.
  intros Hid Hmain. unfold Attr.id. monad_laws. rewrite Hid. cbn [Py.is_not_None].
  erewrite bind_ok.
  2: { apply try_except_ok. erewrite bind_ok by exact Hmain.
       unfold modify_self. cbn. reflexivity. }
  monad_laws. cbn. now rewrite !app_nil_r.
Qed.

Lemma id_fails step_context self (s : Store) e self1 s1 evs :
  model_version_id self = None ->
  _get_or_create_model_version false step_context self s
    = mkOutcome (Raise e) self1 s1 evs ->
  Attr.id step_context self s
    = mkOutcome
        (Raise (if Attr.is_RuntimeError e
                then RuntimeError (OtherRuntimeMessage (Attr.does_not_exist self1))
                else e))
        self1 s1 evs.
Proof.
  intros Hid Hmain. unfold Attr.id. monad_laws. rewrite Hid. cbn [Py.is_not_None].
  erewrite bind_raised; [reflexivity|].
  rewrite (try_except_raised _ _ _ _ _ e self1 s1 evs)
    by (erewrite bind_raised by exact Hmain; reflexivity).
  destruct (Attr.is_RuntimeError e); [|reflexivity].
  monad_laws. unfold raise. cbn. now rewrite app_nil_r.
Qed.

Lemma number_fails step_context self (s : Store) e self1 s1 evs :
  _number self = None ->
  _get_or_create_model_version false step_context self s
    = mkOutcome (Raise e) self1 s1 evs ->
  Attr.number step_context self s
    = mkOutcome (Raise (if Attr.is_RuntimeError e then KeyError else e))
        self1 s1 evs.
Proof.
  intros Hn Hmain. unfold Attr.number. monad_laws. rewrite Hn. cbn [Py.is_not_None].
  erewrite bind_raised; [reflexivity|].
  rewrite (try_except_raised _ _ _ _ _ e self1 s1 evs)
    by (erewrite bind_raised by exact Hmain; reflexivity).
  destruct (Attr.is_RuntimeError e); [|reflexivity].
  unfold raise. cbn. now rewrite app_nil_r.
Qed.

(** X1: once [id] has resolved the version, the reference answers [id],
    [number] and [model_id] from its own fields: none of them calls the
    store again, and [id] returns the same id. *)
Theorem id_is_cached step_context step_context' self (s : Store) i self1 s1 evs :
  model_version_id self = None ->
  Attr.id step_context self s = mkOutcome (Ok i) self1 s1 evs ->
  exists mv,
    i = Some (mv_id mv)
    /\ Attr.id step_context' self1 s1 = mkOutcome (Ok i) self1 s1 []
    /\ Attr.number step_context' self1 s1
       = mkOutcome (Ok (Some (mv_number mv))) self1 s1 []
    /\ Attr.model_id self1 s1
       = mkOutcome (Ok (Some (model_resp_id (mv_model mv)))) self1 s1 [].
Proof.
  intros Hid Hrun.
  destruct (_get_or_create_model_version false step_context self s)
    as [[mv|e] self0 s0 evs0] eqn:Hmain.
  - rewrite (id_resolves _ _ _ _ _ _ _ Hid Hmain) in Hrun.
    injection Hrun as <- <- <- <-.
    destruct (resolved_reference _ _ _ _ _ _ _ _ Hmain) as [m ->].
    exists mv. split; [reflexivity|].
    unfold Attr.id, Attr.number, Attr.model_id. monad_laws. cbn.
    repeat split.
  - rewrite (id_fails _ _ _ _ _ _ _ Hid Hmain) in Hrun. discriminate.
Qed.

(** X2: when the resolution fails, [id] and [number] add no call and change
    nothing more: a [RuntimeError] of the resolution becomes the
    "doesn't exist" [RuntimeError] of [id] and the [KeyError] of [number],
    and any other exception passes through as it is. *)
Theorem resolution_errors_translated step_context self (s : Store) e self1 s1 evs :
  _get_or_create_model_version false step_context self s
    = mkOutcome (Raise e) self1 s1 evs ->
  (model_version_id self = None ->
   Attr.id step_context self s
   = mkOutcome
       (Raise (if Attr.is_RuntimeError e
               then RuntimeError (OtherRuntimeMessage (Attr.does_not_exist self1))
               else e))
       self1 s1 evs)
  /\ (_number self = None ->
      Attr.number step_context self s
      = mkOutcome (Raise (if Attr.is_RuntimeError e then KeyError else e))
          self1 s1 evs).
Proof.
  intros Hmain. split; intros H.
  - now apply id_fails.
  - now apply number_fails.
Qed.

(** X3: a stage name or a numeric name that the store does not have: [id]
    raises the [RuntimeError] that names the version and the model,
    [number] raises [KeyError], and neither has asked for a creation. *)
Theorem unknown_version_reported step_context self (s : Store)
    model self1 s1 evs1 s2 :
  model_version_id self = None ->
  _number self = None ->
  _get_or_create_model self s = mkOutcome (Ok model) self1 s1 evs1 ->
  truthy_version (format_version (version self)) = true ->
  reserved_name (format_version (version self)) = true ->
  fetch_answer true (formatted self) s1 = (Raise KeyError, s2) ->
  let message :=
    ("Version `" ++ str_version (format_version (version self)) ++ "` of `"
     ++ name self
     ++ "` model doesn't exist and cannot be fetched from the Model Control Plane."
    )%string in
  let o := Attr.id step_context self s in
  let o' := Attr.number step_context self s in
  result o = Raise (RuntimeError (OtherRuntimeMessage message))
  /\ result o' = Raise KeyError
  /\ events o = evs1 ++ [fetch_event true (formatted self)]
  /\ events o' = events o
  /\ existsb is_CreateModelVersion (events o) = false.
Proof.
  intros Hid Hn Hmodel Hv Hr Hmiss message o o'.
  destruct (get_or_create_model_keeps _ _ _ _ _ _ Hmodel) as (-> & Hev1 & _).
  pose proof (fetch_configured_version_missed step_context
                (formatted (set__model_id (Some (model_resp_id model)) self))
                s1 s2 Hv Hmiss) as Hfetch.
  pose proof (outcome_reserved false step_context _ _ _ _ _ _ Hmodel KeyError
                _ _ _ Hfetch eq_refl Hr) as Hmain.
  subst o o'.
  rewrite (id_fails _ _ _ _ _ _ _ Hid Hmain),
    (number_fails _ _ _ _ _ _ _ Hn Hmain).
  unfold reserved_name_error.
  assert (Hrt : forall (b : bool) (x y : RuntimeMessage),
            Attr.is_RuntimeError (if b then RuntimeError x else RuntimeError y) = true)
    by (intros []; reflexivity).
  rewrite Hrt. cbn [result events].
  repeat split.
  rewrite existsb_app, (model_resolution_creates_no_version _ Hev1).
  cbn [existsb]. now rewrite fetch_event_creates_nothing.
Qed.

(** X4: [model_id] answers from the reference when the model id is there,
    without a call; otherwise it resolves the model only: whatever the store
    answers, it asks for no creation of a version and sleeps no delay, and
    what it returns is the model id now on the reference. *)
Theorem model_id_resolves_the_model_only self (s : Store) :
  let o := Attr.model_id self s in
  (forall i, _model_id self = Some i -> o = mkOutcome (Ok (Some i)) self s [])
  /\ existsb is_CreateModelVersion (events o) = false
  /\ sleeps (events o) = []
  /\ (forall r, result o = Ok r -> r = _model_id (self_after o))
  /\ (forall r, _model_id self = None -> result o = Ok r -> r <> None)
  /\ version (self_after o) = version self
  /\ model_version_id (self_after o) = model_version_id self.
Proof.
  intros o. subst o. unfold Attr.model_id. monad_laws.
  destruct (_model_id self) as [i|] eqn:Hm; cbn [Py.is_not_None].
  - monad_laws. rewrite Hm. cbn.
    repeat split; try congruence.
    intros i0 [= <-]. reflexivity.
  - destruct (get_or_create_model_frame self s) as [Hev Hs].
    destruct (_get_or_create_model self s) as [[model|e] self1 s1 evs1] eqn:Hmodel;
      cbn in Hev, Hs.
    + erewrite bind_ok.
      2: { erewrite bind_ok by exact Hmodel. unfold ret. cbn. reflexivity. }
      monad_laws. subst self1. cbn. rewrite !app_nil_r.
      repeat match goal with |- _ /\ _ => split end.
      all: first [ discriminate
                 | now apply model_resolution_creates_no_version
                 | now apply model_resolution_sleeps_nothing
                 | reflexivity
                 | intros; simplify_eq; first [reflexivity|discriminate] ].
    + erewrite bind_raised.
      2: { erewrite bind_raised by exact Hmodel. reflexivity. }
      subst self1. cbn.
      repeat match goal with |- _ /\ _ => split end.
      all: first [ discriminate
                 | now apply model_resolution_creates_no_version
                 | now apply model_resolution_sleeps_nothing
                 | reflexivity
                 | intros; simplify_eq ].
Qed.

(** X5: a reference that knows its version id resolves its model through
    that version: one call by id, and no lookup or creation of the model by
    name; an error of that call is raised as it is. *)
Theorem model_of_known_version self (s : Store) i :
  model_version_id self = Some i ->
  let o := _get_or_create_model self s in
  events o = [GetModelVersionById i None]
  /\ (forall mv s', get_model_version_by_id i None s = (Ok mv, s') ->
      o = mkOutcome (Ok (mv_model mv))
            (set__model_id (Some (model_resp_id (mv_model mv))) self) s'
            [GetModelVersionById i None])
  /\ (forall e s', get_model_version_by_id i None s = (Raise e, s') ->
      o = mkOutcome (Raise e) self s' [GetModelVersionById i None]).
Proof.
  intros Hid o. subst o. unfold _get_or_create_model. monad_laws. rewrite Hid.
  unfold bind, call, ret, modify_self.
  destruct (get_model_version_by_id i None s) as [[mv|e] s'] eqn:Hget; cbn.
  - repeat split; [|discriminate]. intros mv' s'' [= <- <-]. reflexivity.
  - repeat split; [discriminate|]. intros e' s'' [= <- <-]. reflexivity.
Qed.

(** ** Equality and hash *)

Lemma version_eq_refl (v : option (Version ModelStages)) : version_eq v v = true.
Proof.
  destruct v as [[st|n|t]|]; cbn; auto using String.eqb_refl, Z.eqb_refl.
Qed.

Lemma version_eq_sym (a b : option (Version ModelStages)) :
  version_eq a b = version_eq b a.
Proof.
  destruct a as [[?|?|?]|], b as [[?|?|?]|]; cbn;
    auto using String.eqb_sym, Z.eqb_sym.
Qed.

Lemma version_eq_str (a b : option (Version ModelStages)) :
  version_eq a b = true -> str_version a = str_version b.
Proof.
  destruct a as [[?|?|?]|], b as [[?|?|?]|]; cbn; try discriminate;
    try (intros H; apply String.eqb_eq in H; exact H); auto.
  intros H. apply Z.eqb_eq in H. now subst.
Qed.

(** X6: two references with different names are unequal, and two with the
    same name and equal versions are equal, in particular a reference and
    itself; in both cases the comparison calls nothing and changes nothing,
    and it answers the same in both directions. *)
Theorem eq_by_name_and_version step_context (a b : Model) (s : Store) :
  (name a <> name b ->
   __eq__ step_context a b s = mkComparison (Ok false) a b s [])
  /\ (name a = name b -> version_eq (version a) (version b) = true ->
      __eq__ step_context a b s = mkComparison (Ok true) a b s []
      /\ __eq__ step_context b a s = mkComparison (Ok true) b a s [])
  /\ __eq__ step_context a a s = mkComparison (Ok true) a a s [].
Proof.
  assert (Hsame : forall x y : Model,
            name x = name y -> version_eq (version x) (version y) = true ->
            __eq__ step_context x y s = mkComparison (Ok true) x y s []).
  { intros x y Hn Hv. unfold __eq__.
    apply String.eqb_eq in Hn. now rewrite Hn, Hv. }
  split; [|split].
  - intros Hn. unfold __eq__.
    apply String.eqb_neq in Hn. now rewrite Hn.
  - intros Hn Hv. split; [now apply Hsame|].
    apply Hsame; [now symmetry|]. now rewrite version_eq_sym.
  - apply Hsame; [reflexivity|apply version_eq_refl].
Qed.

(** X7: when [__eq__] answers true, the two references have the same name,
    and either their versions are equal, or both have been resolved and
    now hold the same version id. *)
Theorem eq_means_same_version step_context (a b : Model) (s : Store) :
  let c := __eq__ step_context a b s in
  answer c = Ok true ->
  name a = name b
  /\ (version_eq (version a) (version b) = true
      \/ exists i, model_version_id (left_after c) = Some i
                   /\ model_version_id (right_after c) = Some i).
Proof.
  intros c. subst c. unfold __eq__.
  destruct (String.eqb (name a) (name b)) eqn:Hn; cbn [negb andb];
    [|discriminate].
  apply String.eqb_eq in Hn. intros H. split; [exact Hn|].
  destruct (version_eq (version a) (version b)); [now left|]. right.
  destruct (_get_or_create_model_version false step_context a s)
    as [[mva|e] a1 s1 evs1] eqn:Ha; [|discriminate].
  destruct (_get_or_create_model_version false step_context b s1)
    as [[mvb|e] b1 s2 evs2] eqn:Hb; [|discriminate].
  destruct (resolved_reference _ _ _ _ _ _ _ _ Ha) as [ma ->].
  destruct (resolved_reference _ _ _ _ _ _ _ _ Hb) as [mb ->].
  cbn in *. injection H as H. apply N.eqb_eq in H.
  exists (mv_id mva). now rewrite H.
Qed.

(** X8: references that [__eq__] calls equal by name and version have the
    same hash, whatever the built-in [hash] is. *)
Theorem eq_by_name_and_version_hash (hash : string -> Z) (a b : Model) :
  name a = name b ->
  version_eq (version a) (version b) = true ->
  __hash__ hash a = __hash__ hash b.
Proof.
  intros Hn Hv. unfold __hash__, hash_key.
  now rewrite Hn, (version_eq_str _ _ Hv).
Qed.

(** ** Merging two configurations *)

Lemma or_else_idempotent (a b : option string) :
  or_else (or_else a b) b = or_else a b.
Proof.
  unfold or_else. destruct (truthy_str a) eqn:Ha; [now rewrite Ha|].
  now destruct (truthy_str b).
Qed.

(** X9: [_merge] calls nothing and touches neither the name, the version,
    the registry flag nor any technical attribute; a descriptive field
    that is set (not [None] and not empty) keeps its value, and one that
    is not set takes the value of the other model, whatever it is. *)
Theorem merge_fills_unset_fields (model self : Model) (s : Store) :
  let o := _merge model self s in
  let self' := self_after o in
  result o = Ok tt /\ events o = [] /\ store_after o = s
  /\ name self' = name self
  /\ version self' = version self
  /\ save_models_to_registry self' = save_models_to_registry self
  /\ model_version_id self' = model_version_id self
  /\ suppress_class_validation_warnings self'
     = suppress_class_validation_warnings self
  /\ was_created_in_this_run self' = was_created_in_this_run self
  /\ _model_id self' = _model_id self
  /\ _number self' = _number self
  /\ _created_model_version self' = _created_model_version self
  /\ (forall field : Model -> option string,
        In field [license; description; audience; use_cases; limitations;
                  trade_offs; ethics] ->
        (truthy_str (field self) = true -> field self' = field self)
        /\ (truthy_str (field self) = false -> field self' = field model)).
Proof.
  cbn. repeat split; try reflexivity.
  all: intros Ht;
    repeat match goal with
    | H : _ \/ _ |- _ => destruct H as [<-|H]
    | H : False |- _ => destruct H
    end; cbn; unfold or_else; now rewrite Ht.
Qed.

Lemma merged_tags_In (own : option (list string)) (theirs : list string) t :
  In t (merged_tags own theirs)
  <-> In t (match own with Some l => l | None => [] end) \/ In t theirs.
Proof.
  unfold merged_tags. rewrite list_of_union_In.
  destruct own as [[|t' l]|]; reflexivity.
Qed.

(** X10: the tags after [_merge] are the tags of both models, each once;
    when the other model has no tag list, the tags are left as they are
    (also when they are [None]). *)
Theorem merge_unites_tags (model self : Model) (s : Store) :
  let self' := self_after (_merge model self s) in
  (tags model = None -> tags self' = tags self)
  /\ (forall theirs, tags model = Some theirs ->
      exists merged,
        tags self' = Some merged
        /\ List.NoDup merged
        /\ forall t,
             In t merged <->
             In t (match tags self with Some l => l | None => [] end)
             \/ In t theirs).
Proof.
  cbn. split.
  - intros ->. reflexivity.
  - intros theirs ->. eexists. split; [reflexivity|]. split.
    + apply list_of_union_NoDup.
    + intros t. apply merged_tags_In.
Qed.

(** X11: merging the same model a second time changes no field, except
    that the tags, which are listed from a set again, may come in another
    order: they are the same tags, each once. *)
Theorem merge_is_idempotent (model self : Model) (s : Store) :
  let once := self_after (_merge model self s) in
  let twice := self_after (_merge model once s) in
  set_tags (tags once) twice = once
  /\ match tags once, tags twice with
     | Some before, Some after => Permutation before after
     | None, None => True
     | _, _ => False
     end.
Proof.
  cbn -[merged_tags]. split.
  - unfold set_tags. cbn -[merged_tags]. now rewrite !or_else_idempotent.
  - destruct (tags model) as [theirs|].
    + apply Permutation.NoDup_Permutation; try apply list_of_union_NoDup.
      intros t. rewrite !merged_tags_In. tauto.
    + now destruct (tags self).
Qed.

(** ** Lazy references *)

Lemma lazy_version_value self (s : Store) :
  _lazy_version self s =
    mkOutcome
      (Ok (match _number self with
           | Some n => Some (Py.str_int n)
           | None =>
               match version self with
               | Some v => Some (str_version (Some v))
               | None => None
               end
           end))
      self s [].
Proof.
  unfold _lazy_version. monad_laws.
  destruct (_number self); [reflexivity|].
  destruct (version self) as [[?|?|?]|]; reflexivity.
Qed.

(** X12: while a pipeline is being defined, each getter of a linked
    artifact returns a placeholder and calls nothing: no resolution, no
    creation, whatever the method of the response would do.  The
    placeholder holds the artifact's name and version as asked, the name of
    the model, and for the model version the number of the reference when
    it has one and else its version. *)
Theorem getters_are_lazy_in_a_pipeline {A : Type}
    (response_method :
       ModelVersionResponse -> string -> option string -> @M _ Store (option A))
    step_context name_ version_ self (s : Store) :
  exists placeholder,
    get_linked_artifact response_method true step_context name_ version_ self s
    = mkOutcome (Ok (Placeholder placeholder)) self s []
    /\ lazy_load_name placeholder = name_
    /\ lazy_load_version placeholder = version_
    /\ lazy_load_model_name placeholder = name self
    /\ (forall n, _number self = Some n ->
        lazy_load_model_version placeholder = Some (Py.str_int n))
    /\ (_number self = None ->
        lazy_load_model_version placeholder
        = match version self with
          | Some v => Some (str_version (Some v))
          | None => None
          end).
Proof.
  eexists. split.
  - unfold get_linked_artifact, _lazy_artifact_get. monad_laws.
    erewrite bind_ok by apply lazy_version_value.
    monad_laws. cbn. reflexivity.
  - cbn. repeat split.
    + intros n ->. reflexivity.
    + intros ->. reflexivity.
Qed.

(** X13: while a pipeline is being defined, [run_metadata] returns the lazy
    getter for the model's name and lazy version and calls nothing.
    Otherwise it resolves the version, and a response without run metadata
    becomes a [RuntimeError] after the effects of the resolution. *)
Theorem run_metadata_is_lazy_in_a_pipeline {R : Type}
    (response_run_metadata : ModelVersionResponse -> option R)
    step_context self (s : Store) :
  (exists lazy_version,
     _lazy_version self s = mkOutcome (Ok lazy_version) self s []
     /\ run_metadata response_run_metadata true step_context self s
        = mkOutcome (Ok (LazyGetter (name self) lazy_version)) self s [])
  /\ (forall mv self1 s1 evs,
        _get_or_create_model_version true step_context self s
          = mkOutcome (Ok mv) self1 s1 evs ->
        run_metadata response_run_metadata false step_context self s
        = mkOutcome
            (match response_run_metadata mv with
             | Some metadata => Ok (Loaded metadata)
             | None =>
                 Raise (RuntimeError (OtherRuntimeMessage
                          "Failed to fetch metadata of this model version."))
             end)
            self1 s1 evs)
  /\ (forall e self1 s1 evs,
        _get_or_create_model_version true step_context self s
          = mkOutcome (Raise e) self1 s1 evs ->
        run_metadata response_run_metadata false step_context self s
        = mkOutcome (Raise e) self1 s1 evs).
Proof.
  split; [|split].
  - eexists. split; [apply lazy_version_value|].
    unfold run_metadata. monad_laws.
    erewrite bind_ok by apply lazy_version_value.
    monad_laws. reflexivity.
  - intros mv self1 s1 evs H. unfold run_metadata.
    erewrite bind_ok by exact H.
    destruct (response_run_metadata mv); unfold ret, raise; cbn;
      now rewrite app_nil_r.
  - intros e self1 s1 evs H. unfold run_metadata.
    now erewrite bind_raised by exact H.
Qed.

(** X14: after a successful resolution the lazy version of the reference
    is the number of the resolved version, whatever selector it was
    declared with. *)
Theorem lazy_version_after_resolution hydrate step_context self (s : Store)
    mv self1 s1 evs :
  _get_or_create_model_version hydrate step_context self s
    = mkOutcome (Ok mv) self1 s1 evs ->
  _lazy_version self1 s1
  = mkOutcome (Ok (Some (Py.str_int (mv_number mv)))) self1 s1 [].
Proof.
  intros H. destruct (resolved_reference _ _ _ _ _ _ _ _ H) as [m ->].
  rewrite lazy_version_value. reflexivity.
Qed.

(** ** Validating twice *)

(** X15: what the validator returns passes the validator again unchanged
    and without a notice, also when it carries a version id: the first
    pass has marked it as validated. *)
Theorem root_validator_idempotent (data data' : ValidatorData) notices :
  _root_validator data = (Ok data', notices) ->
  _root_validator data' = (Ok data', []).
Proof.
  unfold _root_validator.
  destruct (negb _ && Py.is_not_None (data_model_version_id data));
    [discriminate|].
  intros [= <- _]. cbn. now rewrite !andb_false_r.
Qed.

(** ** The search through the run's configurations *)

(** X16: the search returns only a reference that was created in this run,
    has the name asked for and has a version; the model of the run's
    configuration goes first, then the steps in order, the first that fits;
    it returns nothing only when neither the run's model nor any step's
    model fits. *)
Theorem reuse_index_finds_first (context : StepContext) (target : string) :
  match model_of_this_run context target with
  | Some m =>
      was_created_in_this_run m = true /\ name m = target /\ version m <> None
      /\ (pipeline_run_config_model context = Some m
          \/ (created_in_this_run_for target (pipeline_run_config_model context)
              = false
              /\ exists before key after,
                   pipeline_run_steps context = before ++ (key, Some m) :: after
                   /\ Forall (fun step =>
                                created_in_this_run_for target (snd step) = false)
                        before))
  | None =>
      created_in_this_run_for target (pipeline_run_config_model context) = false
      /\ forall key m, In (key, Some m) (pipeline_run_steps context) ->
           ~ (was_created_in_this_run m = true /\ name m = target
              /\ version m <> None)
  end.
Proof.
  unfold model_of_this_run.
  destruct (created_in_this_run_for target (pipeline_run_config_model context))
    eqn:Hp.
  - destruct (pipeline_run_config_model context) as [m|]; [|discriminate].
    apply created_in_this_run_for_spec in Hp. tauto.
  - pose proof (first_step_model_spec target (pipeline_run_steps context)) as Hs.
    destruct (first_step_model target (pipeline_run_steps context)) as [m|].
    + destruct Hs as (before & key & after & Hsteps & Hm & Hbefore).
      apply created_in_this_run_for_spec in Hm.
      destruct Hm as (H1 & H2 & H3). repeat split; auto.
      right. split; [reflexivity|]. eauto.
    + split; [reflexivity|]. intros key m Hin Hfit.
      rewrite List.Forall_forall in Hs. specialize (Hs _ Hin).
      change (created_in_this_run_for target (Some m) = false) in Hs.
      apply created_in_this_run_for_spec in Hfit. congruence.
Qed.

(** ** Bounds and invariants of one call *)

Lemma create_with_retries_bounded mv_request indices retries_made self (s : Store) :
  let o := create_with_retries mv_request indices retries_made self s in
  count is_CreateModelVersion (events o) <= length indices
  /\ forall req, In (CreateModelVersion req) (events o) -> req = mv_request.
Proof.
  revert retries_made s.
  induction indices as [|i rest IH]; intros retries_made s; cbn zeta.
  - cbn. split; [lia|tauto].
  - loop_turn mv_request i s; cbn [events].
    1,2,4: split; [cbn; lia|]; intros req [[= <-]|[]]; reflexivity.
    specialize (IH (retries_made + 1) s').
    destruct (create_with_retries mv_request rest (retries_made + 1) self s')
      as [r self' s'' evs].
    cbn [events after_events app length] in *. destruct IH as [Hcount Hreq]. split.
    + match goal with |- count ?p (?a :: ?b :: ?c :: evs) <= _ =>
        change (count p ([a; b; c] ++ evs) <= S (length rest)) end.
      rewrite count_app. cbn. lia.
    + intros req [[= <-]|[[=]|[[=]|Hin]]]; auto.
Qed.


(** X17: whatever the store answers, one call asks at most
    [MAX_RETRIES_FOR_VERSIONED_ENTITY_CREATION] times for a creation and
    sleeps at most that many delays less one. *)
Theorem attempts_are_bounded hydrate step_context self (s : Store) :
  let o := _get_or_create_model_version hydrate step_context self s in
  count is_CreateModelVersion (events o)
    <= MAX_RETRIES_FOR_VERSIONED_ENTITY_CREATION
  /\ length (sleeps (events o)) <= MAX_RETRIES_FOR_VERSIONED_ENTITY_CREATION - 1.
Proof.
  intros o. subst o. split.
  - anatomy hydrate step_context self s; cbn [events].
    all: try (destruct (get_or_create_model_keeps _ _ _ _ _ _ Hmodel)
                as (_ & Hev1 & _)).
    all: try (destruct (fetch_configured_version_frame step_context
                          (formatted self1) s1) as (_ & _ & _ & _ & _ & Hev2 & _);
              rewrite Hfetch in Hev2; cbn in Hev2).
    all: try (destruct (create_with_retries_bounded
                          (model_version_request_of (formatted self1) model)
                          (seq 0 MAX_RETRIES_FOR_VERSIONED_ENTITY_CREATION) 0
                          self2 s2) as [Hc _];
              rewrite Hloop, List.length_seq in Hc; cbn [events] in Hc).
    all: rewrite ?count_app,
           ?(count_none _ _ (model_resolution_creates_no_version _ Hev1)),
           ?(count_none _ _ (version_fetch_creates_no_version _ Hev2)).
    1,2,5: cbn; lia.
    1,2: cbn [count List.filter is_CreateModelVersion length]; cbn; lia.
    destruct (get_or_create_model_frame self s) as [Hev _].
    rewrite Hmodel in Hev. cbn in Hev.
    rewrite (count_none _ _ (model_resolution_creates_no_version _ Hev)). lia.
  - destruct (sleeps_of_a_call hydrate step_context self s) as (j & Hj & ->).
    now rewrite List.length_map, List.length_seq.
Qed.


(** X19: the version [0] counts as no selector and is never looked up:
    with nothing to reuse, the call raises the reserved-name error for the
    name ["0"] right after the model is resolved, without a fetch and
    without a creation. *)
Theorem version_zero_is_refused hydrate step_context self (s : Store)
    model self1 s1 evs1 :
  version self = Some (VInt 0) ->
  model_version_id self = None ->
  reusable step_context (name self) = None ->
  _get_or_create_model self s = mkOutcome (Ok model) self1 s1 evs1 ->
  let o := _get_or_create_model_version hydrate step_context self s in
  result o = Raise (RuntimeError (CannotCreateNumericName "0" (name self)))
  /\ events o = evs1
  /\ store_after o = s1
  /\ existsb is_version_fetch_call (events o) = false
  /\ existsb is_CreateModelVersion (events o) = false.
Proof.
  intros Hv Hid Hreuse Hmodel o.
  destruct (get_or_create_model_keeps _ _ _ _ _ _ Hmodel) as (-> & Hev1 & _).
  set (self2 := formatted (set__model_id (Some (model_resp_id model)) self)).
  assert (Hfetch : fetch_configured_version step_context self2 s1
                   = mkOutcome (Raise KeyError) self2 s1 []).
  { rewrite fetch_configured_version_alone by (right; exact Hreuse).
    unfold self2, formatted. cbn. rewrite Hv, Hid. reflexivity. }
  assert (Hres : reserved_name (version self2) = true).
  { unfold self2, formatted. cbn. rewrite Hv. reflexivity. }
  subst o.
  rewrite (outcome_reserved hydrate step_context _ _ _ _ _ _ Hmodel KeyError
             _ _ _ Hfetch eq_refl Hres).
  cbn [result events store_after]. rewrite app_nil_r.
  repeat split.
  - unfold self2, formatted, reserved_name_error, is_stage_name. cbn.
    rewrite Hv. reflexivity.
  - apply (forallb_existsb_disjoint model_resolution_event); [|exact Hev1].
    intros [ | | ? [?|] | | | [] | ]; cbn; congruence.
  - now apply model_resolution_creates_no_version.
Qed.

(** X20: no call changes the name, the description or the tags of the
    reference, and a call that raises leaves [was_created_in_this_run] as
    it was. *)
Theorem resolution_keeps_the_declaration hydrate step_context self (s : Store) :
  let o := _get_or_create_model_version hydrate step_context self s in
  name (self_after o) = name self
  /\ description (self_after o) = description self
  /\ tags (self_after o) = tags self
  /\ (forall e, result o = Raise e ->
      was_created_in_this_run (self_after o) = was_created_in_this_run self).
Proof.
  intros o. subst o.
  anatomy hydrate step_context self s; cbn [result self_after].
  all: try (destruct (get_or_create_model_keeps _ _ _ _ _ _ Hmodel)
              as (Hs1 & _ & _)).
  all: try (destruct (fetch_configured_version_frame step_context
                        (formatted self1) s1) as (Hn & Hd & Ht & Hf & _);
            rewrite Hfetch, Hs1 in Hn, Hd, Ht, Hf;
            cbn in Hn, Hd, Ht, Hf).
  all: try (destruct (create_with_retries_frame
                        (model_version_request_of (formatted self1) model)
                        (seq 0 MAX_RETRIES_FOR_VERSIONED_ENTITY_CREATION) 0
                        self2 s2) as (Hs3 & _ & _);
            rewrite Hloop in Hs3; cbn in Hs3; subst self3).
  1-5: cbn; repeat split; try assumption; try discriminate; intros; assumption.
  destruct (get_or_create_model_frame self s) as [_ Hs].
  rewrite Hmodel in Hs. cbn in Hs. subst self1. repeat split.
Qed.

(** ** Before a step is launched *)

Section PrepareProperties.
Context `{L_ : Launcher} `{RS : !RunStore Store}.

(** X21: the method works on a copy: of [self] it changes nothing but
    [model_version_id], and nothing at all when it raises; the version, the
    name and [was_created_in_this_run] of [self] stay as they are, also
    when the copy has created a version.  It updates at most one run or
    step run. *)
Theorem prepare_changes_the_version_id_only step_context now self
    pipeline_run step_run return_logs (s : Store) :
  let o := _prepare_model_version_before_step_launch step_context now self
             pipeline_run step_run return_logs s in
  (launched_self o = self \/ exists i, launched_self o = set_model_version_id i self)
  /\ name (launched_self o) = name self
  /\ version (launched_self o) = version self
  /\ was_created_in_this_run (launched_self o) = was_created_in_this_run self
  /\ (forall e, launched o = Raise e -> launched_self o = self)
  /\ length (List.filter is_update (launched_events o)) <= 1.
Proof.
  assert (Hres : forall evs : list Event,
            List.filter is_update (map Resolving evs) = []).
  { induction evs as [|e evs IH]; cbn; auto. }
  intros o. subst o. unfold _prepare_model_version_before_step_launch.
  destruct (model_version_id (self_copy_for now self pipeline_run step_run))
    as [i|] eqn:Hid.
  - cbn. repeat split; try discriminate; eauto.
  - destruct (_get_or_create_model_version false step_context
                (self_copy_for now self pipeline_run step_run) s)
      as [[mv|e] copy1 s1 evs] eqn:Hmain.
    + destruct step_run as [step|].
      * destruct (update_run_step (step_run_id step) (mv_id mv) s1)
          as [[step'|e] s2]; cbn;
          rewrite List.filter_app, Hres; cbn;
          repeat split; try discriminate; eauto.
      * destruct (update_run (run_id pipeline_run) (mv_id mv) s1)
          as [[run'|e] s2]; cbn;
          rewrite List.filter_app, Hres; cbn;
          repeat split; try discriminate; eauto.
    + cbn. rewrite Hres. cbn. repeat split; eauto.
Qed.

(** X22: when the step has no model of its own and the run already has a
    version, or when the reference already knows its version id, the
    method calls nothing: it returns no logs and the run and the step run
    as they came, and [self] holds the version id of the run, or its own. *)
Theorem prepare_reuses_the_known_version step_context now self
    pipeline_run step_run return_logs (s : Store) :
  let o := _prepare_model_version_before_step_launch step_context now self
             pipeline_run step_run return_logs s in
  (forall mv, step_run = None -> run_model_version pipeline_run = Some mv ->
     o = mkLaunched (Ok ("", pipeline_run, None))
           (set_model_version_id (Some (mv_id mv)) self) s [])
  /\ (forall i, model_version_id self = Some i ->
      (step_run <> None \/ run_model_version pipeline_run = None) ->
      o = mkLaunched (Ok ("", pipeline_run, step_run))
            (set_model_version_id (Some i) self) s []).
Proof.
  intros o. subst o. unfold _prepare_model_version_before_step_launch. split.
  - intros mv -> Hrun. unfold self_copy_for. rewrite Hrun. reflexivity.
  - intros i Hid Hown.
    assert (Hcopy : model_version_id
                      (self_copy_for now self pipeline_run step_run) = Some i).
    { unfold self_copy_for.
      destruct step_run as [step|], (run_model_version pipeline_run) as [mv|];
        try (destruct Hown; congruence);
        destruct (version self) as [[?|?|?]|]; exact Hid. }
    rewrite Hcopy. reflexivity.
Qed.

(** X23: when the exact version is not known, the copy is resolved first.
    If that succeeds, the one update follows, addressed to the step run
    when there is one and else to the run, with the id of the resolved
    version, which is the id [self] holds afterwards.  If the resolution
    raises, nothing is updated and [self] is untouched. *)
Theorem prepare_resolves_then_updates step_context now self
    pipeline_run step_run return_logs (s : Store) :
  model_version_id (self_copy_for now self pipeline_run step_run) = None ->
  let self_copy := self_copy_for now self pipeline_run step_run in
  let o := _prepare_model_version_before_step_launch step_context now self
             pipeline_run step_run return_logs s in
  (forall mv copy1 s1 evs,
     _get_or_create_model_version false step_context self_copy s
       = mkOutcome (Ok mv) copy1 s1 evs ->
     launched_events o
     = map Resolving evs
       ++ [match step_run with
           | Some step => UpdateRunStep (step_run_id step) (mv_id mv)
           | None => UpdateRun (run_id pipeline_run) (mv_id mv)
           end]
     /\ (forall logs run' step',
           launched o = Ok (logs, run', step') ->
           logs = logs_for return_logs mv
           /\ launched_self o = set_model_version_id (Some (mv_id mv)) self
           /\ (step_run = None -> step' = None)
           /\ (step_run <> None -> run' = pipeline_run /\ step' <> None)))
  /\ (forall e copy1 s1 evs,
        _get_or_create_model_version false step_context self_copy s
          = mkOutcome (Raise e) copy1 s1 evs ->
        o = mkLaunched (Raise e) self s1 (map Resolving evs)).
Proof.
  intros Hid self_copy o. subst o self_copy.
  unfold _prepare_model_version_before_step_launch. rewrite Hid. split.
  - intros mv copy1 s1 evs Hmain. rewrite Hmain.
    destruct (resolved_reference _ _ _ _ _ _ _ _ Hmain) as [m ->].
    destruct step_run as [step|].
    + destruct (update_run_step (step_run_id step) (mv_id mv) s1)
        as [[step'|e] s2]; cbn; split; try reflexivity; try discriminate.
      intros logs run' step'' [= <- <- <-].
      repeat split; congruence.
    + destruct (update_run (run_id pipeline_run) (mv_id mv) s1)
        as [[run'|e] s2]; cbn; split; try reflexivity; try discriminate.
      intros logs run'' step'' [= <- <- <-].
      repeat split; congruence.
  - intros e copy1 s1 evs Hmain. rewrite Hmain. reflexivity.
Qed.

End PrepareProperties.

End Properties.

(** * The statements at work on concrete stores *)

Module Examples.
Import Example.

(** C1, the claim as written fails: the selector ["v1"] is set, the fetch
    misses, and the call creates the version. *)
Lemma explicit_name_miss_creates :
  let self := reference "churn" (Some (VStr "v1")) in
  let o := _get_or_create_model_version false None self no_such_version in
  truthy_version (version self) = true
  /\ fst (fetch_answer true self (snd (get_model "churn" no_such_version)))
     = Raise KeyError
  /\ result o = Ok (churn_named "v1")
  /\ events o =
       [GetModel "churn";
        GetModelVersion "churn" (Some (VStr "v1")) true;
        CreateModelVersion
          (mkModelVersionRequest 1%N 2%N (Some "v1") None 10%N None);
        Log (CreatedNewModelVersion (Some (VStr "v1")) "churn")].
Proof. vm_compute. repeat split. Qed.

Lemma selector_miss_witness :
  let o := _get_or_create_model_version false None
             (reference "churn" (Some (VStr "Staging"))) no_such_version in
  let o' := _get_or_create_model_version false None
              (reference "churn" (Some (VStr "²"))) no_such_version in
  (result o = Raise (RuntimeError (CannotCreateStageName "Staging" "churn"))
   /\ existsb is_CreateModelVersion (events o) = false)
  /\ (result o' = Raise (RuntimeError (CannotCreateNumericName "²" "churn"))
      /\ existsb is_CreateModelVersion (events o') = false).
Proof.
  assert (Hnumeric : reserved_name (Some (VStr "²")) = true)
    by (vm_compute; reflexivity).
  split.
  - refine (proj1 (selector_miss false None
              (reference "churn" (Some (VStr "Staging"))) no_such_version
              churn_model _ _ _ _ _ _ _) _); reflexivity.
  - refine (proj1 (selector_miss false None
              (reference "churn" (Some (VStr "²"))) no_such_version
              churn_model _ _ _ _ _ _ _) Hnumeric); reflexivity.
Defined.

(** C2, the claim as written fails: the refusal comes after two calls to
    the store. *)
Lemma reserved_name_refused_after_store_calls :
  let self := reference "churn" (Some (VStr "staging")) in
  let o := _get_or_create_model_version false None self no_such_version in
  result o = Raise (RuntimeError (CannotCreateStageName "staging" "churn"))
  /\ events o =
       [GetModel "churn"; GetModelVersion "churn" (Some (VStr "staging")) true]
  /\ count is_store_call (events o) = 2.
Proof. vm_compute. repeat split. Qed.

Lemma reserved_selector_never_created_witness :
  let o := _get_or_create_model_version false None
             (reference "churn" (Some (VStr "7"))) no_such_version in
  existsb is_CreateModelVersion (events o) = false
  /\ existsb is_store_call (events o) = true.
Proof.
  pose proof (reserved_selector_never_created false None
                (reference "churn" (Some (VStr "7"))) no_such_version
                eq_refl eq_refl) as H.
  destruct H as (Hnone & Hcalled & _). split; [exact Hnone|exact Hcalled].
Defined.



Lemma backoff_schedule_witness :
  let o := _get_or_create_model_version false None (reference "churn" None) tt in
  nth_error (sleeps (events o)) 3 = Some (0.2 * Py.fpow 1.5 3)%float
  /\ 3 < MAX_RETRIES_FOR_VERSIONED_ENTITY_CREATION - 1
  /\ firstn 9 (sleeps (events o)) = map backoff (seq 0 9).
Proof.
  intros o.
  destruct (backoff_schedule false None (reference "churn" None) tt)
    as (Hall & Hslept & _).
  assert (H : nth_error (sleeps (events o)) 3 = Some (backoff 3))
    by (vm_compute; reflexivity).
  destruct (Hall 3 (backoff 3) H) as (Hi & _ & Hexact).
  destruct (Hexact ltac:(repeat constructor)) as (Hd & _).
  assert (Hmiss : not_found None (reference "churn" None) tt tt)
    by (repeat split; intros m []).
  split; [rewrite <- Hd; exact H|]. split; [exact Hi|].
  exact (Hslept churn_model
           (set__model_id (Some 10%N) (reference "churn" None)) tt
           [GetModel "churn"] tt 9 tt eq_refl eq_refl Hmiss
           (Nat.lt_succ_diag_r 9) eq_refl).
Defined.

Lemma creation_conflicts_exhaust_retries_witness :
  let o := _get_or_create_model_version false None (reference "churn" None) tt in
  let o' := _get_or_create_model_version false None
              (reference "churn" (Some (VStr "v1"))) failing_store in
  (result o = Raise (RuntimeError (FailedToCreateModelVersion "new" "churn" 9))
   /\ count is_CreateModelVersion (events o) = 10)
  /\ (result o' = Raise (OtherException "the store is down")
      /\ count is_CreateModelVersion (events o') = 3
      /\ sleeps (events o') = [backoff 0; backoff 1]).
Proof.
  split.
  - assert (Hmiss : not_found None (reference "churn" None) tt tt)
      by (repeat split; intros m []).
    destruct (creation_conflicts_exhaust_retries false None
                (reference "churn" None) tt churn_model
                (set__model_id (Some 10%N) (reference "churn" None)) tt
                [GetModel "churn"] tt
                ltac:(discriminate) eq_refl eq_refl Hmiss)
      as (Hall & _).
    destruct (Hall tt eq_refl) as (Hres & Hcount & _).
    split; [exact Hres|exact Hcount].
  - assert (Hmodel :
      _get_or_create_model (reference "churn" (Some (VStr "v1"))) failing_store
      = mkOutcome (Ok churn_model)
          (set__model_id (Some 10%N) (reference "churn" (Some (VStr "v1"))))
          (mkScript [] [] [] [Raise KeyError] (on_create_model_version failing_store))
          [GetModel "churn"])
      by (vm_compute; reflexivity).
    assert (Hmiss :
      not_found None (reference "churn" (Some (VStr "v1")))
        (mkScript [] [] [] [Raise KeyError] (on_create_model_version failing_store))
        (mkScript [] [] [] [] (on_create_model_version failing_store)))
      by (vm_compute; reflexivity).
    destruct (creation_conflicts_exhaust_retries false None
                (reference "churn" (Some (VStr "v1"))) failing_store churn_model
                _ _ _ _
                ltac:(discriminate) Hmodel eq_refl Hmiss)
      as (_ & Hother).
    assert (Hlast :
      create_model_version
        (mkModelVersionRequest 1%N 2%N (Some "v1") None 10%N None)
        (mkScript [] [] [] [] [Raise (OtherException "the store is down")])
      = (Raise (OtherException "the store is down"), mkScript [] [] [] [] []))
      by (vm_compute; reflexivity).
    destruct (Hother 2 _ _ _ ltac:(repeat constructor) eq_refl Hlast eq_refl)
      as (Hres & Hcount & Hsleeps & _).
    split; [exact Hres|]. split; [exact Hcount|exact Hsleeps].
Defined.


(** C7, the claim as written fails: the declared description differs from
    the stored one, the fetched version carries no metadata, and nothing is
    reported. *)
Lemma description_mismatch_unreported :
  let self := declaring "churn" (Some (VStr "1")) (Some "second") None in
  let o := _get_model_version false self (store_with churn_v1_unhydrated) in
  description self = Some "second"
  /\ result o = Ok churn_v1_unhydrated
  /\ mv_description churn_v1_unhydrated = Some "first"
  /\ events o = [GetModelVersion "churn" (Some (VStr "1")) false].
Proof. vm_compute. repeat split. Qed.

Lemma fetch_reconciles_without_writing_witness :
  let self := declaring "churn" (Some (VStr "1")) None (Some ["b"; "c"]) in
  let o := _get_model_version true self (store_with churn_v1) in
  result o = Ok churn_v1
  /\ tags (self_after o) = Some ["b"; "c"]
  /\ diff_tags_added (difference_of self churn_v1) = Some {[ "c" ]}
  /\ diff_tags_removed (difference_of self churn_v1) = Some {[ "a" ]}
  /\ events o =
       [GetModelVersion "churn" (Some (VStr "1")) true;
        Log (ConfigurationMismatch "churn" (Some (VStr "1"))
               (difference_of self churn_v1))].
Proof.
  pose proof (fetch_reconciles_without_writing true
                (declaring "churn" (Some (VStr "1")) None (Some ["b"; "c"]))
                (store_with churn_v1) _ churn_v1 eq_refl) as H.
  destruct H as (Hok & _ & _ & _ & _ & Htags & Hevents & _ & _ & Hdiff & _).
  destruct (Hdiff "b" ["c"] eq_refl) as (Hadded & Hremoved & Hwarning).
  { vm_compute. discriminate. }
  split; [exact Hok|]. split; [exact Htags|].
  split; [rewrite Hadded; vm_compute; reflexivity|].
  split; [rewrite Hremoved; vm_compute; reflexivity|].
  cbv zeta. rewrite Hevents, Hwarning. reflexivity.
Defined.

Lemma model_conflict_refetched_once_witness :
  _get_or_create_model (reference "churn" None) raced_model_store
  = mkOutcome (Ok churn_model)
      (set__model_id (Some 10%N) (reference "churn" None))
      (mkScript [] [] [] [] [])
      [GetModel "churn"; CreateModel (model_request_of (reference "churn" None));
       GetModel "churn"].
Proof.
  refine (proj1 (model_conflict_refetched_once (reference "churn" None)
                   raced_model_store
                   (mkScript [Ok churn_model] [Raise EntityExistsError] [] [] [])
                   (mkScript [Ok churn_model] [] [] [] [])
                   eq_refl eq_refl)
            churn_model (mkScript [] [] [] [] []) eq_refl eq_refl).
Defined.

Lemma resolution_is_cached_witness :
  let o := _get_or_create_model_version false None (reference "churn" None)
             creating_store in
  model_version_id (self_after o) = Some 100%N
  /\ _number (self_after o) = Some 1%Z
  /\ _model_id (self_after o) = Some 10%N
  /\ was_created_in_this_run (self_after o) = true.
Proof.
  exact (resolution_is_cached false None (reference "churn" None)
           creating_store churn_v1 eq_refl).
Defined.

Lemma lazy_version_reads_fields_witness :
  exists answer,
    _lazy_version (reference "churn" (Some (VStage PRODUCTION))) creating_store
    = mkOutcome (Ok answer) (reference "churn" (Some (VStage PRODUCTION)))
        creating_store []
    /\ answer = Some "production".
Proof.
  destruct (lazy_version_reads_fields
              (reference "churn" (Some (VStage PRODUCTION))) creating_store)
    as (answer & Hrun & _ & Hstage & _).
  exists answer. split; [exact Hrun|exact (Hstage PRODUCTION eq_refl eq_refl)].
Defined.

End Examples.

(** * The further properties at work on concrete stores *)

Module MoreExamples.
Import Example.

Lemma id_is_cached_witness :
  exists mv,
    Some 100%N = Some (mv_id mv)
    /\ Attr.number None
         (self_after (Attr.id None (reference "churn" None) creating_store))
         (store_after (Attr.id None (reference "churn" None) creating_store))
       = mkOutcome (Ok (Some (mv_number mv)))
           (self_after (Attr.id None (reference "churn" None) creating_store))
           (store_after (Attr.id None (reference "churn" None) creating_store))
           [].
Proof.
  assert (H : Attr.id None (reference "churn" None) creating_store
              = mkOutcome (Ok (Some 100%N))
                  (self_after (Attr.id None (reference "churn" None) creating_store))
                  (store_after (Attr.id None (reference "churn" None) creating_store))
                  (events (Attr.id None (reference "churn" None) creating_store)))
    by (vm_compute; reflexivity).
  destruct (id_is_cached None None (reference "churn" None) creating_store
              _ _ _ _ eq_refl H) as (mv & Hi & _ & Hnumber & _).
  exists mv. split; [exact Hi|exact Hnumber].
Defined.

Lemma resolution_errors_translated_witness :
  result (Attr.number None (reference "churn" None) tt) = Raise KeyError.
Proof.
  assert (H : _get_or_create_model_version false None (reference "churn" None) tt
              = mkOutcome
                  (Raise (RuntimeError
                            (FailedToCreateModelVersion "new" "churn" 9)))
                  (self_after (_get_or_create_model_version false None
                                 (reference "churn" None) tt))
                  tt
                  (events (_get_or_create_model_version false None
                             (reference "churn" None) tt)))
    by (vm_compute; reflexivity).
  rewrite (proj2 (resolution_errors_translated None (reference "churn" None) tt
                    _ _ _ _ H) eq_refl).
  reflexivity.
Defined.

Lemma unknown_version_reported_witness :
  result (Attr.id None (reference "churn" (Some (VStr "7"))) no_such_version)
  = Raise (RuntimeError (OtherRuntimeMessage
      "Version `7` of `churn` model doesn't exist and cannot be fetched from the Model Control Plane."))
  /\ result (Attr.number None (reference "churn" (Some (VStr "7"))) no_such_version)
     = Raise KeyError.
Proof.
  assert (Hmodel :
    _get_or_create_model (reference "churn" (Some (VStr "7"))) no_such_version
    = mkOutcome (Ok churn_model)
        (set__model_id (Some 10%N) (reference "churn" (Some (VStr "7"))))
        (mkScript [] [] [] [Raise KeyError] [Ok (churn_named "v1")])
        [GetModel "churn"]) by (vm_compute; reflexivity).
  assert (Hmiss :
    fetch_answer true (formatted (reference "churn" (Some (VStr "7"))))
      (mkScript [] [] [] [Raise KeyError] [Ok (churn_named "v1")])
    = (Raise KeyError, mkScript [] [] [] [] [Ok (churn_named "v1")]))
    by (vm_compute; reflexivity).
  destruct (unknown_version_reported None
              (reference "churn" (Some (VStr "7"))) no_such_version
              churn_model _ _ _ _
              eq_refl eq_refl Hmodel eq_refl eq_refl Hmiss)
    as (Hid & Hnumber & _).
  split; [exact Hid|exact Hnumber].
Defined.

Lemma model_of_known_version_witness :
  events (_get_or_create_model
            (set_model_version_id (Some 100%N) (reference "churn" None))
            (store_with churn_v1))
  = [GetModelVersionById 100%N None].
Proof.
  exact (proj1 (model_of_known_version
                  (set_model_version_id (Some 100%N) (reference "churn" None))
                  (store_with churn_v1) 100%N eq_refl)).
Defined.

Lemma eq_means_same_version_witness :
  name (reference "churn" (Some (VStr "production")))
  = name (reference "churn" (Some (VStage PRODUCTION))).
Proof.
  exact (proj1 (eq_means_same_version None
                  (reference "churn" (Some (VStr "production")))
                  (reference "churn" (Some (VStage PRODUCTION)))
                  creating_store eq_refl)).
Defined.

Lemma eq_by_name_and_version_hash_witness :
  __hash__ (fun key => Z.of_nat (String.length key))
    (reference "churn" (Some (VStr "production")))
  = __hash__ (fun key => Z.of_nat (String.length key))
      (reference "churn" (Some (VStage PRODUCTION))).
Proof.
  exact (eq_by_name_and_version_hash _
           (reference "churn" (Some (VStr "production")))
           (reference "churn" (Some (VStage PRODUCTION))) eq_refl eq_refl).
Defined.

Lemma lazy_version_after_resolution_witness :
  result (_lazy_version
            (self_after (_get_or_create_model_version false None
                           (reference "churn" (Some (VStage PRODUCTION)))
                           (store_with churn_v1)))
            (store_after (_get_or_create_model_version false None
                            (reference "churn" (Some (VStage PRODUCTION)))
                            (store_with churn_v1))))
  = Ok (Some "1").
Proof.
  assert (H : _get_or_create_model_version false None
                (reference "churn" (Some (VStage PRODUCTION)))
                (store_with churn_v1)
              = mkOutcome (Ok churn_v1)
                  (self_after (_get_or_create_model_version false None
                                 (reference "churn" (Some (VStage PRODUCTION)))
                                 (store_with churn_v1)))
                  (store_after (_get_or_create_model_version false None
                                  (reference "churn" (Some (VStage PRODUCTION)))
                                  (store_with churn_v1)))
                  (events (_get_or_create_model_version false None
                             (reference "churn" (Some (VStage PRODUCTION)))
                             (store_with churn_v1))))
    by (vm_compute; reflexivity).
  rewrite (lazy_version_after_resolution _ _ _ _ _ _ _ _ H). reflexivity.
Defined.

Lemma root_validator_idempotent_witness :
  _root_validator (mkValidatorData (Some true) None (Some (VStr "production")))
  = (Ok (mkValidatorData (Some true) None (Some (VStr "production"))), []).
Proof.
  exact (root_validator_idempotent
           (mkValidatorData None None (Some (VStr "production")))
           _ _ eq_refl).
Defined.


Lemma version_zero_is_refused_witness :
  result (_get_or_create_model_version false None
            (reference "churn" (Some (VInt 0))) no_such_version)
  = Raise (RuntimeError (CannotCreateNumericName "0" "churn")).
Proof.
  exact (proj1 (version_zero_is_refused false None
                  (reference "churn" (Some (VInt 0))) no_such_version
                  churn_model _ _ _ eq_refl eq_refl eq_refl eq_refl)).
Defined.

Lemma prepare_resolves_then_updates_witness :
  launched_events
    (_prepare_model_version_before_step_launch (Store := Script) None 0
       (reference "churn" None) run_7 (Some step_run_8) true creating_store)
  = map Resolving
      (events (_get_or_create_model_version false None
                 (reference "churn" None) creating_store))
    ++ [UpdateRunStep 8%N 100%N].
Proof.
  assert (H : _get_or_create_model_version (Store := Script) false None
                (self_copy_for (L_ := launcher) 0 (reference "churn" None) run_7
                   (Some step_run_8))
                creating_store
              = mkOutcome (Ok churn_v1)
                  (self_after (_get_or_create_model_version false None
                                 (reference "churn" None) creating_store))
                  (store_after (_get_or_create_model_version false None
                                  (reference "churn" None) creating_store))
                  (events (_get_or_create_model_version false None
                             (reference "churn" None) creating_store)))
    by (vm_compute; reflexivity).
  exact (proj1 (proj1 (prepare_resolves_then_updates (Store := Script) None 0
                         (reference "churn" None) run_7 (Some step_run_8) true
                         creating_store eq_refl) _ _ _ _ H)).
Defined.

End MoreExamples.
